(** * Wisconsin sales downloader: a shallow embedding of
      [wi_sales_downloader.py] and the properties of its specification.

    The script enumerates months, probes two URL variants per month,
    fetches and re-encodes what it finds, and stops after three
    consecutive misses.  Python integers are [Z], [bytes] are
    [list Byte.byte], [str] values that the script builds (identifiers,
    file names, URLs) are [string], the start date given on the command
    line is a [string] whose characters stand for the code points
    0..255, decoded text is a list of Unicode
    code points, the set of existing stems is a [gset string], and the
    network, the archive library and the disk are oracles collected in
    a [World] record. *)

From Stdlib Require Import ZArith List String Ascii Lia DecimalString.
From Stdlib.Strings Require Import Byte.
From stdpp Require Import gmap strings list.

Local Open Scope Z_scope.

(* ================================================================== *)
(** ** Python integer formatting: [f"{n:04d}"], [f"{n:02d}"], [str(n)] *)
(* ================================================================== *)

Module PyFormat.

(** [str(n)] for a Python int: decimal digits, a leading [-] on negatives. *)
Definition str_int (n : Z) : string := NilZero.string_of_int (Z.to_int n).

(** Left padding with the character 0 up to [width] characters. *)
Definition zfill (width : nat) (digits : string) : string :=
  string_of_list_ascii (repeat "0"%char (width - String.length digits)) +:+ digits.

(** The format specification [0<width>d]: sign-aware zero padding, the
    sign counts towards the width, and wider numbers are not cut. *)
Definition format_0d (width : nat) (n : Z) : string :=
  if n <? 0 then "-" +:+ zfill (width - 1) (str_int (- n))
  else zfill width (str_int n).

(** The digit character of a value in 0..9. *)
Definition digit_char (d : Z) : ascii := ascii_of_nat (48 + Z.to_nat d).

(** Fixed-width renderings, digit by digit, used to state what
    [format_0d] produces on the ranges the script reaches. *)
Definition four_digits (n : Z) : string :=
  String (digit_char (n / 1000))
    (String (digit_char (n / 100 mod 10))
       (String (digit_char (n / 10 mod 10))
          (String (digit_char (n mod 10)) EmptyString))).

Definition two_digits (n : Z) : string :=
  String (digit_char (n / 10)) (String (digit_char (n mod 10)) EmptyString).

End PyFormat.

(* ================================================================== *)
(** ** Month enumerator: [generate_months] *)
(* ================================================================== *)

Module Months.
Import PyFormat.

(** A month as the pair [(year, month)] of Python ints. *)
Definition month := (Z * Z)%type.

(** [f"{current_year:04d}{current_month:02d}"] *)
Definition month_id (ym : month) : string :=
  format_0d 4 (fst ym) +:+ format_0d 2 (snd ym).

(** The guard of the [while] loop, with [now = (now.year, now.month)]. *)
Definition loop_cond (now cur : month) : bool :=
  (fst cur <? fst now) || ((fst cur =? fst now) && (snd cur <=? snd now)).

(** The three statements after the [yield]. *)
Definition advance (cur : month) : month :=
  let current_month := snd cur + 1 in
  if current_month >? 12 then (fst cur + 1, 1) else (fst cur, current_month).

(** The generator, run to exhaustion.  The loop is not structurally
    recursive, so it is driven by fuel; [None] means the fuel ran out
    while the guard still held. *)
Fixpoint generate_months_loop (fuel : nat) (now cur : month) : option (list string) :=
  if loop_cond now cur then
    match fuel with
    | O => None
    | S fuel' =>
        match generate_months_loop fuel' now (advance cur) with
        | Some rest => Some (month_id cur :: rest)
        | None => None
        end
    end
  else Some [].

(** A bound on the number of iterations from [cur]: thirteen per
    remaining year plus the months left before the wrap. *)
Definition iterations_bound (now cur : month) : nat :=
  Z.to_nat (fst now - fst cur + 1) * 13 + Z.to_nat (13 - snd cur).

(** [generate_months(start_date_str)], after
    [start_year, start_month = map(int, start_date_str.split("-"))] and
    with [now] the value of [datetime.now()] read when the generator
    starts. *)
Definition generate_months (now start : month) : option (list string) :=
  generate_months_loop (iterations_bound now start) now start.

(** *** The enumeration in the specification's words *)

(** Months counted from year 0, January. *)
Definition month_index (ym : month) : Z := 12 * fst ym + (snd ym - 1).

Definition month_of_index (i : Z) : month := (i / 12, i mod 12 + 1).

Definition valid_month (ym : month) : Prop := 1 <= snd ym <= 12.

(** Every month from [s] to [c] inclusive, one per step. *)
Definition months_from_to (s c : month) : list month :=
  map (fun k => month_of_index (month_index s + Z.of_nat k))
      (seq 0 (Z.to_nat (month_index c - month_index s + 1))).

End Months.

(* ================================================================== *)
(** ** Text codecs: [bytes.decode(encoding)] and [str.encode('utf-8')] *)
(* ================================================================== *)

Module Codec.

(** A Python [str] holding decoded text: its sequence of code points. *)
Definition text := list Z.

Definition byte_val (b : byte) : Z := Z.of_N (Byte.to_N b).

Definition byte_of_val (v : Z) : byte :=
  match Byte.of_N (Z.to_N v) with
  | Some b => b
  | None => x00
  end.

(** A continuation byte, 0x80..0xBF. *)
Definition is_cont (v : Z) : bool := (128 <=? v) && (v <=? 191).

(** The second byte of a three-byte form: 0xE0 excludes overlong forms,
    0xED excludes the surrogates. *)
Definition second_ok3 (v0 v1 : Z) : bool :=
  if v0 =? 224 then (160 <=? v1) && (v1 <=? 191)
  else if v0 =? 237 then (128 <=? v1) && (v1 <=? 159)
  else is_cont v1.

(** The second byte of a four-byte form: 0xF0 excludes overlong forms,
    0xF4 stops at U+10FFFF. *)
Definition second_ok4 (v0 v1 : Z) : bool :=
  if v0 =? 240 then (144 <=? v1) && (v1 <=? 191)
  else if v0 =? 244 then (128 <=? v1) && (v1 <=? 143)
  else is_cont v1.

(** [bs.decode('utf-8')] with the default strict error handler; [None]
    stands for [UnicodeDecodeError]. *)
Fixpoint decode_utf8 (bs : list byte) : option text :=
  match bs with
  | [] => Some []
  | b0 :: r0 =>
      let v0 := byte_val b0 in
      if v0 <? 128 then
        match decode_utf8 r0 with Some t => Some (v0 :: t) | None => None end
      else if (194 <=? v0) && (v0 <=? 223) then
        match r0 with
        | b1 :: r1 =>
            let v1 := byte_val b1 in
            if is_cont v1 then
              match decode_utf8 r1 with
              | Some t => Some ((v0 - 192) * 64 + (v1 - 128) :: t)
              | None => None
              end
            else None
        | _ => None
        end
      else if (224 <=? v0) && (v0 <=? 239) then
        match r0 with
        | b1 :: b2 :: r2 =>
            let v1 := byte_val b1 in
            let v2 := byte_val b2 in
            if second_ok3 v0 v1 && is_cont v2 then
              match decode_utf8 r2 with
              | Some t =>
                  Some ((v0 - 224) * 4096 + (v1 - 128) * 64 + (v2 - 128) :: t)
              | None => None
              end
            else None
        | _ => None
        end
      else if (240 <=? v0) && (v0 <=? 244) then
        match r0 with
        | b1 :: b2 :: b3 :: r3 =>
            let v1 := byte_val b1 in
            let v2 := byte_val b2 in
            let v3 := byte_val b3 in
            if second_ok4 v0 v1 && is_cont v2 && is_cont v3 then
              match decode_utf8 r3 with
              | Some t =>
                  Some ((v0 - 240) * 262144 + (v1 - 128) * 4096
                        + (v2 - 128) * 64 + (v3 - 128) :: t)
              | None => None
              end
            else None
        | _ => None
        end
      else None
  end.

(** The 27 bytes of 0x80..0x9F that code page 1252 defines; 0x81, 0x8D,
    0x8F, 0x90 and 0x9D are undefined and make the decoder fail. *)
Definition cp1252_high (v : Z) : option Z :=
  match v with
  | 128 => Some 8364 | 130 => Some 8218 | 131 => Some 402 | 132 => Some 8222
  | 133 => Some 8230 | 134 => Some 8224 | 135 => Some 8225 | 136 => Some 710
  | 137 => Some 8240 | 138 => Some 352 | 139 => Some 8249 | 140 => Some 338
  | 142 => Some 381 | 145 => Some 8216 | 146 => Some 8217 | 147 => Some 8220
  | 148 => Some 8221 | 149 => Some 8226 | 150 => Some 8211 | 151 => Some 8212
  | 152 => Some 732 | 153 => Some 8482 | 154 => Some 353 | 155 => Some 8250
  | 156 => Some 339 | 158 => Some 382 | 159 => Some 376
  | _ => None
  end.

Definition cp1252_char (v : Z) : option Z :=
  if (128 <=? v) && (v <=? 159) then cp1252_high v else Some v.

(** [bs.decode('cp1252')] *)
Fixpoint decode_cp1252 (bs : list byte) : option text :=
  match bs with
  | [] => Some []
  | b :: rest =>
      match cp1252_char (byte_val b), decode_cp1252 rest with
      | Some c, Some t => Some (c :: t)
      | _, _ => None
      end
  end.

(** [bs.decode('latin-1')]: byte [b] is code point [b]. *)
Definition decode_latin1 (bs : list byte) : option text :=
  Some (map byte_val bs).

(** One code point in UTF-8; [None] stands for [UnicodeEncodeError]
    (a surrogate) or a value that is no code point. *)
Definition encode_utf8_char (c : Z) : option (list byte) :=
  if c <? 0 then None
  else if c <? 128 then Some [byte_of_val c]
  else if c <? 2048 then
    Some [byte_of_val (192 + c / 64); byte_of_val (128 + c mod 64)]
  else if c <? 65536 then
    if (55296 <=? c) && (c <=? 57343) then None
    else Some [byte_of_val (224 + c / 4096);
               byte_of_val (128 + c / 64 mod 64);
               byte_of_val (128 + c mod 64)]
  else if c <? 1114112 then
    Some [byte_of_val (240 + c / 262144);
          byte_of_val (128 + c / 4096 mod 64);
          byte_of_val (128 + c / 64 mod 64);
          byte_of_val (128 + c mod 64)]
  else None.

(** [t.encode('utf-8')] *)
Fixpoint encode_utf8 (t : text) : option (list byte) :=
  match t with
  | [] => Some []
  | c :: rest =>
      match encode_utf8_char c, encode_utf8 rest with
      | Some bs, Some bs' => Some (bs ++ bs')
      | _, _ => None
      end
  end.

End Codec.

(* ================================================================== *)
(** ** Exceptions, effects and the outside world *)
(* ================================================================== *)

Module Py.
Import Codec.

(** The subclasses of [requests.RequestException] that matter here. *)
Inductive request_error :=
| Timeout             (* connect or read timeout *)
| ConnectionError     (* DNS failure, refused or reset connection *)
| HTTPError           (* raised by [raise_for_status] *)
| OtherRequestError.

(** The exception classes the script can meet.  All but
    [KeyboardInterrupt] derive from [Exception]. *)
Inductive exn :=
| RequestException (k : request_error)
| BadZipFile
| UnicodeDecodeError
| UnicodeEncodeError
| LookupError
| ValueError
| KeyError
| OSError
| OtherException
| KeyboardInterrupt.

Definition is_RequestException (e : exn) : bool :=
  match e with RequestException _ => true | _ => false end.

Definition is_BadZipFile (e : exn) : bool :=
  match e with BadZipFile => true | _ => false end.

(** [except (UnicodeDecodeError, UnicodeError)] *)
Definition is_UnicodeError (e : exn) : bool :=
  match e with UnicodeDecodeError | UnicodeEncodeError => true | _ => false end.

(** [except Exception] *)
Definition is_Exception (e : exn) : bool :=
  match e with KeyboardInterrupt => false | _ => true end.

Inductive result (A : Type) :=
| Return (a : A)
| Raise (e : exn).
Arguments Return {A} a.
Arguments Raise {A} e.

(** What a run does to the outside, in order. *)
Inductive event :=
| EvHead (url : string)                       (* [requests.head(url, timeout=10)] *)
| EvGet (url : string)                        (* [requests.get(url, timeout=30)] *)
| EvWrite (path : string) (data : list byte)  (* bytes handed to the file at [path] *)
| EvPrint (line : string)
| EvPrintError (prefix : string) (e : exn).   (* a line ending in [{e}] *)

(** The environment of one run.  Each URL is requested at most once per
    verb in a run, so the answers are functions of the request. *)
Record World := {
  requests_head : string -> result Z;                  (* status code *)
  requests_get : string -> result (Z * list byte);     (* status code, body *)
  zip_read : list byte -> string -> result (list byte);(* [ZipFile(BytesIO(body)).read(name)] *)
  disk_write : string -> list byte -> bool;            (* [false]: the write raises [OSError] *)
  mkdir : string -> bool;                              (* [false]: [mkdir] raises [OSError] *)
  listdir : string -> list string                      (* names in a directory *)
}.

(** Computations that log events and may raise. *)
Definition M (A : Type) : Type := (result A * list event)%type.

Definition ret {A} (a : A) : M A := (Return a, []).
Definition raise {A} (e : exn) : M A := (Raise e, []).
Definition emit (ev : event) : M unit := (Return tt, [ev]).
(** [print(line)]; the console is taken to accept every character. *)
Definition print (line : string) : M unit := emit (EvPrint line).

Definition bind {A B} (m : M A) (k : A -> M B) : M B :=
  match m with
  | (Return a, evs) => let '(r, evs') := k a in (r, evs ++ evs')
  | (Raise e, evs) => (Raise e, evs)
  end.

(** [try: m except ...: h]; the handler re-raises what it does not catch. *)
Definition try_except {A} (m : M A) (h : exn -> M A) : M A :=
  match m with
  | (Return a, evs) => (Return a, evs)
  | (Raise e, evs) => let '(r, evs') := h e in (r, evs ++ evs')
  end.

(** An oracle call that is logged whether it raises or not. *)
Definition call {A} (ev : event) (r : result A) : M A := (r, [ev]).

Definition outcome {A} (m : M A) : result A := fst m.
Definition trace {A} (m : M A) : list event := snd m.

End Py.

Module PyNotations.
Notation "x <- c1 ;; c2" := (Py.bind c1 (fun x => c2))
  (at level 100, c1 at next level, right associativity).
Notation "c1 ;;; c2" := (Py.bind c1 (fun _ => c2))
  (at level 100, right associativity).
End PyNotations.

(* ================================================================== *)
(** ** String helpers: [str.replace], [Path.stem], [glob("*.csv")] *)
(* ================================================================== *)

Module PyStr.

(** [s.replace(old, new)] for a non-empty [old]: leftmost matches, not
    overlapping.  [skip] counts the characters of a match still to drop. *)
Fixpoint replace_from (old new : string) (skip : nat) (s : string) : string :=
  match s with
  | EmptyString => EmptyString
  | String c rest =>
      match skip with
      | S k => replace_from old new k rest
      | O =>
          if String.prefix old s
          then new +:+ replace_from old new (String.length old - 1) rest
          else String c (replace_from old new 0 rest)
      end
  end.

Definition replace (old new s : string) : string := replace_from old new 0 s.

Definition ends_with (suffix s : string) : bool :=
  let n := String.length s in
  let k := String.length suffix in
  (k <=? n)%nat && String.eqb (substring (n - k) k s) suffix.

(** [Path(name).stem] on the names that [glob("*.csv")] matches: the
    name without its [.csv] suffix, and the whole name when the name is
    just [.csv] (a leading dot starts no suffix).  Other names are not
    passed to it and are left as they are. *)
Definition stem (name : string) : string :=
  if ends_with ".csv" name && negb (String.eqb name ".csv")
  then substring 0 (String.length name - 4) name
  else name.

(** [{f.stem for f in path.glob("*.csv")}] over the names of a directory
    on a POSIX file system, where the pattern is matched with the case
    of its letters. *)
Definition csv_stems (names : list string) : gset string :=
  list_to_set (map stem (filter (fun n => Is_true (ends_with ".csv" n)) names)).

(** [target_path / name] *)
Definition path_join (dir name : string) : string := dir +:+ "/" +:+ name.

(** [s.split(sep)] for a one-character separator: the pieces between
    the separators, empty pieces included. *)
Fixpoint split_on (sep : ascii) (s : string) : list string :=
  match s with
  | EmptyString => [EmptyString]
  | String c rest =>
      if Ascii.eqb c sep then EmptyString :: split_on sep rest
      else
        match split_on sep rest with
        | piece :: pieces => String c piece :: pieces
        | [] => [String c EmptyString]
        end
  end.

Definition is_digit (c : ascii) : bool :=
  let n := nat_of_ascii c in (48 <=? n)%nat && (n <=? 57)%nat.

Definition digit_of (c : ascii) : Z := Z.of_nat (nat_of_ascii c - 48).

(** The characters [int] skips at both ends of its argument: the six
    ASCII blanks (tab, line feed, vertical tab, form feed, carriage
    return, space) and, of the code points 128..255, NEL and the
    no-break space.  The separators 0x1C..0x1F, which [str.isspace]
    takes, are not skipped. *)
Definition is_space (c : ascii) : bool :=
  let n := nat_of_ascii c in
  ((9 <=? n) && (n <=? 13) || (n =? 32) || (n =? 133) || (n =? 160))%nat.

Fixpoint lstrip (s : string) : string :=
  match s with
  | EmptyString => EmptyString
  | String c rest => if is_space c then lstrip rest else s
  end.

Fixpoint all_space (s : string) : bool :=
  match s with
  | EmptyString => true
  | String c rest => is_space c && all_space rest
  end.

(** What follows a digit of a decimal literal: more digits, each
    possibly after one underscore, and then nothing but blanks. *)
Fixpoint digits_value (acc : Z) (s : string) : option Z :=
  match s with
  | EmptyString => Some acc
  | String c rest =>
      if is_digit c then digits_value (10 * acc + digit_of c) rest
      else if Ascii.eqb c "_" then
        match rest with
        | String d rest' =>
            if is_digit d then digits_value (10 * acc + digit_of d) rest' else None
        | EmptyString => None
        end
      else if all_space s then Some acc else None
  end.

(** A literal without its sign: it starts with a digit. *)
Definition unsigned_value (s : string) : option Z :=
  match s with
  | EmptyString => None
  | String d rest => if is_digit d then digits_value (digit_of d) rest else None
  end.

Fixpoint count_digits (s : string) : Z :=
  match s with
  | EmptyString => 0
  | String c rest => (if is_digit c then 1 else 0) + count_digits rest
  end.

(** [sys.get_int_max_str_digits()], as the interpreter starts. *)
Definition int_max_str_digits : Z := 4300.

(** [int(s)] in base ten as CPython computes it; [None] stands for
    [ValueError].  Blanks are skipped at both ends, one sign may come
    first, the digits may be grouped by single underscores, and a
    literal of more than [int_max_str_digits] digits is refused.  A
    character of the string stands for the code point of the same
    number, so the strings of the model are the Python strings over the
    code points 0..255; none of these is a decimal digit other than
    [0]..[9]. *)
Definition int (s : string) : option Z :=
  let body := lstrip s in
  let signed :=
    match body with
    | EmptyString => (1, body)
    | String c rest =>
        if Ascii.eqb c "+" then (1, rest)
        else if Ascii.eqb c "-" then (-1, rest)
        else (1, body)
    end in
  match unsigned_value (snd signed) with
  | Some v =>
      if count_digits (snd signed) <=? int_max_str_digits
      then Some (fst signed * v) else None
  | None => None
  end.

End PyStr.

(* ================================================================== *)
(** ** The downloader *)
(* ================================================================== *)

Module Downloader.
Import PyFormat Months Codec Py PyStr PyNotations.

Definition BASE_URL : string := "https://www.revenue.wi.gov/SLFReportsHistSales".

(** [csv_content.decode(encoding)] under CPython's codecs. *)
Definition py_decode (encoding : string) (bs : list byte) : result text :=
  let attempt :=
    if String.eqb encoding "utf-8" then Some (decode_utf8 bs)
    else if String.eqb encoding "cp1252" then Some (decode_cp1252 bs)
    else if String.eqb encoding "latin-1" then Some (decode_latin1 bs)
    else None in
  match attempt with
  | Some (Some t) => Return t
  | Some None => Raise UnicodeDecodeError
  | None => Raise LookupError
  end.

(** [start_year, start_month = map(int, start_date_str.split("-"))]:
    the unpacking asks the [map] for a third value before it settles, so
    a third piece is converted too, and a failed conversion, a missing
    piece and a piece too many are all [ValueError]. *)
Definition parse_start_date (start_date_str : string) : result month :=
  match map int (split_on "-"%char start_date_str) with
  | [Some y; Some m] => Return (y, m)
  | _ => Raise ValueError
  end.

(** [generate_months(start_date_str)] run to exhaustion at the moment
    [now]; the outer [None] means the fuel ran out. *)
Definition generate_months (now : month) (start_date_str : string)
  : option (result (list string)) :=
  match parse_start_date start_date_str with
  | Raise e => Some (Raise e)
  | Return start =>
      match generate_months_loop (iterations_bound now start) now start with
      | Some ids => Some (Return ids)
      | None => None
      end
  end.

(** [file_exists(url)] *)
Definition file_exists (w : World) (url : string) : M bool :=
  try_except
    (status_code <- call (EvHead url) (requests_head w url) ;;
     ret (status_code =? 200))
    (fun e => if is_RequestException e then ret false else raise e).

(** [response.raise_for_status()]: client and server error codes raise. *)
Definition raise_for_status (status_code : Z) : M unit :=
  if (400 <=? status_code) && (status_code <? 600)
  then raise (RequestException HTTPError)
  else ret tt.

(** How the encoding loop is left when it does not raise. *)
Inductive loop_exit :=
| ReturnedTrue (encoding : string)   (* [return True] inside the loop *)
| FellThrough.                       (* the loop ran out: [return False] after it *)

Definition candidate_encodings : list string := ["utf-8"; "cp1252"; "latin-1"].

Section Fetchers.

(** The codec lookup is a parameter, so that the handlers can be
    followed on decoders that fail where CPython's do not. *)
Variable decode : string -> list byte -> result text.
Variable w : World.

(** [csv_path.write_text(text, encoding='utf-8')]: the file is opened
    (and emptied) first; text that UTF-8 cannot encode leaves it empty.
    Line ends are written as they are, as text mode does on POSIX. *)
Definition write_text (csv_path : string) (t : text) : M unit :=
  match encode_utf8 t with
  | None => (Raise UnicodeEncodeError, [EvWrite csv_path []])
  | Some data =>
      if disk_write w csv_path data
      then emit (EvWrite csv_path data)
      else (Raise OSError, [EvWrite csv_path data])
  end.

(** The [for encoding in [...]] loop shared, line for line, by both
    fetchers; [saved_name] is the name printed on success. *)
Fixpoint encoding_loop (saved_name csv_path : string) (csv_content : list byte)
    (encodings : list string) : M loop_exit :=
  match encodings with
  | [] => ret FellThrough
  | encoding :: rest =>
      try_except
        (text <- (decode encoding csv_content, []) ;;
         write_text csv_path text ;;;
         print ("✓ Saved " +:+ saved_name +:+ " (converted from "
                +:+ encoding +:+ " to UTF-8)") ;;;
         ret (ReturnedTrue encoding))
        (fun e =>
           if is_UnicodeError e then
             if String.eqb encoding "latin-1" then raise e
             else encoding_loop saved_name csv_path csv_content rest
           else raise e)
  end.

Definition after_loop (ex : loop_exit) : M bool :=
  match ex with
  | ReturnedTrue _ => ret true
  | FellThrough => ret false
  end.

(** [download_and_extract(url, target_path, filename)] *)
Definition download_and_extract (url target_path filename : string) : M bool :=
  try_except
    (print ("Downloading " +:+ filename +:+ "...") ;;;
     response <- call (EvGet url) (requests_get w url) ;;
     raise_for_status (fst response) ;;;
     let csv_filename := replace ".zip" ".csv" filename in
     let csv_path := path_join target_path csv_filename in
     csv_content <- (zip_read w (snd response) csv_filename, []) ;;
     ex <- encoding_loop csv_filename csv_path csv_content candidate_encodings ;;
     after_loop ex)
    (fun e =>
       if is_RequestException e then
         emit (EvPrintError ("✗ Failed to download " +:+ filename +:+ ": ") e) ;;;
         ret false
       else if is_BadZipFile e then
         print ("✗ Invalid ZIP file: " +:+ filename) ;;; ret false
       else if is_Exception e then
         emit (EvPrintError ("✗ Failed to process " +:+ filename +:+ ": ") e) ;;;
         ret false
       else raise e).

(** [download_csv_direct(url, target_path, filename)] *)
Definition download_csv_direct (url target_path filename : string) : M bool :=
  try_except
    (print ("Downloading " +:+ filename +:+ "...") ;;;
     response <- call (EvGet url) (requests_get w url) ;;
     raise_for_status (fst response) ;;;
     let csv_content := snd response in
     let csv_path := path_join target_path filename in
     ex <- encoding_loop filename csv_path csv_content candidate_encodings ;;
     after_loop ex)
    (fun e =>
       if is_RequestException e then
         emit (EvPrintError ("✗ Failed to download " +:+ filename +:+ ": ") e) ;;;
         ret false
       else if is_Exception e then
         emit (EvPrintError ("✗ Failed to process " +:+ filename +:+ ": ") e) ;;;
         ret false
       else raise e).

End Fetchers.

End Downloader.

(* ================================================================== *)
(** ** The run controller: [main] *)
(* ================================================================== *)

Module Controller.
Import PyFormat Months Codec Py PyStr PyNotations Downloader.

(** The three counters of [main]. *)
Record run_state := {
  downloaded : Z;
  skipped : Z;
  consecutive_404s : Z
}.

Definition initial_state : run_state :=
  {| downloaded := 0; skipped := 0; consecutive_404s := 0 |}.

Definition max_consecutive_404s : Z := 3.

(** How one pass through the loop body ends. *)
Inductive flow :=
| Next      (* falls to the next month, [continue] included *)
| Break.    (* [break] *)

Definition newline : string := String (ascii_of_nat 10) EmptyString.

(** The names and URLs the loop body builds from a month identifier:
    [filename], [csv_name], [zip_url] and [csv_url]. *)
Definition filename_of (month : string) : string := month +:+ "CSV".
Definition csv_name_of (month : string) : string := filename_of month +:+ ".csv".
Definition zip_url_of (month : string) : string :=
  BASE_URL +:+ "/" +:+ filename_of month +:+ ".zip".
Definition csv_url_of (month : string) : string :=
  BASE_URL +:+ "/" +:+ csv_name_of month.

Definition count_download (ok : bool) (st : run_state) : run_state :=
  if ok
  then {| downloaded := downloaded st + 1; skipped := skipped st;
          consecutive_404s := consecutive_404s st |}
  else st.

Definition reset_404s (st : run_state) : run_state :=
  {| downloaded := downloaded st; skipped := skipped st; consecutive_404s := 0 |}.

Section Run.

Variable decode : string -> list byte -> result text.
Variable w : World.
Variable existing_files : gset string.
Variable args_path : string.

(** The body of [for month in generate_months(args.start_date)]. *)
Definition loop_body (st : run_state) (month : string) : M (run_state * flow) :=
  let filename := filename_of month in
  let csv_name := csv_name_of month in
  if bool_decide (filename ∈ existing_files) then
    print ("⊘ Skipping " +:+ csv_name +:+ " (already exists)") ;;;
    ret ({| downloaded := downloaded st; skipped := skipped st + 1;
            consecutive_404s := consecutive_404s st |}, Next)
  else
    let zip_url := zip_url_of month in
    let csv_url := csv_url_of month in
    zip_found <- file_exists w zip_url ;;
    if zip_found then
      let st := reset_404s st in
      ok <- download_and_extract decode w zip_url args_path (filename +:+ ".zip") ;;
      ret (count_download ok st, Next)
    else
      csv_found <- file_exists w csv_url ;;
      if csv_found then
        let st := reset_404s st in
        ok <- download_csv_direct decode w csv_url args_path csv_name ;;
        ret (count_download ok st, Next)
      else
        let st := {| downloaded := downloaded st; skipped := skipped st;
                     consecutive_404s := consecutive_404s st + 1 |} in
        print ("⊘ " +:+ filename +:+ " not found (tried .zip and .csv)") ;;;
        if consecutive_404s st >=? max_consecutive_404s then
          print (newline +:+ "Stopping after " +:+ str_int max_consecutive_404s
                 +:+ " consecutive missing files.") ;;;
          ret (st, Break)
        else ret (st, Next).

(** The [for] loop over the months the generator yields. *)
Fixpoint main_loop (months : list string) (st : run_state) : M (run_state * flow) :=
  match months with
  | [] => ret (st, Next)
  | month :: rest =>
      r <- loop_body st month ;;
      match snd r with
      | Break => ret r
      | Next => main_loop rest (fst r)
      end
  end.

Definition summary_line (st : run_state) : string :=
  "Summary: " +:+ str_int (downloaded st) +:+ " downloaded, "
  +:+ str_int (skipped st) +:+ " skipped".

End Run.

(** [main()], with [args.path] and [args.start_date] as parsed from the
    command line and [now] the clock read by the generator.  The result
    is the final counters with [Break] when the loop was left early;
    the outer [None] means the generator ran out of fuel. *)
Definition main (decode : string -> list byte -> result text) (w : World)
    (now : month) (args_path args_start_date : string)
  : option (M (run_state * flow)) :=
  match generate_months now args_start_date with
  | None => None
  | Some generated =>
      Some
        ((if mkdir w args_path then ret tt else raise OSError) ;;;
         print ("Target directory: " +:+ args_path) ;;;
         print ("Starting from: " +:+ args_start_date) ;;;
         print EmptyString ;;;
         let existing_files := csv_stems (listdir w args_path) in
         (* a start date that does not parse raises when the loop starts *)
         months <- (generated, []) ;;
         r <- main_loop decode w existing_files args_path months initial_state ;;
         print EmptyString ;;;
         print (summary_line (fst r)) ;;;
         ret r)
  end.

End Controller.

(* ================================================================== *)
(** ** Vocabulary of the specification *)
(* ================================================================== *)

Module SpecWords.
Import PyFormat Months Codec Py PyStr PyNotations Downloader Controller.

(** What the encoding loop does once [encoding] has decoded the content
    and [data] is the text in UTF-8: the bytes go to [csv_path], and the
    loop returns true unless the disk refuses them. *)
Definition saved_as (w : World) (saved_name csv_path encoding : string)
    (data : list byte) : M loop_exit :=
  if disk_write w csv_path data
  then (Return (ReturnedTrue encoding),
        [EvWrite csv_path data;
         EvPrint ("✓ Saved " +:+ saved_name +:+ " (converted from "
                  +:+ encoding +:+ " to UTF-8)")])
  else (Raise OSError, [EvWrite csv_path data]).

(** The network requests of a trace, and the writes of a trace. *)
Definition is_request (ev : event) : bool :=
  match ev with EvHead _ | EvGet _ => true | _ => false end.

Definition requests_of (tr : list event) : list event :=
  List.filter is_request tr.

Definition is_write (ev : event) : bool :=
  match ev with EvWrite _ _ => true | _ => false end.

Definition writes_of (tr : list event) : list event :=
  List.filter is_write tr.

(** The [except] clauses of [download_csv_direct], entered with [e]
    after the events [evs]. *)
Definition handled_direct (filename : string) (e : exn) (evs : list event) : M bool :=
  if is_RequestException e then
    (Return false, evs ++ [EvPrintError ("✗ Failed to download " +:+ filename +:+ ": ") e])
  else if is_Exception e then
    (Return false, evs ++ [EvPrintError ("✗ Failed to process " +:+ filename +:+ ": ") e])
  else (Raise e, evs).

(** The [except] clauses of [download_and_extract]. *)
Definition handled_zip (filename : string) (e : exn) (evs : list event) : M bool :=
  if is_RequestException e then
    (Return false, evs ++ [EvPrintError ("✗ Failed to download " +:+ filename +:+ ": ") e])
  else if is_BadZipFile e then
    (Return false, evs ++ [EvPrint ("✗ Invalid ZIP file: " +:+ filename)])
  else if is_Exception e then
    (Return false, evs ++ [EvPrintError ("✗ Failed to process " +:+ filename +:+ ": ") e])
  else (Raise e, evs).

(** How a fetcher ends once the encoding loop has ended with [r] after
    the events [evs]. *)
Definition finished (handled : exn -> list event -> M bool)
    (r : result loop_exit) (evs : list event) : M bool :=
  match r with
  | Return (ReturnedTrue _) => (Return true, evs)
  | Return FellThrough => (Return false, evs)
  | Raise e => handled e evs
  end.

(** The first two events of every fetch. *)
Definition fetch_start (url filename : string) : list event :=
  [EvPrint ("Downloading " +:+ filename +:+ "..."); EvGet url].

(** The status codes on which [raise_for_status] raises. *)
Definition error_status (status_code : Z) : bool :=
  (400 <=? status_code) && (status_code <? 600).

(** The bytes that reach the decoding stage of [download_csv_direct]:
    the body of a response on which [raise_for_status] does not raise. *)
Definition direct_content (w : World) (url : string) : option (list byte) :=
  match requests_get w url with
  | Return (status_code, body) =>
      if error_status status_code then None else Some body
  | Raise _ => None
  end.

(** The bytes that reach the decoding stage of [download_and_extract]:
    the entry read from the archive in such a body. *)
Definition zip_content (w : World) (url csv_filename : string) : option (list byte) :=
  match direct_content w url with
  | Some body =>
      match zip_read w body csv_filename with
      | Return csv_content => Some csv_content
      | Raise _ => None
      end
  | None => None
  end.

(** A fetch fails before any candidate decodes: nothing reaches the
    decoding stage, or every candidate raises on what does. *)
Definition fails_before_decode (decode : string -> list byte -> result text)
    (content : option (list byte)) : Prop :=
  match content with
  | None => True
  | Some csv_content =>
      forall encoding, In encoding candidate_encodings ->
                       exists e, decode encoding csv_content = Raise e
  end.

(** The bytes [write_text] hands over for a text. *)
Definition written_for (t : text) : list byte :=
  match encode_utf8 t with Some data => data | None => [] end.

(** What the controller finds out about a month. *)
Inductive month_status :=
| Skipped         (* already present locally *)
| Found           (* one of the two probes returned true *)
| Missing         (* both probes returned false *)
| Interrupted.    (* a probe raised something [file_exists] does not catch *)

Definition status_of (w : World) (existing_files : gset string) (month : string)
  : month_status :=
  if bool_decide (filename_of month ∈ existing_files) then Skipped
  else
    match outcome (file_exists w (zip_url_of month)) with
    | Return true => Found
    | Return false =>
        match outcome (file_exists w (csv_url_of month)) with
        | Return true => Found
        | Return false => Missing
        | Raise _ => Interrupted
        end
    | Raise _ => Interrupted
    end.

(** Going back from the latest month: the missing months met before
    the first found one.  Skipped months neither count nor cut. *)
Fixpoint misses_back (latest_first : list month_status) : Z :=
  match latest_first with
  | [] => 0
  | Found :: _ => 0
  | Missing :: earlier => misses_back earlier + 1
  | _ :: earlier => misses_back earlier
  end.

(** The length of the current run of consecutive misses after [months]. *)
Definition current_streak (w : World) (existing_files : gset string)
    (months : list string) : Z :=
  misses_back (rev (map (status_of w existing_files) months)).

(** The counters after a skipped month and after a missing month. *)
Definition skip_month (st : run_state) : run_state :=
  {| downloaded := downloaded st; skipped := skipped st + 1;
     consecutive_404s := consecutive_404s st |}.

Definition miss_month (st : run_state) : run_state :=
  {| downloaded := downloaded st; skipped := skipped st;
     consecutive_404s := consecutive_404s st + 1 |}.

(** What a missing month prints, and how the body then leaves. *)
Definition miss_events (month : string) (st : run_state) : list event :=
  [EvHead (zip_url_of month); EvHead (csv_url_of month);
   EvPrint ("⊘ " +:+ filename_of month +:+ " not found (tried .zip and .csv)")]
  ++ (if consecutive_404s (miss_month st) >=? max_consecutive_404s
      then [EvPrint (newline +:+ "Stopping after " +:+ str_int max_consecutive_404s
                     +:+ " consecutive missing files.")]
      else []).

Definition miss_flow (st : run_state) : flow :=
  if consecutive_404s (miss_month st) >=? max_consecutive_404s then Break else Next.

(** The end of the body after a fetch that returned [r] with events [evs]. *)
Definition after_fetch (st : run_state) (probes : list event) (m : M bool)
  : M (run_state * flow) :=
  match m with
  | (Return ok, evs) => (Return (count_download ok (reset_404s st), Next), probes ++ evs)
  | (Raise e, evs) => (Raise e, probes ++ evs)
  end.

(** The months of a list whose file is already present. *)
Definition present_among (existing_files : gset string) (months : list string)
  : list string :=
  filter (fun month => filename_of month ∈ existing_files) months.

(** Code page 1252 only produces code points below the surrogates. *)
Definition cp1252_low (b : byte) : bool :=
  match cp1252_char (byte_val b) with
  | Some c => (0 <=? c) && (c <? 55296)
  | None => true
  end.

End SpecWords.

(* ================================================================== *)
(** ** Worlds for worked examples *)
(* ================================================================== *)

Module Scenarios.
Import Months Codec Py PyStr Downloader Controller.

(** A remote that has the archive for [zip_months] and the bare file
    for [csv_months], answers 404 elsewhere, serves [body] to every GET
    (archives hold [body] as their one entry), over a disk that takes
    every write and a directory that lists [files]. *)
Definition world_with (zip_months csv_months files : list string) (body : list byte)
  : World :=
  {| requests_head := fun url =>
       if existsb (fun m => String.eqb url (zip_url_of m)) zip_months
          || existsb (fun m => String.eqb url (csv_url_of m)) csv_months
       then Return 200 else Return 404;
     requests_get := fun _ => Return (200, body);
     zip_read := fun archive _ => Return archive;
     disk_write := fun _ _ => true;
     mkdir := fun _ => true;
     listdir := fun _ => files |}.

End Scenarios.

(* ================================================================== *)
(** ** Vocabulary for the run as a whole *)
(* ================================================================== *)

Module RunWords.
Import PyFormat Months Codec Py PyStr PyNotations Downloader Controller SpecWords.

(** What CPython's codecs make of downloaded bytes: the encoding the
    loop settles on and the UTF-8 data it hands to the disk. *)
Definition py_convert (csv_content : list byte) : string * list byte :=
  match decode_utf8 csv_content with
  | Some _ => ("utf-8", csv_content)
  | None =>
      match decode_cp1252 csv_content with
      | Some t => ("cp1252", written_for t)
      | None => ("latin-1", written_for (map byte_val csv_content))
      end
  end.

(** The five byte values that code page 1252 leaves undefined. *)
Definition cp1252_undefined (v : Z) : bool :=
  (v =? 129) || (v =? 141) || (v =? 143) || (v =? 144) || (v =? 157).

(** The requests the controller sends for one month, as the world and
    the pre-scan determine them. *)
Definition month_requests (w : World) (existing_files : gset string) (month : string)
  : list event :=
  if bool_decide (filename_of month ∈ existing_files) then []
  else
    match outcome (file_exists w (zip_url_of month)) with
    | Return true => [EvHead (zip_url_of month); EvGet (zip_url_of month)]
    | Return false =>
        match outcome (file_exists w (csv_url_of month)) with
        | Return true =>
            [EvHead (zip_url_of month); EvHead (csv_url_of month);
             EvGet (csv_url_of month)]
        | _ => [EvHead (zip_url_of month); EvHead (csv_url_of month)]
        end
    | Raise _ => [EvHead (zip_url_of month)]
    end.

(** The line that reports a saved file. *)
Definition is_saved_line (ev : event) : bool :=
  match ev with
  | EvPrint line => String.prefix "✓ Saved " line
  | _ => false
  end.

Definition count_lines (select : event -> bool) (tr : list event) : Z :=
  Z.of_nat (length (List.filter select tr)).

(** The three lines [main] prints before the loop. *)
Definition header (args_path args_start_date : string) : list event :=
  [EvPrint ("Target directory: " +:+ args_path);
   EvPrint ("Starting from: " +:+ args_start_date);
   EvPrint EmptyString].

(** Two bytes of the range 0x80..0x9F that code page 1252 reads as the
    same character are the same byte, and that character lies above
    U+00FF, so no byte outside the range is read as it. *)
Definition cp1252_distinct (v1 v2 : Z) : bool :=
  match cp1252_high v1, cp1252_high v2 with
  | Some c1, Some c2 => (256 <=? c1) && implb (c1 =? c2) (v1 =? v2)
  | _, _ => true
  end.

(** A string without a dot. *)
Fixpoint no_dot (s : string) : bool :=
  match s with
  | EmptyString => true
  | String c rest => negb (Ascii.eqb c ".") && no_dot rest
  end.

End RunWords.

Import PyFormat Months Codec Py PyStr Downloader Controller SpecWords Scenarios RunWords.

(* ================================================================== *)
(** * Properties *)
(* ================================================================== *)

(** ** The month enumerator *)

Section MonthFacts.

Lemma advance_index (cur : month) :
  valid_month cur ->
  valid_month (advance cur) /\ month_index (advance cur) = month_index cur + 1.
Proof.
  destruct cur as [y m]. unfold valid_month, advance, month_index. simpl.
  intros Hm. destruct (Z.gtb_spec (m + 1) 12); simpl; lia.
Qed.

Lemma loop_cond_index (now cur : month) :
  valid_month now -> valid_month cur ->
  loop_cond now cur = true <-> month_index cur <= month_index now.
Proof.
  destruct now as [ny nm], cur as [cy cm].
  unfold valid_month, loop_cond, month_index. simpl. intros Hn Hc.
  rewrite orb_true_iff, andb_true_iff, Z.ltb_lt, Z.eqb_eq, Z.leb_le. lia.
Qed.

Lemma month_of_index_index (ym : month) :
  valid_month ym -> month_of_index (month_index ym) = ym.
Proof.
  destruct ym as [y m]. unfold valid_month, month_of_index, month_index. simpl.
  intros Hm. f_equal.
  - symmetry. apply (Z.div_unique _ _ _ (m - 1)); lia.
  - assert ((12 * y + (m - 1)) mod 12 = m - 1) as ->; [| lia].
    symmetry. apply (Z.mod_unique _ _ y); lia.
Qed.

Lemma month_index_of_index (i : Z) :
  valid_month (month_of_index i) /\ month_index (month_of_index i) = i.
Proof.
  unfold valid_month, month_of_index, month_index. simpl.
  pose proof (Z.mod_pos_bound i 12 ltac:(lia)).
  pose proof (Z.div_mod i 12 ltac:(lia)). lia.
Qed.

(** Every pass of the loop uses up some of the bound, whatever the
    integers are. *)
Lemma iterations_bound_decreases (now cur : month) :
  loop_cond now cur = true ->
  (iterations_bound now (advance cur) < iterations_bound now cur)%nat.
Proof.
  destruct now as [ny nm], cur as [cy cm].
  unfold loop_cond, iterations_bound, advance. simpl.
  rewrite orb_true_iff, andb_true_iff, Z.ltb_lt, Z.eqb_eq, Z.leb_le.
  intros Hc. destruct (Z.gtb_spec (cm + 1) 12); simpl; lia.
Qed.

(** The generator always finishes within the bound. *)
Lemma generate_months_loop_total (fuel : nat) (now cur : month) :
  (iterations_bound now cur <= fuel)%nat ->
  exists ids, generate_months_loop fuel now cur = Some ids.
Proof.
  revert cur. induction fuel as [| fuel IH]; intros cur Hb; simpl.
  - destruct (loop_cond now cur) eqn:Hc; [| eauto].
    apply iterations_bound_decreases in Hc. lia.
  - destruct (loop_cond now cur) eqn:Hc; [| eauto].
    apply iterations_bound_decreases in Hc.
    destruct (IH (advance cur)) as [ids ->]; [lia | eauto].
Qed.

Lemma months_from_to_nil (s c : month) :
  month_index c < month_index s -> months_from_to s c = [].
Proof.
  intros H. unfold months_from_to.
  replace (Z.to_nat (month_index c - month_index s + 1)) with 0%nat by lia.
  reflexivity.
Qed.

Lemma months_from_to_cons (s c : month) :
  valid_month s -> month_index s <= month_index c ->
  months_from_to s c = s :: months_from_to (advance s) c.
Proof.
  intros Hs Hle. destruct (advance_index s Hs) as [_ Hadv].
  unfold months_from_to. rewrite Hadv.
  replace (Z.to_nat (month_index c - month_index s + 1))
    with (S (Z.to_nat (month_index c - (month_index s + 1) + 1))) by lia.
  rewrite <- cons_seq, <- seq_shift, map_cons, map_map.
  f_equal.
  - rewrite Z.add_0_r. apply month_of_index_index, Hs.
  - apply map_ext. intros k. f_equal. lia.
Qed.

(** Whatever the generator yields is the enumeration of the
    specification, serialized. *)
Lemma generate_months_loop_spec (fuel : nat) (now cur : month) (ids : list string) :
  valid_month now -> valid_month cur ->
  generate_months_loop fuel now cur = Some ids ->
  ids = map month_id (months_from_to cur now).
Proof.
  intros Hn. revert cur ids.
  induction fuel as [| fuel IH]; intros cur ids Hc; simpl;
    destruct (loop_cond now cur) eqn:Hcond.
  - discriminate.
  - intros [= <-]. rewrite months_from_to_nil; [reflexivity |].
    destruct (Z.le_gt_cases (month_index cur) (month_index now)) as [Hle | Hgt];
      [| lia].
    apply (loop_cond_index now cur Hn Hc) in Hle. congruence.
  - destruct (generate_months_loop fuel now (advance cur)) as [rest |] eqn:Hrest;
      [| discriminate].
    intros [= <-].
    apply (loop_cond_index now cur Hn Hc) in Hcond.
    rewrite (months_from_to_cons cur now Hc Hcond). simpl. f_equal.
    apply IH; [apply advance_index, Hc | exact Hrest].
  - intros [= <-]. rewrite months_from_to_nil; [reflexivity |].
    destruct (Z.le_gt_cases (month_index cur) (month_index now)) as [Hle | Hgt];
      [| lia].
    apply (loop_cond_index now cur Hn Hc) in Hle. congruence.
Qed.

End MonthFacts.

(** ** Serialization of identifiers *)

Section FormatFacts.

Lemma format_year_table :
  forallb (fun n => String.eqb (format_0d 4 (Z.of_nat n)) (four_digits (Z.of_nat n)))
          (seq 0 (Z.to_nat 10000)) = true.
Proof. vm_compute. reflexivity. Qed.

Lemma format_month_table :
  forallb (fun n => String.eqb (format_0d 2 (Z.of_nat n)) (two_digits (Z.of_nat n)))
          (seq 0 (Z.to_nat 100)) = true.
Proof. vm_compute. reflexivity. Qed.

Lemma format_year (y : Z) : 0 <= y <= 9999 -> format_0d 4 y = four_digits y.
Proof.
  intros Hy. pose proof format_year_table as Ht.
  rewrite forallb_forall in Ht. specialize (Ht (Z.to_nat y)).
  rewrite Z2Nat.id in Ht by lia. apply String.eqb_eq, Ht, in_seq. lia.
Qed.

Lemma format_month (m : Z) : 0 <= m <= 99 -> format_0d 2 m = two_digits m.
Proof.
  intros Hm. pose proof format_month_table as Ht.
  rewrite forallb_forall in Ht. specialize (Ht (Z.to_nat m)).
  rewrite Z2Nat.id in Ht by lia. apply String.eqb_eq, Ht, in_seq. lia.
Qed.

Lemma digit_char_inj (a b : Z) :
  0 <= a <= 9 -> 0 <= b <= 9 -> digit_char a = digit_char b -> a = b.
Proof.
  unfold digit_char. intros Ha Hb Heq.
  apply (f_equal nat_of_ascii) in Heq.
  rewrite !nat_ascii_embedding in Heq by lia. lia.
Qed.

Lemma month_id_digits (ym : month) :
  0 <= fst ym <= 9999 -> valid_month ym ->
  month_id ym = four_digits (fst ym) +:+ two_digits (snd ym).
Proof.
  unfold valid_month, month_id. intros Hy Hm.
  rewrite format_year, format_month by lia. reflexivity.
Qed.

Lemma four_digits_inj (a b : Z) :
  0 <= a <= 9999 -> 0 <= b <= 9999 -> four_digits a = four_digits b -> a = b.
Proof.
  unfold four_digits. intros Ha Hb [= H3 H2 H1 H0].
  apply digit_char_inj in H3, H2, H1, H0;
    try (split; [apply Z.div_pos | apply Z.lt_succ_r, Z.div_lt_upper_bound]; lia);
    try (pose proof (Z.mod_pos_bound (a / 100) 10); pose proof (Z.mod_pos_bound (b / 100) 10);
         pose proof (Z.mod_pos_bound (a / 10) 10); pose proof (Z.mod_pos_bound (b / 10) 10);
         pose proof (Z.mod_pos_bound a 10); pose proof (Z.mod_pos_bound b 10); lia).
  Z.div_mod_to_equations. lia.
Qed.

Lemma two_digits_inj (a b : Z) :
  0 <= a <= 99 -> 0 <= b <= 99 -> two_digits a = two_digits b -> a = b.
Proof.
  unfold two_digits. intros Ha Hb [= H1 H0].
  apply digit_char_inj in H1, H0;
    try (split; [apply Z.div_pos | apply Z.lt_succ_r, Z.div_lt_upper_bound]; lia);
    try (pose proof (Z.mod_pos_bound a 10); pose proof (Z.mod_pos_bound b 10); lia).
  Z.div_mod_to_equations. lia.
Qed.

Lemma month_id_inj (a b : month) :
  0 <= fst a <= 9999 -> valid_month a ->
  0 <= fst b <= 9999 -> valid_month b ->
  month_id a = month_id b -> a = b.
Proof.
  intros Hya Hma Hyb Hmb. rewrite !month_id_digits by assumption.
  destruct a as [ya ma], b as [yb mb]. unfold valid_month in *. simpl in *.
  unfold four_digits at 1 2. simpl. intros [= H3 H2 H1 H0 Hm].
  f_equal.
  - apply four_digits_inj; [lia | lia |]. unfold four_digits. congruence.
  - apply two_digits_inj; [lia | lia |]. unfold two_digits. congruence.
Qed.

Lemma digits_value_nonneg (s : string) (acc v : Z) :
  0 <= acc -> digits_value acc s = Some v -> 0 <= v.
Proof.
  remember (String.length s) as n eqn:Hn. revert s acc v Hn.
  induction n as [n IH] using lt_wf_ind. intros s acc v Hn Hacc.
  destruct s as [| c rest]; cbn [digits_value].
  - intros [= <-]. exact Hacc.
  - cbn [String.length] in Hn. destruct (is_digit c).
    + apply (IH (String.length rest)); [lia | reflexivity |]. unfold digit_of. lia.
    + destruct (Ascii.eqb c "_").
      * destruct rest as [| d rest']; [discriminate |].
        cbn [String.length] in Hn. destruct (is_digit d); [| discriminate].
        apply (IH (String.length rest')); [lia | reflexivity |]. unfold digit_of. lia.
      * destruct (all_space (String c rest)); [| discriminate].
        intros [= <-]. exact Hacc.
Qed.

Lemma unsigned_value_nonneg (s : string) (v : Z) : unsigned_value s = Some v -> 0 <= v.
Proof.
  destruct s as [| d rest]; cbn [unsigned_value]; [discriminate |].
  destruct (is_digit d); [| discriminate].
  apply digits_value_nonneg. unfold digit_of. lia.
Qed.

Lemma lstrip_occurs (c : ascii) (s : string) :
  In c (list_ascii_of_string (lstrip s)) -> In c (list_ascii_of_string s).
Proof.
  induction s as [| x rest IH]; cbn [lstrip]; [exact (fun H => H) |].
  destruct (is_space x); [| exact (fun H => H)].
  intros H. right. exact (IH H).
Qed.

(** Without a minus sign in it a string is not read as a negative number. *)
Lemma int_nonneg (s : string) (v : Z) :
  ~ In "-"%char (list_ascii_of_string s) -> int s = Some v -> 0 <= v.
Proof.
  intros Hno. unfold int. pose proof (lstrip_occurs "-" s) as Hsub.
  destruct (lstrip s) as [| c rest].
  - cbn [snd unsigned_value]. discriminate.
  - destruct (Ascii.eqb_spec c "+") as [_ | _];
      [| destruct (Ascii.eqb_spec c "-") as [-> | _];
         [exfalso; apply Hno, Hsub; left; reflexivity |]];
      cbn [fst snd];
      (destruct (unsigned_value _) as [u |] eqn:Hu; [| discriminate]);
      (destruct (_ <=? _); [| discriminate]);
      intros [= <-]; apply unsigned_value_nonneg in Hu; lia.
Qed.

(** The pieces of a split hold no separator. *)
Lemma split_on_lacks (sep : ascii) (s : string) :
  Forall (fun piece => ~ In sep (list_ascii_of_string piece)) (split_on sep s).
Proof.
  induction s as [| c rest IH]; cbn [split_on].
  - constructor; [intros [] | constructor].
  - destruct (Ascii.eqb_spec c sep) as [-> | Hne].
    + constructor; [intros [] | exact IH].
    + destruct (split_on sep rest) as [| piece pieces].
      * constructor; [| constructor]. intros [H | []]. congruence.
      * inversion IH as [| ? ? Hpiece Hpieces]; subst.
        constructor; [| exact Hpieces].
        intros [H | H]; [congruence | exact (Hpiece H)].
Qed.

(** No minus sign goes through [split("-")]: a parsed year is not negative. *)
Lemma parse_start_date_nonneg (start_date_str : string) (s : month) :
  parse_start_date start_date_str = Return s -> 0 <= fst s /\ 0 <= snd s.
Proof.
  unfold parse_start_date. pose proof (split_on_lacks "-" start_date_str) as Hlacks.
  destruct (split_on "-" start_date_str) as [| p1 [| p2 [| p3 ps]]]; simpl;
    try discriminate.
  - destruct (int p1); discriminate.
  - destruct (int p1) as [y |] eqn:Hy; [| discriminate].
    destruct (int p2) as [m |] eqn:Hm; [| discriminate].
    intros [= <-]. simpl.
    inversion Hlacks as [| ? ? H1 Hrest]; subst.
    inversion Hrest as [| ? ? H2 _]; subst.
    split; [exact (int_nonneg p1 y H1 Hy) | exact (int_nonneg p2 m H2 Hm)].
  - destruct (int p1); [| discriminate].
    destruct (int p2); [| discriminate].
    destruct (int p3); discriminate.
Qed.

End FormatFacts.

(** ** The enumeration from start to now *)

Section EnumerationFacts.

Lemma months_from_to_lookup (s c : month) (k : nat) (ym : month) :
  months_from_to s c !! k = Some ym <->
  (Z.of_nat k < month_index c - month_index s + 1
   /\ ym = month_of_index (month_index s + Z.of_nat k)).
Proof.
  unfold months_from_to.
  change (map ?f ?l) with (f <$> l). rewrite list_lookup_fmap.
  destruct (seq 0 (Z.to_nat (month_index c - month_index s + 1)) !! k)
    as [j |] eqn:Hj; simpl.
  - apply lookup_seq in Hj as [-> Hlt]. simpl. split.
    + intros [= <-]. split; [lia | reflexivity].
    + intros [_ ->]. reflexivity.
  - split; [discriminate |]. intros [Hlt _].
    rewrite lookup_seq_lt in Hj by lia. discriminate.
Qed.

Lemma months_from_to_elem (s c ym : month) :
  valid_month s ->
  ym ∈ months_from_to s c <->
  (valid_month ym /\ month_index s <= month_index ym <= month_index c).
Proof.
  intros Hs. rewrite list_elem_of_lookup. split.
  - intros [k Hk]. apply months_from_to_lookup in Hk as [Hlt ->].
    destruct (month_index_of_index (month_index s + Z.of_nat k)) as [Hv ->].
    split; [exact Hv | lia].
  - intros [Hv [Hlo Hhi]]. exists (Z.to_nat (month_index ym - month_index s)).
    apply months_from_to_lookup. split; [lia |].
    rewrite Z2Nat.id by lia.
    replace (month_index s + (month_index ym - month_index s))
      with (month_index ym) by lia.
    symmetry. apply month_of_index_index, Hv.
Qed.

Lemma months_from_to_NoDup (s c : month) : NoDup (months_from_to s c).
Proof.
  unfold months_from_to. change (map ?f ?l) with (f <$> l).
  apply NoDup_fmap_2_strong; [| apply NoDup_seq].
  intros j k _ _ Heq.
  apply (f_equal month_index) in Heq.
  destruct (month_index_of_index (month_index s + Z.of_nat j)) as [_ Hj].
  destruct (month_index_of_index (month_index s + Z.of_nat k)) as [_ Hk].
  lia.
Qed.

(** A valid month between two valid months has its year between theirs. *)
Lemma year_between (s c ym : month) :
  valid_month s -> valid_month c -> valid_month ym ->
  month_index s <= month_index ym <= month_index c ->
  fst s <= fst ym <= fst c.
Proof.
  destruct s as [sy sm], c as [cy cm], ym as [y m].
  unfold valid_month, month_index. simpl. lia.
Qed.

End EnumerationFacts.

(** C2.  For a start date that parses to a valid month [s] and a clock
    reading [now] (a calendar month of a year up to 9999), the
    enumerator finishes and yields the serialized months from [s] to
    [now]: exactly the valid months between the two, one month per step
    in ascending order, without duplicates, each identifier being the
    four digits of the year followed by the two digits of the month;
    and it yields nothing when [s] is after [now]. *)
Theorem generate_months_enumerates (now : month) (start_date_str : string) (s : month) :
  parse_start_date start_date_str = Return s ->
  valid_month s -> valid_month now -> fst now <= 9999 ->
  generate_months now start_date_str = Some (Return (map month_id (months_from_to s now)))
  /\ (forall ym, ym ∈ months_from_to s now <->
                 valid_month ym /\ month_index s <= month_index ym <= month_index now)
  /\ (forall k a b, months_from_to s now !! k = Some a ->
                    months_from_to s now !! S k = Some b ->
                    valid_month a /\ valid_month b /\
                    month_index b = month_index a + 1)
  /\ (forall a, months_from_to s now !! 0%nat = Some a -> a = s)
  /\ NoDup (map month_id (months_from_to s now))
  /\ (forall ym, ym ∈ months_from_to s now ->
                 month_id ym = four_digits (fst ym) +:+ two_digits (snd ym)
                 /\ String.length (month_id ym) = 6%nat)
  /\ (month_index now < month_index s ->
      generate_months now start_date_str = Some (Return [])).
Proof.
  intros Hparse Hs Hnow Hmax.
  pose proof (parse_start_date_nonneg _ _ Hparse) as [Hy0 _].
  assert (Hrange : forall ym, ym ∈ months_from_to s now ->
                              0 <= fst ym <= 9999 /\ valid_month ym).
  { intros ym Hin. apply (months_from_to_elem s now ym Hs) in Hin as [Hv Hidx].
    pose proof (year_between s now ym Hs Hnow Hv Hidx). split; [lia | exact Hv]. }
  assert (Hgen : generate_months now start_date_str
                 = Some (Return (map month_id (months_from_to s now)))).
  { unfold generate_months. rewrite Hparse.
    destruct (generate_months_loop_total (iterations_bound now s) now s) as [ids Hids];
      [lia |].
    rewrite Hids. do 2 f_equal.
    eapply generate_months_loop_spec; eauto. }
  split; [exact Hgen |].
  split; [intros ym; apply months_from_to_elem, Hs |].
  split.
  { intros k a b Ha Hb.
    apply months_from_to_lookup in Ha as [_ ->], Hb as [_ ->].
    destruct (month_index_of_index (month_index s + Z.of_nat k)) as [Hva ->].
    destruct (month_index_of_index (month_index s + Z.of_nat (S k))) as [Hvb ->].
    repeat split; try apply Hva; try apply Hvb. lia. }
  split.
  { intros a Ha. apply months_from_to_lookup in Ha as [_ ->].
    rewrite Z.add_0_r. apply month_of_index_index, Hs. }
  split.
  { change (map ?f ?l) with (f <$> l).
    apply NoDup_fmap_2_strong; [| apply months_from_to_NoDup].
    intros a b Ha Hb. apply Hrange in Ha as [? ?], Hb as [? ?].
    apply month_id_inj; assumption. }
  split.
  { intros ym Hin. apply Hrange in Hin as [Hy Hv].
    rewrite (month_id_digits ym Hy Hv). split; reflexivity. }
  intros Hafter. rewrite Hgen, months_from_to_nil by exact Hafter. reflexivity.
Qed.

(** The enumeration from the start date 2019-11 read in February 2021. *)
Lemma generate_months_enumerates_witness :
  generate_months (2021, 2) "2019-11"
  = Some (Return (map month_id (months_from_to (2019, 11) (2021, 2)))).
Proof.
  apply (generate_months_enumerates (2021, 2) "2019-11" (2019, 11));
    [reflexivity | unfold valid_month; simpl; lia
     | unfold valid_month; simpl; lia | simpl; lia].
Defined.

(** ** The codecs *)

Section CodecFacts.

Lemma byte_val_range (b : byte) : 0 <= byte_val b < 256.
Proof. unfold byte_val. pose proof (Byte.to_N_bounded b). lia. Qed.

Lemma byte_of_val_val (b : byte) : byte_of_val (byte_val b) = b.
Proof. unfold byte_of_val, byte_val. rewrite N2Z.id, Byte.of_to_N. reflexivity. Qed.

Lemma encode_one_byte (v0 : Z) :
  0 <= v0 < 128 -> encode_utf8_char v0 = Some [byte_of_val v0].
Proof.
  intros H. unfold encode_utf8_char.
  destruct (Z.ltb_spec v0 0); [lia |].
  destruct (Z.ltb_spec v0 128); [reflexivity | lia].
Qed.

Lemma encode_two_bytes (v0 v1 : Z) :
  194 <= v0 <= 223 -> is_cont v1 = true ->
  encode_utf8_char ((v0 - 192) * 64 + (v1 - 128)) = Some [byte_of_val v0; byte_of_val v1].
Proof.
  unfold is_cont. rewrite andb_true_iff, !Z.leb_le. intros H0 H1.
  unfold encode_utf8_char. set (c := (v0 - 192) * 64 + (v1 - 128)).
  assert (c / 64 = v0 - 192) as Hq
    by (symmetry; apply (Z.div_unique _ _ _ (v1 - 128)); lia).
  assert (c mod 64 = v1 - 128) as Hr
    by (symmetry; apply (Z.mod_unique _ _ (v0 - 192)); lia).
  destruct (Z.ltb_spec c 0); [lia |].
  destruct (Z.ltb_spec c 128); [lia |].
  destruct (Z.ltb_spec c 2048); [| lia].
  rewrite Hq, Hr. do 3 f_equal; f_equal; lia.
Qed.

Lemma encode_three_bytes (v0 v1 v2 : Z) :
  224 <= v0 <= 239 -> second_ok3 v0 v1 = true -> is_cont v2 = true ->
  encode_utf8_char ((v0 - 224) * 4096 + (v1 - 128) * 64 + (v2 - 128))
  = Some [byte_of_val v0; byte_of_val v1; byte_of_val v2].
Proof.
  unfold is_cont, second_ok3. intros H0 H1 H2.
  apply andb_true_iff in H2 as [H2a H2b]. apply Z.leb_le in H2a, H2b.
  assert (128 <= v1 <= 191
          /\ (v0 = 224 -> 160 <= v1) /\ (v0 = 237 -> v1 <= 159)) as (H1r & Hlo & Hhi).
  { destruct (Z.eqb_spec v0 224); [| destruct (Z.eqb_spec v0 237)];
      apply andb_true_iff in H1 as [H1a H1b]; apply Z.leb_le in H1a, H1b; lia. }
  unfold encode_utf8_char.
  set (c := (v0 - 224) * 4096 + (v1 - 128) * 64 + (v2 - 128)).
  assert (c / 4096 = v0 - 224) as Hq2
    by (symmetry; apply (Z.div_unique _ _ _ ((v1 - 128) * 64 + (v2 - 128))); lia).
  assert (c / 64 = (v0 - 224) * 64 + (v1 - 128)) as Hq1
    by (symmetry; apply (Z.div_unique _ _ _ (v2 - 128)); lia).
  assert (c mod 64 = v2 - 128) as Hr
    by (symmetry; apply (Z.mod_unique _ _ ((v0 - 224) * 64 + (v1 - 128))); lia).
  assert (c / 64 mod 64 = v1 - 128) as Hm
    by (rewrite Hq1; symmetry; apply (Z.mod_unique _ _ (v0 - 224)); lia).
  destruct (Z.ltb_spec c 0); [lia |].
  destruct (Z.ltb_spec c 128); [lia |].
  destruct (Z.ltb_spec c 2048); [lia |].
  destruct (Z.ltb_spec c 65536); [| lia].
  destruct ((55296 <=? c) && (c <=? 57343)) eqn:Hs.
  { apply andb_true_iff in Hs as [Hs1 Hs2]. apply Z.leb_le in Hs1, Hs2. lia. }
  rewrite Hq2, Hm, Hr. do 4 f_equal; f_equal; lia.
Qed.

Lemma encode_four_bytes (v0 v1 v2 v3 : Z) :
  240 <= v0 <= 244 -> second_ok4 v0 v1 = true ->
  is_cont v2 = true -> is_cont v3 = true ->
  encode_utf8_char ((v0 - 240) * 262144 + (v1 - 128) * 4096
                    + (v2 - 128) * 64 + (v3 - 128))
  = Some [byte_of_val v0; byte_of_val v1; byte_of_val v2; byte_of_val v3].
Proof.
  unfold is_cont, second_ok4. intros H0 H1 H2 H3.
  apply andb_true_iff in H2 as [H2a H2b]. apply Z.leb_le in H2a, H2b.
  apply andb_true_iff in H3 as [H3a H3b]. apply Z.leb_le in H3a, H3b.
  assert (128 <= v1 <= 191
          /\ (v0 = 240 -> 144 <= v1) /\ (v0 = 244 -> v1 <= 143)) as (H1r & Hlo & Hhi).
  { destruct (Z.eqb_spec v0 240); [| destruct (Z.eqb_spec v0 244)];
      apply andb_true_iff in H1 as [H1a H1b]; apply Z.leb_le in H1a, H1b; lia. }
  unfold encode_utf8_char.
  set (c := (v0 - 240) * 262144 + (v1 - 128) * 4096 + (v2 - 128) * 64 + (v3 - 128)).
  assert (c / 262144 = v0 - 240) as Hq3
    by (symmetry;
        apply (Z.div_unique _ _ _ ((v1 - 128) * 4096 + (v2 - 128) * 64 + (v3 - 128)));
        lia).
  assert (c / 4096 = (v0 - 240) * 64 + (v1 - 128)) as Hq2
    by (symmetry; apply (Z.div_unique _ _ _ ((v2 - 128) * 64 + (v3 - 128))); lia).
  assert (c / 64 = (v0 - 240) * 4096 + (v1 - 128) * 64 + (v2 - 128)) as Hq1
    by (symmetry; apply (Z.div_unique _ _ _ (v3 - 128)); lia).
  assert (c mod 64 = v3 - 128) as Hr
    by (symmetry;
        apply (Z.mod_unique _ _ ((v0 - 240) * 4096 + (v1 - 128) * 64 + (v2 - 128)));
        lia).
  assert (c / 64 mod 64 = v2 - 128) as Hm1
    by (rewrite Hq1; symmetry;
        apply (Z.mod_unique _ _ ((v0 - 240) * 64 + (v1 - 128))); lia).
  assert (c / 4096 mod 64 = v1 - 128) as Hm2
    by (rewrite Hq2; symmetry; apply (Z.mod_unique _ _ (v0 - 240)); lia).
  destruct (Z.ltb_spec c 0); [lia |].
  destruct (Z.ltb_spec c 128); [lia |].
  destruct (Z.ltb_spec c 2048); [lia |].
  destruct (Z.ltb_spec c 65536); [lia |].
  destruct (Z.ltb_spec c 1114112); [| lia].
  rewrite Hq3, Hm2, Hm1, Hr. do 5 f_equal; f_equal; lia.
Qed.

End CodecFacts.

Section RoundTrip.

Ltac split_range H :=
  apply andb_true_iff in H as [? ?];
  repeat match goal with
         | Hc : (_ <=? _) = true |- _ => apply Z.leb_le in Hc
         end.

(** Re-encoding what the strict UTF-8 decoder accepted gives the bytes back. *)
Lemma decode_encode_utf8_bounded (n : nat) :
  forall (bs : list byte) (t : text),
    (length bs <= n)%nat -> decode_utf8 bs = Some t -> encode_utf8 t = Some bs.
Proof.
  induction n as [| n IH]; intros bs t Hlen.
  - destruct bs; [| simpl in Hlen; lia]. simpl. intros [= <-]. reflexivity.
  - destruct bs as [| b0 r0]; [simpl; intros [= <-]; reflexivity |].
    simpl in Hlen. cbn [decode_utf8].
    destruct (byte_val b0 <? 128) eqn:H1.
    { destruct (decode_utf8 r0) as [t0 |] eqn:Hd; [| discriminate].
      intros [= <-]. cbn [encode_utf8].
      apply Z.ltb_lt in H1. pose proof (byte_val_range b0).
      rewrite encode_one_byte by lia.
      rewrite (IH r0 t0) by (lia || assumption).
      rewrite byte_of_val_val. reflexivity. }
    destruct ((194 <=? byte_val b0) && (byte_val b0 <=? 223)) eqn:H2.
    { destruct r0 as [| b1 r1]; [discriminate |].
      destruct (is_cont (byte_val b1)) eqn:Hc1; [| discriminate].
      destruct (decode_utf8 r1) as [t1 |] eqn:Hd; [| discriminate].
      intros [= <-]. cbn [encode_utf8]. split_range H2.
      rewrite encode_two_bytes by (lia || assumption).
      rewrite (IH r1 t1) by (simpl in Hlen; lia || assumption).
      rewrite !byte_of_val_val. reflexivity. }
    destruct ((224 <=? byte_val b0) && (byte_val b0 <=? 239)) eqn:H3.
    { destruct r0 as [| b1 [| b2 r2]]; [discriminate | discriminate |].
      destruct (second_ok3 (byte_val b0) (byte_val b1) && is_cont (byte_val b2))
        eqn:Hc; [| discriminate].
      apply andb_true_iff in Hc as [Hc1 Hc2].
      destruct (decode_utf8 r2) as [t2 |] eqn:Hd; [| discriminate].
      intros [= <-]. cbn [encode_utf8]. split_range H3.
      rewrite encode_three_bytes by (lia || assumption).
      rewrite (IH r2 t2) by (simpl in Hlen; lia || assumption).
      rewrite !byte_of_val_val. reflexivity. }
    destruct ((240 <=? byte_val b0) && (byte_val b0 <=? 244)) eqn:H4;
      [| discriminate].
    destruct r0 as [| b1 [| b2 [| b3 r3]]]; try discriminate.
    destruct (second_ok4 (byte_val b0) (byte_val b1) && is_cont (byte_val b2)
              && is_cont (byte_val b3)) eqn:Hc; [| discriminate].
    apply andb_true_iff in Hc as [Hc Hc3].
    apply andb_true_iff in Hc as [Hc1 Hc2].
    destruct (decode_utf8 r3) as [t3 |] eqn:Hd; [| discriminate].
    intros [= <-]. cbn [encode_utf8]. split_range H4.
    rewrite encode_four_bytes by (lia || assumption).
    rewrite (IH r3 t3) by (simpl in Hlen; lia || assumption).
    rewrite !byte_of_val_val. reflexivity.
Qed.

Lemma decode_encode_utf8 (bs : list byte) (t : text) :
  decode_utf8 bs = Some t -> encode_utf8 t = Some bs.
Proof. apply (decode_encode_utf8_bounded (length bs)). lia. Qed.

(** Code points below the surrogates always encode. *)
Lemma encode_utf8_char_low (c : Z) :
  0 <= c < 55296 -> exists bs, encode_utf8_char c = Some bs.
Proof.
  intros Hc. unfold encode_utf8_char.
  destruct (Z.ltb_spec c 0); [lia |].
  destruct (Z.ltb_spec c 128); [eauto |].
  destruct (Z.ltb_spec c 2048); [eauto |].
  destruct (Z.ltb_spec c 65536); [| lia].
  destruct (Z.leb_spec 55296 c); [lia |]. simpl. eauto.
Qed.

Lemma encode_utf8_low (t : text) :
  Forall (fun c => 0 <= c < 55296) t -> exists bs, encode_utf8 t = Some bs.
Proof.
  induction 1 as [| c t Hc _ [bs' IH]]; simpl; [eauto |].
  destruct (encode_utf8_char_low c Hc) as [bs ->]. rewrite IH. eauto.
Qed.

Lemma cp1252_low_all (b : byte) : cp1252_low b = true.
Proof. destruct b; vm_compute; reflexivity. Qed.

Lemma decode_cp1252_low (bs : list byte) (t : text) :
  decode_cp1252 bs = Some t -> Forall (fun c => 0 <= c < 55296) t.
Proof.
  revert t. induction bs as [| b bs IH]; simpl; intros t.
  - intros [= <-]. constructor.
  - pose proof (cp1252_low_all b) as Hb. unfold cp1252_low in Hb.
    destruct (cp1252_char (byte_val b)) as [c |]; [| discriminate].
    destruct (decode_cp1252 bs) as [t' |]; [| discriminate].
    intros [= <-]. constructor; [| apply IH; reflexivity].
    apply andb_true_iff in Hb as [Hlo Hhi].
    apply Z.leb_le in Hlo. apply Z.ltb_lt in Hhi. lia.
Qed.

Lemma decode_latin1_low (bs : list byte) :
  Forall (fun c => 0 <= c < 55296) (map byte_val bs).
Proof.
  induction bs as [| b bs IH]; simpl; constructor; [| exact IH].
  pose proof (byte_val_range b). lia.
Qed.

End RoundTrip.

(** ** The existence prober *)

Lemma file_exists_on_200 (w : World) (url : string) :
  requests_head w url = Return 200 -> outcome (file_exists w url) = Return true.
Proof.
  intros Hhead. unfold file_exists, call. rewrite Hhead. reflexivity.
Qed.

(** C7.  [file_exists] issues one HEAD request and returns true exactly
    when that request completes with status 200; a request that raises
    a [RequestException] (a timeout, a connection failure such as a DNS
    failure or a reset, or any other) gives false, and so does every
    completed response with another status. *)
Theorem file_exists_iff_status_200 (w : World) (url : string) :
  trace (file_exists w url) = [EvHead url]
  /\ (outcome (file_exists w url) = Return true <-> requests_head w url = Return 200)
  /\ (forall k, requests_head w url = Raise (RequestException k) ->
                outcome (file_exists w url) = Return false)
  /\ (forall status_code, requests_head w url = Return status_code ->
                          status_code <> 200 ->
                          outcome (file_exists w url) = Return false).
Proof.
  unfold file_exists, call, try_except, bind, ret, raise, outcome, trace.
  destruct (requests_head w url) as [status_code | e] eqn:Hhead; simpl.
  - split; [reflexivity |]. split; [| split].
    + destruct (Z.eqb_spec status_code 200); split; congruence.
    + discriminate.
    + intros sc [= <-] Hne. apply Z.eqb_neq in Hne. rewrite Hne. reflexivity.
  - destruct e; simpl; (split; [reflexivity |]); (split; [| split]);
      try (split; discriminate); try discriminate; try reflexivity.
Qed.

(** The prober on a timeout and on a 404 answer. *)
Lemma file_exists_iff_status_200_witness :
  let w := {| requests_head := fun url =>
                if String.eqb url "a" then Raise (RequestException Timeout)
                else Return 404;
              requests_get := fun _ => Raise (RequestException ConnectionError);
              zip_read := fun _ _ => Raise BadZipFile;
              disk_write := fun _ _ => true;
              mkdir := fun _ => true;
              listdir := fun _ => [] |} in
  outcome (file_exists w "a") = Return false
  /\ outcome (file_exists w "b") = Return false.
Proof.
  intros w. split.
  - apply (proj1 (proj2 (proj2 (file_exists_iff_status_200 w "a"))) Timeout).
    reflexivity.
  - apply (proj2 (proj2 (proj2 (file_exists_iff_status_200 w "b"))) 404);
      [reflexivity | lia].
Defined.

(** ** The encoding loop under CPython's codecs *)

Section EncodingLoopFacts.

Variable w : World.
Variables saved_name csv_path : string.
Variable csv_content : list byte.

Lemma encoding_loop_utf8 (t : text) :
  decode_utf8 csv_content = Some t ->
  encoding_loop py_decode w saved_name csv_path csv_content candidate_encodings
  = saved_as w saved_name csv_path "utf-8" csv_content.
Proof.
  intros Hdec. pose proof (decode_encode_utf8 _ _ Hdec) as Henc.
  unfold candidate_encodings. cbn [encoding_loop].
  unfold py_decode. simpl String.eqb. cbv iota. rewrite Hdec.
  unfold write_text, saved_as, try_except, bind. simpl. rewrite Henc.
  destruct (disk_write w csv_path csv_content); reflexivity.
Qed.

Lemma encoding_loop_cp1252 (t : text) :
  decode_utf8 csv_content = None ->
  decode_cp1252 csv_content = Some t ->
  exists data,
    encode_utf8 t = Some data
    /\ encoding_loop py_decode w saved_name csv_path csv_content candidate_encodings
       = saved_as w saved_name csv_path "cp1252" data.
Proof.
  intros Hutf Hdec.
  destruct (encode_utf8_low t (decode_cp1252_low _ _ Hdec)) as [data Henc].
  exists data. split; [exact Henc |].
  unfold candidate_encodings. cbn [encoding_loop].
  unfold py_decode. simpl String.eqb. cbv iota. rewrite Hutf, Hdec.
  unfold write_text, saved_as, try_except, bind. simpl. rewrite Henc.
  destruct (disk_write w csv_path data); reflexivity.
Qed.

Lemma encoding_loop_latin1 :
  decode_utf8 csv_content = None ->
  decode_cp1252 csv_content = None ->
  exists data,
    encode_utf8 (map byte_val csv_content) = Some data
    /\ encoding_loop py_decode w saved_name csv_path csv_content candidate_encodings
       = saved_as w saved_name csv_path "latin-1" data.
Proof.
  intros Hutf Hcp.
  destruct (encode_utf8_low _ (decode_latin1_low csv_content)) as [data Henc].
  exists data. split; [exact Henc |].
  unfold candidate_encodings. cbn [encoding_loop].
  unfold py_decode, decode_latin1. simpl String.eqb. cbv iota. rewrite Hutf, Hcp.
  unfold write_text, saved_as, try_except, bind. simpl. rewrite Henc.
  destruct (disk_write w csv_path data); reflexivity.
Qed.

(** Under CPython's codecs the loop always ends by handing some UTF-8
    data to the disk. *)
Lemma encoding_loop_py :
  exists encoding data,
    In encoding candidate_encodings
    /\ encoding_loop py_decode w saved_name csv_path csv_content candidate_encodings
       = saved_as w saved_name csv_path encoding data.
Proof.
  destruct (decode_utf8 csv_content) as [t |] eqn:Hutf.
  { exists "utf-8", csv_content. split; [simpl; tauto |].
    eapply encoding_loop_utf8; eauto. }
  destruct (decode_cp1252 csv_content) as [t |] eqn:Hcp.
  { destruct (encoding_loop_cp1252 t Hutf Hcp) as (data & _ & Hloop).
    exists "cp1252", data. split; [simpl; tauto | exact Hloop]. }
  destruct (encoding_loop_latin1 Hutf Hcp) as (data & _ & Hloop).
  exists "latin-1", data. split; [simpl; tauto | exact Hloop].
Qed.

End EncodingLoopFacts.

(** Runs the plumbing of the monad and leaves the oracles, the
    encoding loop and the strings alone. *)
Ltac run_monad :=
  cbv beta iota delta [raise_for_status call try_except bind print emit ret
                       raise fst snd after_loop outcome trace].

(** Flattens the appended pieces of a trace. *)
Ltac tidy_trace := cbn [app]; rewrite ?app_nil_r; reflexivity.

Section DecodingStage.

Lemma py_decode_utf8 (bs : list byte) :
  py_decode "utf-8" bs
  = match decode_utf8 bs with Some t => Return t | None => Raise UnicodeDecodeError end.
Proof. reflexivity. Qed.

Lemma py_decode_cp1252 (bs : list byte) :
  py_decode "cp1252" bs
  = match decode_cp1252 bs with Some t => Return t | None => Raise UnicodeDecodeError end.
Proof. reflexivity. Qed.

Lemma py_decode_latin1 (bs : list byte) :
  py_decode "latin-1" bs = Return (map byte_val bs).
Proof. reflexivity. Qed.

Lemma py_decode_utf8_Some (bs : list byte) (t : text) :
  py_decode "utf-8" bs = Return t <-> decode_utf8 bs = Some t.
Proof.
  rewrite py_decode_utf8. destruct (decode_utf8 bs); split; congruence.
Qed.

Lemma py_decode_utf8_None (bs : list byte) (e : exn) :
  py_decode "utf-8" bs = Raise e -> decode_utf8 bs = None.
Proof. rewrite py_decode_utf8. destruct (decode_utf8 bs); congruence. Qed.

Lemma py_decode_cp1252_Some (bs : list byte) (t : text) :
  py_decode "cp1252" bs = Return t <-> decode_cp1252 bs = Some t.
Proof.
  rewrite py_decode_cp1252. destruct (decode_cp1252 bs); split; congruence.
Qed.

Lemma py_decode_cp1252_None (bs : list byte) (e : exn) :
  py_decode "cp1252" bs = Raise e -> decode_cp1252 bs = None.
Proof. rewrite py_decode_cp1252. destruct (decode_cp1252 bs); congruence. Qed.

End DecodingStage.

(** C3.  The decoding stage shared by both fetchers goes through
    utf-8, cp1252 and latin-1 in that order and takes the first one that
    decodes the content: the decoded text, encoded as UTF-8, is what is
    written to the target path.  When the content is valid UTF-8, utf-8
    is the encoding taken and the bytes written are the UTF-8 encoding
    of the decoded text, which are the input bytes themselves; both
    fetchers then save exactly the bytes they received. *)
Theorem decoding_stage_takes_first_encoding
    (w : World) (saved_name csv_path : string) (csv_content : list byte) :
  let loop :=
    encoding_loop py_decode w saved_name csv_path csv_content candidate_encodings in
  candidate_encodings = ["utf-8"; "cp1252"; "latin-1"]
  /\ (forall t, py_decode "utf-8" csv_content = Return t ->
        encode_utf8 t = Some csv_content
        /\ loop = saved_as w saved_name csv_path "utf-8" csv_content)
  /\ (forall e t, py_decode "utf-8" csv_content = Raise e ->
        py_decode "cp1252" csv_content = Return t ->
        exists data, encode_utf8 t = Some data
                     /\ loop = saved_as w saved_name csv_path "cp1252" data)
  /\ (forall e e' t, py_decode "utf-8" csv_content = Raise e ->
        py_decode "cp1252" csv_content = Raise e' ->
        py_decode "latin-1" csv_content = Return t ->
        exists data, encode_utf8 t = Some data
                     /\ loop = saved_as w saved_name csv_path "latin-1" data)
  /\ (forall url target_path filename status_code t,
        requests_get w url = Return (status_code, csv_content) ->
        (400 <=? status_code) && (status_code <? 600) = false ->
        py_decode "utf-8" csv_content = Return t ->
        disk_write w (path_join target_path filename) csv_content = true ->
        download_csv_direct py_decode w url target_path filename
        = (Return true,
           [EvPrint ("Downloading " +:+ filename +:+ "...");
            EvGet url;
            EvWrite (path_join target_path filename) csv_content;
            EvPrint ("✓ Saved " +:+ filename
                     +:+ " (converted from utf-8 to UTF-8)")]))
  /\ (forall url target_path filename status_code body t,
        requests_get w url = Return (status_code, body) ->
        (400 <=? status_code) && (status_code <? 600) = false ->
        zip_read w body (replace ".zip" ".csv" filename) = Return csv_content ->
        py_decode "utf-8" csv_content = Return t ->
        disk_write w (path_join target_path (replace ".zip" ".csv" filename))
          csv_content = true ->
        download_and_extract py_decode w url target_path filename
        = (Return true,
           [EvPrint ("Downloading " +:+ filename +:+ "...");
            EvGet url;
            EvWrite (path_join target_path (replace ".zip" ".csv" filename))
              csv_content;
            EvPrint ("✓ Saved " +:+ replace ".zip" ".csv" filename
                     +:+ " (converted from utf-8 to UTF-8)")])).
Proof.
  intros loop. subst loop.
  split; [reflexivity |].
  split.
  { intros t Ht. apply py_decode_utf8_Some in Ht. split.
    - apply decode_encode_utf8, Ht.
    - eapply encoding_loop_utf8, Ht. }
  split.
  { intros e t He Ht. apply py_decode_utf8_None in He.
    apply py_decode_cp1252_Some in Ht.
    apply encoding_loop_cp1252; assumption. }
  split.
  { intros e e' t He He' Ht. apply py_decode_utf8_None in He.
    apply py_decode_cp1252_None in He'.
    rewrite py_decode_latin1 in Ht. injection Ht as <-.
    apply encoding_loop_latin1; assumption. }
  split.
  { intros url target_path filename status_code t Hget Hstatus Ht Hdisk.
    apply py_decode_utf8_Some in Ht.
    unfold download_csv_direct. rewrite Hget. run_monad.
    rewrite Hstatus. run_monad.
    rewrite (encoding_loop_utf8 w filename _ csv_content t Ht).
    unfold saved_as. rewrite Hdisk. reflexivity. }
  intros url target_path filename status_code body t Hget Hstatus Hzip Ht Hdisk.
  apply py_decode_utf8_Some in Ht.
  unfold download_and_extract. rewrite Hget. run_monad.
  rewrite Hstatus. run_monad. rewrite Hzip. run_monad.
  rewrite (encoding_loop_utf8 w _ _ csv_content t Ht).
  unfold saved_as. rewrite Hdisk. reflexivity.
Qed.

(** ** The encoding loop under any decoder *)

Section AnyDecoder.

Variable decode : string -> list byte -> result text.
Variable w : World.
Variables saved_name csv_path : string.
Variable csv_content : list byte.

(** One pass of the loop, path by path. *)
Lemma encoding_loop_cons (encoding : string) (rest : list string) :
  encoding_loop decode w saved_name csv_path csv_content (encoding :: rest)
  = match decode encoding csv_content with
    | Return t =>
        match encode_utf8 t with
        | Some data => saved_as w saved_name csv_path encoding data
        | None =>
            if String.eqb encoding "latin-1"
            then (Raise UnicodeEncodeError, [EvWrite csv_path []])
            else
              let '(r, evs) :=
                encoding_loop decode w saved_name csv_path csv_content rest in
              (r, EvWrite csv_path [] :: evs)
        end
    | Raise e =>
        if is_UnicodeError e && negb (String.eqb encoding "latin-1")
        then encoding_loop decode w saved_name csv_path csv_content rest
        else (Raise e, [])
    end.
Proof.
  cbn [encoding_loop]. unfold write_text, saved_as.
  destruct (decode encoding csv_content) as [t | e]; run_monad.
  - destruct (encode_utf8 t) as [data |]; run_monad.
    + destruct (disk_write w csv_path data); reflexivity.
    + cbn [is_UnicodeError].
      destruct (String.eqb encoding "latin-1"); [reflexivity |].
      destruct (encoding_loop decode w saved_name csv_path csv_content rest).
      reflexivity.
  - destruct (is_UnicodeError e); [| reflexivity].
    destruct (String.eqb encoding "latin-1"); [reflexivity |]. cbn [negb andb].
    destruct (encoding_loop decode w saved_name csv_path csv_content rest).
    reflexivity.
Qed.

(** A list of candidates that ends with latin-1 is never run through:
    the loop returns from inside or raises. *)
Lemma encoding_loop_ends_inside (encodings : list string) :
  outcome (encoding_loop decode w saved_name csv_path csv_content
             (encodings ++ ["latin-1"]))
  <> Return FellThrough.
Proof.
  induction encodings as [| encoding rest IH];
    cbn [app]; rewrite encoding_loop_cons.
  - destruct (decode "latin-1" csv_content) as [t | e].
    + destruct (encode_utf8 t) as [data |]; [| discriminate].
      unfold saved_as. destruct (disk_write w csv_path data); discriminate.
    + rewrite andb_false_r. discriminate.
  - destruct (decode encoding csv_content) as [t | e].
    + destruct (encode_utf8 t) as [data |].
      * unfold saved_as. destruct (disk_write w csv_path data); discriminate.
      * destruct (String.eqb encoding "latin-1"); [discriminate |].
        destruct (encoding_loop decode w saved_name csv_path csv_content
                    (rest ++ ["latin-1"])). exact IH.
    + destruct (is_UnicodeError e && negb (String.eqb encoding "latin-1"));
        [exact IH | discriminate].
Qed.

(** The loop sends no request. *)
Lemma encoding_loop_no_request (encodings : list string) :
  requests_of (trace (encoding_loop decode w saved_name csv_path csv_content encodings))
  = [].
Proof.
  induction encodings as [| encoding rest IH]; [reflexivity |].
  rewrite encoding_loop_cons.
  destruct (decode encoding csv_content) as [t | e].
  - destruct (encode_utf8 t) as [data |].
    + unfold saved_as. destruct (disk_write w csv_path data); reflexivity.
    + destruct (String.eqb encoding "latin-1"); [reflexivity |].
      destruct (encoding_loop decode w saved_name csv_path csv_content rest).
      exact IH.
  - destruct (is_UnicodeError e && negb (String.eqb encoding "latin-1"));
      [exact IH | reflexivity].
Qed.

(** Whatever the loop writes goes to [csv_path] and is the UTF-8 form of
    a text that one of the candidates decoded (nothing, when that text
    does not encode). *)
Lemma encoding_loop_writes_decoded (encodings : list string) (ev : event) :
  In ev (writes_of (trace (encoding_loop decode w saved_name csv_path csv_content
                             encodings))) ->
  exists encoding t,
    In encoding encodings
    /\ decode encoding csv_content = Return t
    /\ ev = EvWrite csv_path (match encode_utf8 t with Some data => data | None => [] end).
Proof.
  induction encodings as [| encoding rest IH]; [intros [] |].
  rewrite encoding_loop_cons.
  destruct (decode encoding csv_content) as [t | e] eqn:Hdec.
  - destruct (encode_utf8 t) as [data |] eqn:Henc.
    + unfold saved_as.
      destruct (disk_write w csv_path data); simpl;
        (intros [<- | []]; exists encoding, t; rewrite Henc; simpl; auto).
    + destruct (String.eqb encoding "latin-1").
      * simpl. intros [<- | []]. exists encoding, t. rewrite Henc. simpl. auto.
      * destruct (encoding_loop decode w saved_name csv_path csv_content rest)
          as [r evs]. simpl. intros [<- | Hin].
        -- exists encoding, t. rewrite Henc. simpl. auto.
        -- destruct (IH Hin) as (enc' & t' & Hin' & Hdec' & ->).
           exists enc', t'. simpl. auto.
  - destruct (is_UnicodeError e && negb (String.eqb encoding "latin-1")).
    + intros Hin. destruct (IH Hin) as (enc' & t' & Hin' & Hdec' & ->).
      exists enc', t'. simpl. auto.
    + intros [].
Qed.

(** When no candidate decodes, nothing is written and the loop raises. *)
Lemma encoding_loop_all_fail (encodings : list string) :
  (forall encoding, In encoding encodings ->
                    exists e, decode encoding csv_content = Raise e) ->
  writes_of (trace (encoding_loop decode w saved_name csv_path csv_content encodings))
  = []
  /\ forall encoding,
       outcome (encoding_loop decode w saved_name csv_path csv_content encodings)
       <> Return (ReturnedTrue encoding).
Proof.
  induction encodings as [| encoding rest IH]; intros Hall.
  - split; [reflexivity | discriminate].
  - rewrite encoding_loop_cons.
    destruct (Hall encoding) as [e ->]; [simpl; auto |].
    destruct (is_UnicodeError e && negb (String.eqb encoding "latin-1")).
    + apply IH. intros enc' Hin. apply Hall. simpl. auto.
    + split; [reflexivity | discriminate].
Qed.

End AnyDecoder.

(** ** The two fetchers, path by path *)

Section FetcherPaths.

Variable decode : string -> list byte -> result text.
Variable w : World.
Variables url target_path filename : string.

Lemma download_csv_direct_paths :
  download_csv_direct decode w url target_path filename
  = match requests_get w url with
    | Raise e => handled_direct filename e (fetch_start url filename)
    | Return (status_code, body) =>
        if error_status status_code
        then handled_direct filename (RequestException HTTPError)
               (fetch_start url filename)
        else
          let '(r, evs) :=
            encoding_loop decode w filename (path_join target_path filename)
              body candidate_encodings in
          finished (handled_direct filename) r (fetch_start url filename ++ evs)
    end.
Proof.
  unfold download_csv_direct, handled_direct, fetch_start, error_status.
  destruct (requests_get w url) as [[status_code body] | e]; run_monad.
  - destruct ((400 <=? status_code) && (status_code <? 600)); run_monad.
    + reflexivity.
    + destruct (encoding_loop decode w filename (path_join target_path filename)
                  body candidate_encodings) as [[[enc |] | e] evs];
        unfold finished; [tidy_trace | tidy_trace |].
      destruct (is_RequestException e); [tidy_trace |].
      destruct (is_Exception e); tidy_trace.
  - destruct (is_RequestException e); [tidy_trace |].
    destruct (is_Exception e); tidy_trace.
Qed.

Lemma download_and_extract_paths :
  let csv_filename := replace ".zip" ".csv" filename in
  download_and_extract decode w url target_path filename
  = match requests_get w url with
    | Raise e => handled_zip filename e (fetch_start url filename)
    | Return (status_code, body) =>
        if error_status status_code
        then handled_zip filename (RequestException HTTPError)
               (fetch_start url filename)
        else
          match zip_read w body csv_filename with
          | Raise e => handled_zip filename e (fetch_start url filename)
          | Return csv_content =>
              let '(r, evs) :=
                encoding_loop decode w csv_filename
                  (path_join target_path csv_filename) csv_content
                  candidate_encodings in
              finished (handled_zip filename) r (fetch_start url filename ++ evs)
          end
    end.
Proof.
  intros csv_filename. subst csv_filename.
  unfold download_and_extract, handled_zip, fetch_start, error_status.
  destruct (requests_get w url) as [[status_code body] | e]; run_monad.
  - destruct ((400 <=? status_code) && (status_code <? 600)); run_monad.
    + reflexivity.
    + destruct (zip_read w body (replace ".zip" ".csv" filename))
        as [csv_content | e]; run_monad.
      * destruct (encoding_loop decode w (replace ".zip" ".csv" filename)
                    (path_join target_path (replace ".zip" ".csv" filename))
                    csv_content candidate_encodings) as [[[enc |] | e] evs];
          unfold finished; [tidy_trace | tidy_trace |].
        destruct (is_RequestException e); [tidy_trace |].
        destruct (is_BadZipFile e); [tidy_trace |].
        destruct (is_Exception e); tidy_trace.
      * destruct (is_RequestException e); [tidy_trace |].
        destruct (is_BadZipFile e); [tidy_trace |].
        destruct (is_Exception e); tidy_trace.
  - destruct (is_RequestException e); [tidy_trace |].
    destruct (is_BadZipFile e); [tidy_trace |].
    destruct (is_Exception e); tidy_trace.
Qed.

End FetcherPaths.

(** ** Claims about the fetchers *)

(** C9.  The [return False] after the encoding loop is never reached,
    in either fetcher: latin-1 decodes every byte sequence, so under
    CPython's codecs the loop ends inside an iteration, by returning
    true after a decode and a write or by raising what the write
    raised; whatever the decoders, the loop never runs through, and
    every false a fetcher returns comes from one of its [except]
    clauses. *)
Theorem post_loop_return_unreachable
    (w : World) (saved_name csv_path : string) (csv_content : list byte) :
  (forall bs, py_decode "latin-1" bs = Return (map byte_val bs))
  /\ (exists encoding data,
        In encoding candidate_encodings
        /\ encoding_loop py_decode w saved_name csv_path csv_content candidate_encodings
           = saved_as w saved_name csv_path encoding data)
  /\ (forall decode,
        outcome (encoding_loop decode w saved_name csv_path csv_content
                   candidate_encodings) <> Return FellThrough)
  /\ (forall decode url target_path filename,
        outcome (download_csv_direct decode w url target_path filename) = Return false ->
        exists e evs,
          download_csv_direct decode w url target_path filename
          = handled_direct filename e evs)
  /\ (forall decode url target_path filename,
        outcome (download_and_extract decode w url target_path filename) = Return false ->
        exists e evs,
          download_and_extract decode w url target_path filename
          = handled_zip filename e evs).
Proof.
  split; [intros bs; reflexivity |].
  split; [apply encoding_loop_py |].
  split.
  { intros decode.
    apply (encoding_loop_ends_inside decode w saved_name csv_path csv_content
             ["utf-8"; "cp1252"]). }
  split.
  - intros decode url target_path filename.
    rewrite download_csv_direct_paths.
    destruct (requests_get w url) as [[status_code body] | e]; [| eauto].
    destruct (error_status status_code); [eauto |].
    pose proof (encoding_loop_ends_inside decode w filename
                  (path_join target_path filename) body ["utf-8"; "cp1252"]) as Hin.
    cbn [app] in Hin. fold candidate_encodings in Hin.
    destruct (encoding_loop decode w filename (path_join target_path filename)
                body candidate_encodings) as [[[enc |] | e] evs];
      cbn [finished outcome fst] in *; [discriminate | congruence | eauto].
  - intros decode url target_path filename.
    rewrite download_and_extract_paths.
    destruct (requests_get w url) as [[status_code body] | e]; [| eauto].
    destruct (error_status status_code); [eauto |].
    destruct (zip_read w body (replace ".zip" ".csv" filename))
      as [content | e]; [| eauto].
    pose proof (encoding_loop_ends_inside decode w (replace ".zip" ".csv" filename)
                  (path_join target_path (replace ".zip" ".csv" filename))
                  content ["utf-8"; "cp1252"]) as Hin.
    cbn [app] in Hin. fold candidate_encodings in Hin.
    destruct (encoding_loop decode w (replace ".zip" ".csv" filename)
                (path_join target_path (replace ".zip" ".csv" filename))
                content candidate_encodings) as [[[enc |] | e] evs];
      cbn [finished outcome fst] in *; [discriminate | congruence | eauto].
Qed.

Section WritesFacts.

Variable decode : string -> list byte -> result text.
Variable w : World.

Lemma writes_of_app (l1 l2 : list event) :
  writes_of (l1 ++ l2) = writes_of l1 ++ writes_of l2.
Proof. apply List.filter_app. Qed.

Lemma writes_of_handled_direct (filename : string) (e : exn) (evs : list event) :
  writes_of (trace (handled_direct filename e evs)) = writes_of evs
  /\ outcome (handled_direct filename e evs) <> Return true.
Proof.
  unfold handled_direct.
  destruct (is_RequestException e); [| destruct (is_Exception e)];
    cbn [trace outcome fst snd]; rewrite ?writes_of_app, ?app_nil_r;
    split; (reflexivity || discriminate).
Qed.

Lemma writes_of_handled_zip (filename : string) (e : exn) (evs : list event) :
  writes_of (trace (handled_zip filename e evs)) = writes_of evs
  /\ outcome (handled_zip filename e evs) <> Return true.
Proof.
  unfold handled_zip.
  destruct (is_RequestException e);
    [| destruct (is_BadZipFile e); [| destruct (is_Exception e)]];
    cbn [trace outcome fst snd]; rewrite ?writes_of_app, ?app_nil_r;
    split; (reflexivity || discriminate).
Qed.

(** The writes of a fetch are those of its encoding loop. *)
Lemma writes_of_download_csv_direct (url target_path filename : string) :
  writes_of (trace (download_csv_direct decode w url target_path filename))
  = match direct_content w url with
    | Some body =>
        writes_of (trace (encoding_loop decode w filename
                            (path_join target_path filename) body
                            candidate_encodings))
    | None => []
    end.
Proof.
  rewrite download_csv_direct_paths. unfold direct_content.
  destruct (requests_get w url) as [[status_code body] | e];
    [| apply writes_of_handled_direct].
  destruct (error_status status_code); [apply writes_of_handled_direct |].
  destruct (encoding_loop decode w filename (path_join target_path filename)
              body candidate_encodings) as [[[enc |] | e] evs];
    cbn [finished trace snd]; try reflexivity.
  rewrite (proj1 (writes_of_handled_direct _ _ _)). reflexivity.
Qed.

Lemma writes_of_download_and_extract (url target_path filename : string) :
  let csv_filename := replace ".zip" ".csv" filename in
  writes_of (trace (download_and_extract decode w url target_path filename))
  = match zip_content w url csv_filename with
    | Some csv_content =>
        writes_of (trace (encoding_loop decode w csv_filename
                            (path_join target_path csv_filename) csv_content
                            candidate_encodings))
    | None => []
    end.
Proof.
  intros csv_filename. subst csv_filename.
  rewrite download_and_extract_paths. unfold zip_content, direct_content.
  destruct (requests_get w url) as [[status_code body] | e];
    [| apply writes_of_handled_zip].
  destruct (error_status status_code); [apply writes_of_handled_zip |].
  destruct (zip_read w body (replace ".zip" ".csv" filename)) as [content | e];
    [| apply writes_of_handled_zip].
  destruct (encoding_loop decode w (replace ".zip" ".csv" filename)
              (path_join target_path (replace ".zip" ".csv" filename))
              content candidate_encodings) as [[[enc |] | e] evs];
    cbn [finished trace snd]; try reflexivity.
  rewrite (proj1 (writes_of_handled_zip _ _ _)). reflexivity.
Qed.

(** A fetch that fails before any candidate decodes does not return true. *)
Lemma download_csv_direct_fails (url target_path filename : string) :
  fails_before_decode decode (direct_content w url) ->
  outcome (download_csv_direct decode w url target_path filename) <> Return true.
Proof.
  rewrite download_csv_direct_paths. unfold direct_content.
  destruct (requests_get w url) as [[status_code body] | e];
    [| intros _; apply writes_of_handled_direct].
  destruct (error_status status_code);
    [intros _; apply writes_of_handled_direct |].
  cbn [fails_before_decode]. intros Hall.
  pose proof (proj2 (encoding_loop_all_fail decode w filename
                       (path_join target_path filename) body
                       candidate_encodings Hall)) as Hno.
  destruct (encoding_loop decode w filename (path_join target_path filename)
              body candidate_encodings) as [[[enc |] | e] evs];
    cbn [finished outcome fst] in *.
  - exfalso. apply (Hno enc). reflexivity.
  - discriminate.
  - apply writes_of_handled_direct.
Qed.

Lemma download_and_extract_fails (url target_path filename : string) :
  fails_before_decode decode (zip_content w url (replace ".zip" ".csv" filename)) ->
  outcome (download_and_extract decode w url target_path filename) <> Return true.
Proof.
  rewrite download_and_extract_paths. unfold zip_content, direct_content.
  destruct (requests_get w url) as [[status_code body] | e];
    [| intros _; apply writes_of_handled_zip].
  destruct (error_status status_code);
    [intros _; apply writes_of_handled_zip |].
  destruct (zip_read w body (replace ".zip" ".csv" filename)) as [content | e];
    [| intros _; apply writes_of_handled_zip].
  cbn [fails_before_decode]. intros Hall.
  pose proof (proj2 (encoding_loop_all_fail decode w
                       (replace ".zip" ".csv" filename)
                       (path_join target_path (replace ".zip" ".csv" filename))
                       content candidate_encodings Hall)) as Hno.
  destruct (encoding_loop decode w (replace ".zip" ".csv" filename)
              (path_join target_path (replace ".zip" ".csv" filename))
              content candidate_encodings) as [[[enc |] | e] evs];
    cbn [finished outcome fst] in *.
  - exfalso. apply (Hno enc). reflexivity.
  - discriminate.
  - apply writes_of_handled_zip.
Qed.

End WritesFacts.

(** C10.  In both fetchers a write comes only after a decode: every
    write of a fetch goes to the target path and carries the UTF-8 form
    of a text that one of the candidate encodings decoded from the
    content that reached the decoding stage.  So a fetch that fails
    before any candidate decodes (the request raised, the status made
    [raise_for_status] raise, the archive could not be read, or every
    candidate raised) writes nothing and does not return true. *)
Theorem no_write_before_decode
    (decode : string -> list byte -> result text) (w : World)
    (url target_path filename : string) :
  let csv_filename := replace ".zip" ".csv" filename in
  (forall ev,
      In ev (writes_of (trace (download_csv_direct decode w url target_path filename))) ->
      exists body encoding t,
        direct_content w url = Some body
        /\ In encoding candidate_encodings
        /\ decode encoding body = Return t
        /\ ev = EvWrite (path_join target_path filename) (written_for t))
  /\ (forall ev,
      In ev (writes_of (trace (download_and_extract decode w url target_path filename))) ->
      exists csv_content encoding t,
        zip_content w url csv_filename = Some csv_content
        /\ In encoding candidate_encodings
        /\ decode encoding csv_content = Return t
        /\ ev = EvWrite (path_join target_path csv_filename) (written_for t))
  /\ (fails_before_decode decode (direct_content w url) ->
      writes_of (trace (download_csv_direct decode w url target_path filename)) = []
      /\ outcome (download_csv_direct decode w url target_path filename) <> Return true)
  /\ (fails_before_decode decode (zip_content w url csv_filename) ->
      writes_of (trace (download_and_extract decode w url target_path filename)) = []
      /\ outcome (download_and_extract decode w url target_path filename) <> Return true).
Proof.
  intros csv_filename.
  split.
  { intros ev. rewrite writes_of_download_csv_direct.
    destruct (direct_content w url) as [body |]; [| intros []].
    intros Hin. apply encoding_loop_writes_decoded in Hin as (enc & t & H1 & H2 & H3).
    exists body, enc, t. auto. }
  split.
  { intros ev. rewrite writes_of_download_and_extract. fold csv_filename.
    destruct (zip_content w url csv_filename) as [content |]; [| intros []].
    intros Hin. apply encoding_loop_writes_decoded in Hin as (enc & t & H1 & H2 & H3).
    exists content, enc, t. auto. }
  split.
  { intros Hfail. split; [| apply download_csv_direct_fails, Hfail].
    rewrite writes_of_download_csv_direct.
    destruct (direct_content w url) as [body |]; [| reflexivity].
    apply encoding_loop_all_fail, Hfail. }
  intros Hfail. split; [| apply download_and_extract_fails, Hfail].
  rewrite writes_of_download_and_extract. fold csv_filename.
  destruct (zip_content w url csv_filename) as [content |]; [| reflexivity].
  apply encoding_loop_all_fail, Hfail.
Qed.

(** ** The loop body, path by path *)

Section BodyPaths.

Variable decode : string -> list byte -> result text.
Variable w : World.
Variable existing_files : gset string.
Variable args_path : string.

Lemma file_exists_trace (url : string) :
  file_exists w url = (outcome (file_exists w url), [EvHead url]).
Proof.
  unfold file_exists, call. run_monad.
  destruct (requests_head w url) as [status_code | e]; [reflexivity |].
  destruct (is_RequestException e); reflexivity.
Qed.

Lemma loop_body_paths (st : run_state) (month : string) :
  loop_body decode w existing_files args_path st month
  = if bool_decide (filename_of month ∈ existing_files) then
      (Return (skip_month st, Next),
       [EvPrint ("⊘ Skipping " +:+ csv_name_of month +:+ " (already exists)")])
    else
      match outcome (file_exists w (zip_url_of month)) with
      | Raise e => (Raise e, [EvHead (zip_url_of month)])
      | Return true =>
          after_fetch st [EvHead (zip_url_of month)]
            (download_and_extract decode w (zip_url_of month) args_path
               (filename_of month +:+ ".zip"))
      | Return false =>
          match outcome (file_exists w (csv_url_of month)) with
          | Raise e => (Raise e, [EvHead (zip_url_of month); EvHead (csv_url_of month)])
          | Return true =>
              after_fetch st [EvHead (zip_url_of month); EvHead (csv_url_of month)]
                (download_csv_direct decode w (csv_url_of month) args_path
                   (csv_name_of month))
          | Return false => (Return (miss_month st, miss_flow st), miss_events month st)
          end
      end.
Proof.
  unfold loop_body.
  destruct (bool_decide (filename_of month ∈ existing_files)); [reflexivity |].
  rewrite (file_exists_trace (zip_url_of month)).
  rewrite (file_exists_trace (csv_url_of month)).
  cbn [outcome fst].
  generalize (outcome (file_exists w (zip_url_of month))) as zip_found.
  generalize (outcome (file_exists w (csv_url_of month))) as csv_found.
  intros [[|] | e'] [[|] | e]; run_monad; try reflexivity.
  - unfold after_fetch.
    destruct (download_and_extract decode w (zip_url_of month) args_path
                (filename_of month +:+ ".zip")) as [[ok | e] evs];
      cbn [app]; rewrite ?app_nil_r; reflexivity.
  - unfold after_fetch.
    destruct (download_csv_direct decode w (csv_url_of month) args_path
                (csv_name_of month)) as [[ok | e] evs];
      cbn [app]; rewrite ?app_nil_r; reflexivity.
  - unfold after_fetch.
    destruct (download_and_extract decode w (zip_url_of month) args_path
                (filename_of month +:+ ".zip")) as [[ok | e] evs];
      cbn [app]; rewrite ?app_nil_r; reflexivity.
  - unfold miss_flow, miss_events, miss_month. cbn [consecutive_404s].
    destruct (consecutive_404s st + 1 >=? max_consecutive_404s); reflexivity.
  - unfold after_fetch.
    destruct (download_and_extract decode w (zip_url_of month) args_path
                (filename_of month +:+ ".zip")) as [[ok | e] evs];
      cbn [app]; rewrite ?app_nil_r; reflexivity.
Qed.

End BodyPaths.

(** ** Requests of a fetch and of a month *)

Section RequestFacts.

Variable decode : string -> list byte -> result text.
Variable w : World.

Lemma requests_of_app (l1 l2 : list event) :
  requests_of (l1 ++ l2) = requests_of l1 ++ requests_of l2.
Proof. apply List.filter_app. Qed.

Lemma requests_of_handled_direct (filename : string) (e : exn) (evs : list event) :
  requests_of (trace (handled_direct filename e evs)) = requests_of evs.
Proof.
  unfold handled_direct.
  destruct (is_RequestException e); [| destruct (is_Exception e)];
    cbn [trace snd]; rewrite ?requests_of_app, ?app_nil_r; reflexivity.
Qed.

Lemma requests_of_handled_zip (filename : string) (e : exn) (evs : list event) :
  requests_of (trace (handled_zip filename e evs)) = requests_of evs.
Proof.
  unfold handled_zip.
  destruct (is_RequestException e);
    [| destruct (is_BadZipFile e); [| destruct (is_Exception e)]];
    cbn [trace snd]; rewrite ?requests_of_app, ?app_nil_r; reflexivity.
Qed.

(** Every fetch sends exactly one request: the GET of its URL. *)
Lemma requests_of_download_csv_direct (url target_path filename : string) :
  requests_of (trace (download_csv_direct decode w url target_path filename))
  = [EvGet url].
Proof.
  rewrite download_csv_direct_paths.
  destruct (requests_get w url) as [[status_code body] | e];
    [| apply requests_of_handled_direct].
  destruct (error_status status_code); [apply requests_of_handled_direct |].
  pose proof (encoding_loop_no_request decode w filename
                (path_join target_path filename) body candidate_encodings) as Hno.
  destruct (encoding_loop decode w filename (path_join target_path filename)
              body candidate_encodings) as [[[enc |] | e] evs];
    cbn [finished trace snd] in *;
    rewrite ?requests_of_handled_direct, requests_of_app, Hno; reflexivity.
Qed.

Lemma requests_of_download_and_extract (url target_path filename : string) :
  requests_of (trace (download_and_extract decode w url target_path filename))
  = [EvGet url].
Proof.
  rewrite download_and_extract_paths.
  destruct (requests_get w url) as [[status_code body] | e];
    [| apply requests_of_handled_zip].
  destruct (error_status status_code); [apply requests_of_handled_zip |].
  destruct (zip_read w body (replace ".zip" ".csv" filename)) as [content | e];
    [| apply requests_of_handled_zip].
  pose proof (encoding_loop_no_request decode w (replace ".zip" ".csv" filename)
                (path_join target_path (replace ".zip" ".csv" filename))
                content candidate_encodings) as Hno.
  destruct (encoding_loop decode w (replace ".zip" ".csv" filename)
              (path_join target_path (replace ".zip" ".csv" filename))
              content candidate_encodings) as [[[enc |] | e] evs];
    cbn [finished trace snd] in *;
    rewrite ?requests_of_handled_zip, requests_of_app, Hno; reflexivity.
Qed.

Lemma after_fetch_trace (st : run_state) (probes : list event) (m : M bool) :
  trace (after_fetch st probes m) = probes ++ trace m.
Proof. destruct m as [[ok | e] evs]; reflexivity. Qed.

End RequestFacts.

(** C6.  For a month that is not already present, the controller first
    probes the archive URL; it probes the bare URL only when the
    archive probe returned false; and it fetches at most once, with the
    fetcher of the variant whose probe returned true:
    [download_and_extract] on the archive URL, [download_csv_direct] on
    the bare URL, and nothing when neither probe returned true. *)
Theorem probes_archive_then_bare
    (decode : string -> list byte -> result text) (w : World)
    (existing_files : gset string) (args_path : string)
    (st : run_state) (month : string) :
  filename_of month ∉ existing_files ->
  let zip_url := zip_url_of month in
  let csv_url := csv_url_of month in
  let body := loop_body decode w existing_files args_path st month in
  requests_of (trace body)
  = match outcome (file_exists w zip_url) with
    | Return true => [EvHead zip_url; EvGet zip_url]
    | Return false =>
        match outcome (file_exists w csv_url) with
        | Return true => [EvHead zip_url; EvHead csv_url; EvGet csv_url]
        | _ => [EvHead zip_url; EvHead csv_url]
        end
    | Raise _ => [EvHead zip_url]
    end
  /\ (outcome (file_exists w zip_url) = Return true ->
      trace body
      = EvHead zip_url
        :: trace (download_and_extract decode w zip_url args_path
                    (filename_of month +:+ ".zip")))
  /\ (outcome (file_exists w zip_url) = Return false ->
      outcome (file_exists w csv_url) = Return true ->
      trace body
      = EvHead zip_url :: EvHead csv_url
        :: trace (download_csv_direct decode w csv_url args_path (csv_name_of month))).
Proof.
  intros Hnew zip_url csv_url body. subst zip_url csv_url body.
  rewrite loop_body_paths, bool_decide_eq_false_2 by exact Hnew.
  destruct (outcome (file_exists w (zip_url_of month))) as [[|] | e].
  - rewrite after_fetch_trace, requests_of_app, requests_of_download_and_extract.
    split; [reflexivity |]. split; [reflexivity | discriminate].
  - destruct (outcome (file_exists w (csv_url_of month))) as [[|] | e].
    + rewrite after_fetch_trace, requests_of_app, requests_of_download_csv_direct.
      split; [reflexivity |]. split; [discriminate | reflexivity].
    + split; [| split; discriminate].
      unfold miss_events. cbn [trace snd]. rewrite requests_of_app.
      destruct (consecutive_404s (miss_month st) >=? max_consecutive_404s);
        reflexivity.
    + split; [reflexivity |]. split; discriminate.
  - split; [reflexivity |]. split; discriminate.
Qed.

(** The requests for 202002 on a remote that only has its bare file. *)
Lemma probes_archive_then_bare_witness :
  let w := world_with [] ["202002"] [] [x41] in
  requests_of (trace (loop_body py_decode w ∅ "/data" initial_state "202002"))
  = [EvHead (zip_url_of "202002"); EvHead (csv_url_of "202002");
     EvGet (csv_url_of "202002")].
Proof.
  intros w.
  apply (proj1 (probes_archive_then_bare py_decode w ∅ "/data" initial_state
                  "202002" (not_elem_of_empty _))).
Defined.

(** ** The loop over the months *)

Section LoopFacts.

Variable decode : string -> list byte -> result text.
Variable w : World.
Variable existing_files : gset string.
Variable args_path : string.

Local Abbreviation body := (loop_body decode w existing_files args_path).
Local Abbreviation loop := (main_loop decode w existing_files args_path).
Local Abbreviation status := (status_of w existing_files).
Local Abbreviation streak := (current_streak w existing_files).

Lemma main_loop_single (st : run_state) (month : string) :
  loop [month] st = body st month.
Proof.
  cbn [main_loop].
  destruct (body st month) as [[[st' fl] | e] evs]; run_monad; [| reflexivity].
  destruct fl; cbn [app]; rewrite ?app_nil_r; reflexivity.
Qed.

(** Running over [l1 ++ l2] is running over [l1] and, unless that
    broke out or raised, going on over [l2]. *)
Lemma main_loop_app (l1 l2 : list string) (st0 : run_state) :
  loop (l1 ++ l2) st0
  = match loop l1 st0 with
    | (Return (st, Next), tr) => let '(r, tr') := loop l2 st in (r, tr ++ tr')
    | (Return (st, Break), tr) => (Return (st, Break), tr)
    | (Raise e, tr) => (Raise e, tr)
    end.
Proof.
  revert st0. induction l1 as [| month l1 IH]; intros st0.
  - cbn [app main_loop]. run_monad. destruct (loop l2 st0). reflexivity.
  - cbn [app main_loop].
    destruct (body st0 month) as [[[st1 fl] | e] evs]; run_monad; [| reflexivity].
    destruct fl; [| reflexivity].
    rewrite IH.
    destruct (loop l1 st1) as [[[st2 [|]] | e] tr1]; try reflexivity.
    destruct (loop l2 st2) as [r tr2]. rewrite app_assoc. reflexivity.
Qed.

(** The four ways through the body, by what the month turns out to be. *)
Lemma loop_body_by_status (st : run_state) (month : string) :
  match status month with
  | Skipped =>
      body st month
      = (Return (skip_month st, Next),
         [EvPrint ("⊘ Skipping " +:+ csv_name_of month +:+ " (already exists)")])
  | Missing =>
      body st month = (Return (miss_month st, miss_flow st), miss_events month st)
  | Found => exists probes fetched, body st month = after_fetch st probes fetched
  | Interrupted => exists e evs, body st month = (Raise e, evs)
  end.
Proof.
  rewrite loop_body_paths. unfold status_of.
  destruct (bool_decide (filename_of month ∈ existing_files)); [reflexivity |].
  destruct (outcome (file_exists w (zip_url_of month))) as [[|] | e]; eauto.
  destruct (outcome (file_exists w (csv_url_of month))) as [[|] | e]; eauto.
Qed.

Lemma current_streak_snoc (months : list string) (month : string) :
  streak (months ++ [month])
  = match status month with
    | Found => 0
    | Missing => streak months + 1
    | _ => streak months
    end.
Proof.
  unfold current_streak. rewrite map_app, rev_app_distr. cbn [map rev app misses_back].
  destruct (status month); reflexivity.
Qed.

Lemma miss_flow_Break (st : run_state) :
  miss_flow st = Break <-> consecutive_404s st + 1 >= max_consecutive_404s.
Proof.
  unfold miss_flow, miss_month. cbn [consecutive_404s].
  destruct (Z.geb_spec (consecutive_404s st + 1) max_consecutive_404s);
    split; (congruence || lia).
Qed.

(** While the loop runs, the counter is the current streak, and it is
    below the threshold. *)
Lemma main_loop_invariant (months : list string) (st : run_state) (tr : list event) :
  loop months initial_state = (Return (st, Next), tr) ->
  consecutive_404s st = streak months
  /\ 0 <= consecutive_404s st < max_consecutive_404s.
Proof.
  revert st tr. induction months as [| month months IH] using rev_ind; intros st tr.
  - cbn [main_loop]. intros [= <- <-].
    unfold current_streak, max_consecutive_404s, initial_state. simpl. lia.
  - rewrite main_loop_app.
    destruct (loop months initial_state) as [[[st1 [|]] | e] tr1]; try discriminate.
    destruct (IH st1 tr1 eq_refl) as [Hstreak Hrange].
    rewrite main_loop_single, current_streak_snoc.
    pose proof (loop_body_by_status st1 month) as Hbody.
    destruct (status month).
    + rewrite Hbody. intros [= <- <-]. cbn [skip_month consecutive_404s]. lia.
    + destruct Hbody as (probes & [[ok | e] evs] & ->); cbn [after_fetch];
        [| discriminate].
      intros [= <- <-]. unfold max_consecutive_404s in *.
      destruct ok; cbn [count_download reset_404s consecutive_404s]; lia.
    + rewrite Hbody. intros [= <- Hflow <-].
      assert (miss_flow st1 <> Break) as Hnb by congruence.
      rewrite miss_flow_Break in Hnb.
      cbn [miss_month consecutive_404s]. lia.
    + destruct Hbody as (e & evs & ->). discriminate.
Qed.

End LoopFacts.

(** C1.  While the controller runs over the enumerated months, its
    counter is the length of the current run of consecutive misses and
    stays below three.  On the next month the counter goes up by one
    exactly when both probes returned false, is reset to zero as soon
    as a probe returned true, whatever the fetch then returns, and the
    body breaks out exactly when that brings the counter to three: the
    run then ends with the events of that month, so no later month is
    probed.  A missing month met with a shorter streak lets the loop go
    on, and a found month restarts the streak at zero. *)
Theorem consecutive_miss_counter
    (decode : string -> list byte -> result text) (w : World)
    (existing_files : gset string) (args_path : string)
    (months : list string) (st : run_state) (tr : list event)
    (month : string) (rest : list string) :
  main_loop decode w existing_files args_path months initial_state
  = (Return (st, Next), tr) ->
  let body := loop_body decode w existing_files args_path st month in
  let status := status_of w existing_files month in
  consecutive_404s st = current_streak w existing_files months
  /\ 0 <= consecutive_404s st < 3
  /\ (forall st' fl, outcome body = Return (st', fl) ->
        (consecutive_404s st' = consecutive_404s st + 1 <-> status = Missing)
        /\ (status = Found -> consecutive_404s st' = 0 /\ fl = Next)
        /\ (fl = Break <-> status = Missing /\ consecutive_404s st' = 3))
  /\ (status = Missing -> consecutive_404s st = 2 ->
      main_loop decode w existing_files args_path (months ++ month :: rest)
        initial_state
      = (Return (miss_month st, Break), tr ++ miss_events month st))
  /\ (status = Missing -> consecutive_404s st < 2 ->
      main_loop decode w existing_files args_path (months ++ [month]) initial_state
      = (Return (miss_month st, Next), tr ++ miss_events month st))
  /\ (status = Found -> forall st' fl, outcome body = Return (st', fl) ->
      main_loop decode w existing_files args_path (months ++ [month]) initial_state
      = (Return (st', Next), tr ++ trace body)
      /\ current_streak w existing_files (months ++ [month]) = 0).
Proof.
  intros Hrun body status.
  destruct (main_loop_invariant decode w existing_files args_path months st tr Hrun)
    as [Hstreak Hrange].
  unfold max_consecutive_404s in Hrange.
  pose proof (loop_body_by_status decode w existing_files args_path st month) as Hbody.
  fold body status in Hbody.
  split; [exact Hstreak |]. split; [exact Hrange |].
  split.
  { intros st' fl Hout. destruct status eqn:Hstatus.
    - rewrite Hbody in Hout. injection Hout as <- <-. cbn [skip_month consecutive_404s].
      split; [split; [lia | discriminate] |].
      split; [discriminate |]. split; [discriminate | intros [? _]; discriminate].
    - destruct Hbody as (probes & [[ok | e] evs] & Hbody); rewrite Hbody in Hout;
        cbn [after_fetch outcome fst] in Hout; [| discriminate].
      injection Hout as <- <-.
      assert (consecutive_404s (count_download ok (reset_404s st)) = 0) as Hzero
        by (destruct ok; reflexivity).
      rewrite Hzero.
      split; [split; [lia | discriminate] |].
      split; [auto |]. split; [discriminate | intros [? _]; discriminate].
    - rewrite Hbody in Hout. injection Hout as <- <-.
      cbn [miss_month consecutive_404s].
      split; [split; auto |].
      split; [discriminate |].
      rewrite miss_flow_Break. unfold max_consecutive_404s.
      split; [intros ?; split; [reflexivity | lia] | intros [_ ?]; lia].
    - destruct Hbody as (e & evs & Hbody). rewrite Hbody in Hout. discriminate. }
  split.
  { intros Hstatus Htwo. rewrite main_loop_app, Hrun. cbn [main_loop].
    rewrite Hstatus in Hbody. fold body. rewrite Hbody.
    assert (miss_flow st = Break) as ->
      by (apply miss_flow_Break; unfold max_consecutive_404s; lia).
    run_monad. rewrite app_nil_r. reflexivity. }
  split.
  { intros Hstatus Hless. rewrite main_loop_app, Hrun, main_loop_single.
    rewrite Hstatus in Hbody. fold body. rewrite Hbody.
    destruct (miss_flow st) eqn:Hflow; [reflexivity |].
    apply miss_flow_Break in Hflow. unfold max_consecutive_404s in Hflow. lia. }
  intros Hstatus st' fl Hout. split.
  - rewrite main_loop_app, Hrun, main_loop_single. fold body.
    rewrite Hstatus in Hbody. destruct Hbody as (probes & [[ok | e] evs] & Hbody);
      rewrite Hbody in *; cbn [after_fetch outcome trace fst snd] in *;
      [| discriminate].
    injection Hout as <- <-. reflexivity.
  - rewrite current_streak_snoc. fold status. rewrite Hstatus. reflexivity.
Qed.

(** The example of the specification: miss, miss, hit, miss, miss,
    miss stops at the sixth month and never probes the seventh. *)
Lemma consecutive_miss_counter_witness :
  let w := world_with ["202003"] [] [] [x41] in
  let months := ["202001"; "202002"; "202003"; "202004"; "202005"; "202006"; "202007"] in
  outcome (main_loop py_decode w ∅ "/data" months initial_state)
  = Return ({| downloaded := 1; skipped := 0; consecutive_404s := 3 |}, Break)
  /\ ~ In (EvHead (zip_url_of "202007"))
          (trace (main_loop py_decode w ∅ "/data" months initial_state)).
Proof.
  intros w months.
  pose (pre := ["202001"; "202002"; "202003"; "202004"; "202005"]).
  pose (st := {| downloaded := 1; skipped := 0; consecutive_404s := 2 |}).
  pose (tr := trace (main_loop py_decode w ∅ "/data" pre initial_state)).
  assert (Hrun : main_loop py_decode w ∅ "/data" pre initial_state
                 = (Return (st, Next), tr))
    by (vm_compute; reflexivity).
  destruct (consecutive_miss_counter py_decode w ∅ "/data" pre st tr
              "202006" ["202007"] Hrun) as (_ & _ & _ & Hstop & _).
  change months with (pre ++ "202006" :: ["202007"]).
  rewrite Hstop by (vm_compute; reflexivity).
  split; [reflexivity |].
  vm_compute. intros Hin.
  repeat (destruct Hin as [Hin | Hin]; [discriminate Hin |]). exact Hin.
Defined.

(** ** Names, stems and the pre-scan *)

Section NameFacts.

Lemma length_append (a b : string) :
  String.length (a +:+ b) = (String.length a + String.length b)%nat.
Proof. induction a as [| c a IH]; simpl; [reflexivity | rewrite IH; reflexivity]. Qed.

Lemma substring_all (b : string) : substring 0 (String.length b) b = b.
Proof. induction b as [| c b IH]; simpl; [reflexivity | rewrite IH; reflexivity]. Qed.

Lemma substring_append_prefix (a b : string) :
  substring 0 (String.length a) (a +:+ b) = a.
Proof.
  induction a as [| c a IH]; simpl.
  - destruct b; reflexivity.
  - rewrite IH. reflexivity.
Qed.

Lemma substring_append_suffix (a b : string) :
  substring (String.length a) (String.length b) (a +:+ b) = b.
Proof. induction a as [| c a IH]; simpl; [apply substring_all | exact IH]. Qed.

Lemma append_inj_l (a b c : string) : a +:+ c = b +:+ c -> a = b.
Proof.
  intros Heq.
  assert (String.length a = String.length b) as Hlen.
  { apply (f_equal String.length) in Heq. rewrite !length_append in Heq. lia. }
  rewrite <- (substring_append_prefix a c), <- (substring_append_prefix b c).
  rewrite Heq, Hlen. reflexivity.
Qed.

Lemma filename_of_inj (m1 m2 : string) : filename_of m1 = filename_of m2 -> m1 = m2.
Proof. apply append_inj_l. Qed.

Lemma ends_with_csv (x : string) : ends_with ".csv" (x +:+ ".csv") = true.
Proof.
  unfold ends_with. rewrite length_append. cbn [String.length].
  replace (String.length x + 4 - 4)%nat with (String.length x) by lia.
  pose proof (substring_append_suffix x ".csv") as Hs.
  cbn [String.length] in Hs. rewrite Hs, String.eqb_refl, andb_true_r.
  apply Nat.leb_le. lia.
Qed.

Lemma stem_csv_name (month : string) : stem (csv_name_of month) = filename_of month.
Proof.
  unfold stem, csv_name_of. rewrite ends_with_csv.
  assert (String.eqb (filename_of month +:+ ".csv") ".csv" = false) as ->.
  { apply String.eqb_neq. intros Heq. apply (f_equal String.length) in Heq.
    unfold filename_of in Heq. rewrite !length_append in Heq. simpl in Heq. lia. }
  cbn [andb negb]. rewrite length_append. cbn [String.length].
  replace (String.length (filename_of month) + 4 - 4)%nat
    with (String.length (filename_of month)) by lia.
  apply substring_append_prefix.
Qed.

(** A directory that holds the files of the months [present], and
    nothing else, is pre-scanned to their stems. *)
Lemma csv_stems_of_months (present : list string) :
  csv_stems (map csv_name_of present) = list_to_set (map filename_of present).
Proof.
  unfold csv_stems. f_equal.
  induction present as [| month present IH]; [reflexivity |].
  cbn [map]. rewrite filter_cons_True.
  - cbn [map]. rewrite stem_csv_name, IH. reflexivity.
  - unfold csv_name_of. rewrite ends_with_csv. exact I.
Qed.

End NameFacts.

(** ** Skipped months *)

Section SkipFacts.

Variable decode : string -> list byte -> result text.
Variable w : World.
Variable existing_files : gset string.
Variable args_path : string.

Lemma status_of_Skipped (month : string) :
  status_of w existing_files month = Skipped <-> filename_of month ∈ existing_files.
Proof.
  unfold status_of. case_bool_decide as Hin.
  - tauto.
  - split; [| tauto].
    destruct (outcome (file_exists w (zip_url_of month))) as [[|] | e];
      try discriminate.
    destruct (outcome (file_exists w (csv_url_of month))) as [[|] | e]; discriminate.
Qed.

(** The skip counter goes up by one on each present month the loop
    passes, and only there. *)
Lemma main_loop_skipped (months : list string) :
  forall st0 st fl tr,
    main_loop decode w existing_files args_path months st0 = (Return (st, fl), tr) ->
    skipped st0 <= skipped st
                <= skipped st0 + Z.of_nat (length (present_among existing_files months))
    /\ (fl = Next ->
        skipped st
        = skipped st0 + Z.of_nat (length (present_among existing_files months))).
Proof.
  induction months as [| month months IH]; intros st0 st fl tr.
  - cbn [main_loop]. intros [= <- <- <-]. simpl. lia.
  - change (month :: months) with ([month] ++ months).
    rewrite main_loop_app, main_loop_single.
    pose proof (loop_body_by_status decode w existing_files args_path st0 month)
      as Hbody.
    pose proof (status_of_Skipped month) as Hskip.
    unfold present_among. cbn [app].
    destruct (status_of w existing_files month).
    + rewrite Hbody.
      rewrite filter_cons_True by (apply Hskip; reflexivity).
      destruct (main_loop decode w existing_files args_path months (skip_month st0))
        as [r tr'] eqn:Hrest.
      intros [= -> <-]. apply IH in Hrest. fold (present_among existing_files months).
      cbn [skip_month skipped length] in *. destruct Hrest as [Hb Heq].
      split; [lia | intros Hfl; specialize (Heq Hfl); lia].
    + rewrite filter_cons_False by (rewrite <- Hskip; discriminate).
      destruct Hbody as (probes & [[ok | e] evs] & ->); cbn [after_fetch];
        [| discriminate].
      destruct (main_loop decode w existing_files args_path months
                  (count_download ok (reset_404s st0))) as [r tr'] eqn:Hrest.
      intros [= -> <-]. apply IH in Hrest. fold (present_among existing_files months).
      destruct Hrest as [Hb Heq].
      destruct ok; cbn [count_download reset_404s skipped] in *;
        (split; [lia | intros Hfl; specialize (Heq Hfl); lia]).
    + rewrite filter_cons_False by (rewrite <- Hskip; discriminate).
      rewrite Hbody. fold (present_among existing_files months).
      destruct (miss_flow st0).
      * destruct (main_loop decode w existing_files args_path months (miss_month st0))
          as [r tr'] eqn:Hrest.
        intros [= -> <-]. apply IH in Hrest. destruct Hrest as [Hb Heq].
        cbn [miss_month skipped] in *.
        split; [lia | intros Hfl; specialize (Heq Hfl); lia].
      * intros [= <- <- <-]. cbn [miss_month skipped].
        split; [lia | discriminate].
    + destruct Hbody as (e & evs & ->). discriminate.
Qed.

End SkipFacts.

Section PresentFacts.

Lemma present_among_incl (present months : list string) (month : string) :
  month ∈ present_among (list_to_set (map filename_of present)) months ->
  month ∈ present /\ month ∈ months.
Proof.
  unfold present_among. rewrite list_elem_of_filter, elem_of_list_to_set.
  change (map ?f ?l) with (f <$> l). rewrite list_elem_of_fmap.
  intros [(m' & Heq & Hin) Hmonths]. apply filename_of_inj in Heq. subst m'.
  split; assumption.
Qed.

(** Of [k] distinct present months, the enumeration holds at most [k],
    and exactly [k] when it holds them all. *)
Lemma present_among_length (present months : list string) :
  NoDup present -> NoDup months ->
  (length (present_among (list_to_set (map filename_of present)) months)
   <= length present)%nat
  /\ ((forall month, month ∈ present -> month ∈ months) ->
      length (present_among (list_to_set (map filename_of present)) months)
      = length present).
Proof.
  intros Hpresent Hmonths.
  assert (NoDup (present_among (list_to_set (map filename_of present)) months))
    as Hnd by (apply NoDup_filter, Hmonths).
  split.
  - apply submseteq_length, NoDup_submseteq; [exact Hnd |].
    intros month Hin. apply present_among_incl in Hin. tauto.
  - intros Hall. apply Permutation_length, NoDup_Permutation; [exact Hnd | exact Hpresent |].
    intros month. split.
    + intros Hin. apply present_among_incl in Hin. tauto.
    + intros Hin. unfold present_among.
      rewrite list_elem_of_filter, elem_of_list_to_set.
      change (map ?f ?l) with (f <$> l). rewrite list_elem_of_fmap.
      split; [exists month; auto | apply Hall, Hin].
Qed.

End PresentFacts.

Section MainFacts.

Variable decode : string -> list byte -> result text.
Variable w : World.

(** A run of [main] that returns went through the loop, and returns
    what the loop returned. *)
Lemma main_returns (now : month) (args_path args_start_date : string)
    (ids : list string) (st : run_state) (fl : flow) (tr : list event) :
  generate_months now args_start_date = Some (Return ids) ->
  main decode w now args_path args_start_date = Some (Return (st, fl), tr) ->
  mkdir w args_path = true
  /\ exists tr',
       main_loop decode w (csv_stems (listdir w args_path)) args_path ids initial_state
       = (Return (st, fl), tr')
       /\ tr = [EvPrint ("Target directory: " +:+ args_path);
                EvPrint ("Starting from: " +:+ args_start_date); EvPrint EmptyString]
               ++ tr' ++ [EvPrint EmptyString; EvPrint (summary_line st)].
Proof.
  intros Hgen. unfold main. rewrite Hgen. intros [= Hmain]. revert Hmain.
  destruct (mkdir w args_path); run_monad; [| discriminate].
  destruct (main_loop decode w (csv_stems (listdir w args_path)) args_path ids
              initial_state) as [[[st1 fl1] | e] tr1]; [| discriminate].
  intros [= <- <- <-]. split; [reflexivity |]. exists tr1.
  split; [reflexivity |]. cbn [app]. rewrite ?app_nil_r. reflexivity.
Qed.

(** Conversely, a loop that returns makes [main] return the same, once
    the directory is there. *)
Lemma main_runs (now : month) (args_path args_start_date : string)
    (ids : list string) (st : run_state) (fl : flow) (tr' : list event) :
  generate_months now args_start_date = Some (Return ids) ->
  mkdir w args_path = true ->
  main_loop decode w (csv_stems (listdir w args_path)) args_path ids initial_state
  = (Return (st, fl), tr') ->
  main decode w now args_path args_start_date
  = Some (Return (st, fl),
          [EvPrint ("Target directory: " +:+ args_path);
           EvPrint ("Starting from: " +:+ args_start_date); EvPrint EmptyString]
          ++ tr' ++ [EvPrint EmptyString; EvPrint (summary_line st)]).
Proof.
  intros Hgen Hmkdir Hloop. unfold main. rewrite Hgen, Hmkdir. run_monad.
  rewrite Hloop. cbn [app]. rewrite ?app_nil_r. reflexivity.
Qed.

End MainFacts.

(** C5, as the code has it.  A month whose file is in the pre-scanned
    set is recorded as skipped and passed over: the body sends no
    request and writes nothing for it, leaves the miss counter as it
    was and adds one to the skip counter.  When the directory holds the
    files of exactly the distinct months M1..Mk, the final skip count
    is at most k, and it is k when all of them are enumerated and the
    loop runs to the end of the enumeration instead of stopping early. *)
Theorem present_months_are_skipped
    (decode : string -> list byte -> result text) (w : World)
    (now : month) (args_path args_start_date : string) :
  let existing_files := csv_stems (listdir w args_path) in
  (forall st month,
      filename_of month ∈ existing_files ->
      let body := loop_body decode w existing_files args_path st month in
      outcome body = Return (skip_month st, Next)
      /\ requests_of (trace body) = []
      /\ writes_of (trace body) = []
      /\ consecutive_404s (skip_month st) = consecutive_404s st
      /\ skipped (skip_month st) = skipped st + 1)
  /\ (forall ids present st fl tr,
      generate_months now args_start_date = Some (Return ids) ->
      NoDup ids -> NoDup present ->
      listdir w args_path = map csv_name_of present ->
      main decode w now args_path args_start_date = Some (Return (st, fl), tr) ->
      0 <= skipped st <= Z.of_nat (length present)
      /\ (fl = Next ->
          (forall month, month ∈ present -> month ∈ ids) ->
          skipped st = Z.of_nat (length present))).
Proof.
  intros existing_files. split.
  - intros st month Hin body. subst body.
    rewrite loop_body_paths, bool_decide_eq_true_2 by exact Hin.
    repeat split.
  - intros ids present st fl tr Hgen Hids Hpresent Hdir Hmain.
    destruct (main_returns decode w now args_path args_start_date ids st fl tr
                Hgen Hmain) as (_ & tr' & Hloop & _).
    rewrite Hdir, csv_stems_of_months in Hloop.
    apply main_loop_skipped in Hloop as [Hbound Hexact].
    destruct (present_among_length present ids Hpresent Hids) as [Hle Heq].
    cbn [initial_state skipped] in *.
    split; [lia |].
    intros Hfl Hall. rewrite (Hexact Hfl), (Heq Hall). lia.
Qed.

(** On a directory that holds 202001 and 202003 while the remote has
    202002, both present months are skipped and the run completes. *)
Lemma present_months_are_skipped_witness :
  let w := world_with ["202002"] [] ["202001CSV.csv"; "202003CSV.csv"] [x41] in
  let st := {| downloaded := 1; skipped := 2; consecutive_404s := 0 |} in
  exists tr,
    main py_decode w (2020, 3) "/data" "2020-01" = Some (Return (st, Next), tr)
    /\ skipped st = Z.of_nat (length ["202001"; "202003"]).
Proof.
  intros w st. eexists. split; [vm_compute; reflexivity |].
  refine (proj2 (proj2 (present_months_are_skipped py_decode w (2020, 3)
                          "/data" "2020-01")
                   ["202001"; "202002"; "202003"] ["202001"; "202003"] st Next _
                   eq_refl _ _ eq_refl _) eq_refl _).
  - compute_done.
  - compute_done.
  - vm_compute. reflexivity.
  - intros month Hin. apply list_elem_of_In in Hin. apply list_elem_of_In.
    simpl in *. tauto.
Defined.

(** C5 as stated fails on the skip count: the directory holds the file
    of exactly one month, 202005, which the enumeration from 2020-01 to
    2020-05 contains, but the remote has nothing, the loop stops after
    three misses and the summary counts no skipped month. *)
Lemma skip_count_counterexample :
  let w := world_with [] [] ["202005CSV.csv"] [x41] in
  listdir w "/data" = map csv_name_of ["202005"]
  /\ generate_months (2020, 5) "2020-01"
     = Some (Return ["202001"; "202002"; "202003"; "202004"; "202005"])
  /\ exists tr,
       main py_decode w (2020, 5) "/data" "2020-01"
       = Some (Return ({| downloaded := 0; skipped := 0; consecutive_404s := 3 |},
                       Break), tr)
       /\ In (EvPrint "Summary: 0 downloaded, 0 skipped") tr
       /\ skipped {| downloaded := 0; skipped := 0; consecutive_404s := 3 |}
          <> Z.of_nat (length ["202005"]).
Proof.
  intros w. split; [reflexivity |]. split; [vm_compute; reflexivity |].
  eexists. split; [vm_compute; reflexivity |].
  split; [vm_compute; tauto | simpl; lia].
Qed.

(** ** The scenario of the specification *)

Section Scenario.

Variable w : World.
Variable existing_files : gset string.
Variable args_path : string.

(** A month whose archive is on the remote and unpacks, over a disk
    that takes the write, is counted as downloaded. *)
Lemma loop_body_downloads_zip (st : run_state) (month : string)
    (archive csv_content : list byte) :
  filename_of month ∉ existing_files ->
  requests_head w (zip_url_of month) = Return 200 ->
  requests_get w (zip_url_of month) = Return (200, archive) ->
  zip_read w archive (replace ".zip" ".csv" (filename_of month +:+ ".zip"))
  = Return csv_content ->
  (forall path data, disk_write w path data = true) ->
  exists evs,
    loop_body py_decode w existing_files args_path st month
    = (Return ({| downloaded := downloaded st + 1; skipped := skipped st;
                  consecutive_404s := 0 |}, Next), evs).
Proof.
  intros Hnew Hhead Hget Hzip Hdisk.
  rewrite loop_body_paths, bool_decide_eq_false_2 by exact Hnew.
  assert (outcome (file_exists w (zip_url_of month)) = Return true) as ->
    by (apply file_exists_on_200, Hhead).
  rewrite download_and_extract_paths, Hget. cbn [error_status Z.leb Z.ltb andb].
  rewrite Hzip.
  destruct (encoding_loop_py w (replace ".zip" ".csv" (filename_of month +:+ ".zip"))
              (path_join args_path
                 (replace ".zip" ".csv" (filename_of month +:+ ".zip")))
              csv_content) as (enc & data & _ & ->).
  unfold saved_as. rewrite Hdisk. cbn [finished after_fetch count_download reset_404s
                                       downloaded skipped consecutive_404s].
  eauto.
Qed.

End Scenario.

(** C8.  Start date 2020-01 read in March 2020, an empty output
    directory that can be created and written to, a remote with the
    archives of 202001 and 202002 (each holding its CSV entry) and with
    neither variant of 202003: the run completes without the early
    stop, and its summary reports 2 downloaded and 0 skipped. *)
Theorem scenario_two_downloads (w : World) (args_path : string)
    (archive1 archive2 csv1 csv2 : list byte) :
  mkdir w args_path = true ->
  listdir w args_path = [] ->
  (forall path data, disk_write w path data = true) ->
  requests_head w (zip_url_of "202001") = Return 200 ->
  requests_get w (zip_url_of "202001") = Return (200, archive1) ->
  zip_read w archive1 "202001CSV.csv" = Return csv1 ->
  requests_head w (zip_url_of "202002") = Return 200 ->
  requests_get w (zip_url_of "202002") = Return (200, archive2) ->
  zip_read w archive2 "202002CSV.csv" = Return csv2 ->
  outcome (file_exists w (zip_url_of "202003")) = Return false ->
  outcome (file_exists w (csv_url_of "202003")) = Return false ->
  exists tr,
    main py_decode w (2020, 3) args_path "2020-01"
    = Some (Return ({| downloaded := 2; skipped := 0; consecutive_404s := 1 |}, Next),
            tr ++ [EvPrint EmptyString; EvPrint "Summary: 2 downloaded, 0 skipped"]).
Proof.
  intros Hmkdir Hdir Hdisk Hhead1 Hget1 Hzip1 Hhead2 Hget2 Hzip2 Hno_zip Hno_csv.
  assert (exists tr',
             main_loop py_decode w (csv_stems (listdir w args_path)) args_path
               ["202001"; "202002"; "202003"] initial_state
             = (Return ({| downloaded := 2; skipped := 0; consecutive_404s := 1 |},
                        Next), tr')) as [tr' Hloop].
  { rewrite Hdir. change (csv_stems []) with (∅ : gset string).
    cbn [main_loop].
    destruct (loop_body_downloads_zip w ∅ args_path initial_state "202001"
                archive1 csv1 (not_elem_of_empty _) Hhead1 Hget1 Hzip1 Hdisk)
      as [evs1 ->].
    cbn [initial_state downloaded skipped]. run_monad.
    destruct (loop_body_downloads_zip w ∅ args_path
                {| downloaded := 0 + 1; skipped := 0; consecutive_404s := 0 |}
                "202002" archive2 csv2 (not_elem_of_empty _) Hhead2 Hget2 Hzip2 Hdisk)
      as [evs2 ->].
    cbn [downloaded skipped]. run_monad.
    rewrite loop_body_paths, bool_decide_eq_false_2 by apply not_elem_of_empty.
    rewrite Hno_zip, Hno_csv. eexists. reflexivity. }
  eexists.
  rewrite (main_runs py_decode w (2020, 3) args_path "2020-01" _ _ _ _
             eq_refl Hmkdir Hloop).
  rewrite app_assoc. reflexivity.
Qed.

(** The scenario on a remote that serves a two-byte archive. *)
Lemma scenario_two_downloads_witness :
  exists tr,
    main py_decode (world_with ["202001"; "202002"] [] [] [x50; x4b]) (2020, 3)
      "/data" "2020-01"
    = Some (Return ({| downloaded := 2; skipped := 0; consecutive_404s := 1 |}, Next),
            tr ++ [EvPrint EmptyString; EvPrint "Summary: 2 downloaded, 0 skipped"]).
Proof.
  apply (scenario_two_downloads (world_with ["202001"; "202002"] [] [] [x50; x4b])
           "/data" [x50; x4b] [x50; x4b] [x50; x4b] [x50; x4b]);
    reflexivity.
Defined.

(** ** Worked examples for the fetchers *)

(** The decoding stage on the UTF-8 bytes of [Aé] and on the cp1252
    bytes of the same text. *)
Lemma decoding_stage_takes_first_encoding_witness :
  let w := world_with [] [] [] [] in
  (encode_utf8 [65; 233] = Some [x41; xc3; xa9]
   /\ encoding_loop py_decode w "f.csv" "/data/f.csv" [x41; xc3; xa9]
        candidate_encodings
      = saved_as w "f.csv" "/data/f.csv" "utf-8" [x41; xc3; xa9])
  /\ exists data,
       encode_utf8 [65; 233] = Some data
       /\ encoding_loop py_decode w "f.csv" "/data/f.csv" [x41; xe9]
            candidate_encodings
          = saved_as w "f.csv" "/data/f.csv" "cp1252" data.
Proof.
  intros w. split.
  - apply (proj1 (proj2 (decoding_stage_takes_first_encoding w "f.csv" "/data/f.csv"
                           [x41; xc3; xa9])) [65; 233]).
    reflexivity.
  - apply (proj1 (proj2 (proj2 (decoding_stage_takes_first_encoding w "f.csv"
                                  "/data/f.csv" [x41; xe9])))
             UnicodeDecodeError [65; 233]); reflexivity.
Defined.

(** A false from the direct fetcher, traced back to its handler: the
    remote answers 404 to the GET. *)
Lemma post_loop_return_unreachable_witness :
  let w := {| requests_head := fun _ => Return 200;
              requests_get := fun _ => Return (404, []);
              zip_read := fun archive _ => Return archive;
              disk_write := fun _ _ => true;
              mkdir := fun _ => true;
              listdir := fun _ => [] |} in
  exists e evs,
    download_csv_direct py_decode w "u" "/data" "f.csv" = handled_direct "f.csv" e evs.
Proof.
  intros w.
  apply (proj1 (proj2 (proj2 (proj2 (post_loop_return_unreachable w "f.csv"
                                       "/data/f.csv" []))))
           py_decode "u" "/data" "f.csv").
  reflexivity.
Defined.

(** A fetch that the remote answers with 404 writes nothing. *)
Lemma no_write_before_decode_witness :
  let w := {| requests_head := fun _ => Return 200;
              requests_get := fun _ => Return (404, [x41]);
              zip_read := fun archive _ => Return archive;
              disk_write := fun _ _ => true;
              mkdir := fun _ => true;
              listdir := fun _ => [] |} in
  writes_of (trace (download_csv_direct py_decode w "u" "/data" "f.csv")) = []
  /\ outcome (download_csv_direct py_decode w "u" "/data" "f.csv") <> Return true.
Proof.
  intros w.
  apply (proj1 (proj2 (proj2 (no_write_before_decode py_decode w "u" "/data"
                                "f.csv")))).
  exact I.
Defined.

(* ================================================================== *)
(** * Further properties of the code *)
(* ================================================================== *)

(** ** The generator on arbitrary integers *)

Section GeneratorEdges.

Lemma generate_months_loop_length (fuel : nat) (now cur : month) (ids : list string) :
  generate_months_loop fuel now cur = Some ids -> (length ids <= fuel)%nat.
Proof.
  revert cur ids. induction fuel as [| fuel IH]; intros cur ids; simpl.
  - destruct (loop_cond now cur); [discriminate |]. intros [= <-]. simpl. lia.
  - destruct (loop_cond now cur); [| intros [= <-]; simpl; lia].
    destruct (generate_months_loop fuel now (advance cur)) as [rest |] eqn:Hrest;
      [| discriminate].
    intros [= <-]. apply IH in Hrest. simpl. lia.
Qed.

Lemma generate_months_loop_step (fuel : nat) (now cur : month) (ids : list string) :
  loop_cond now cur = true ->
  generate_months_loop fuel now cur = Some ids ->
  exists fuel' rest,
    ids = month_id cur :: rest
    /\ generate_months_loop fuel' now (advance cur) = Some rest.
Proof.
  intros Hcond. destruct fuel as [| fuel]; simpl; rewrite Hcond; [discriminate |].
  destruct (generate_months_loop fuel now (advance cur)) as [rest |] eqn:Hrest;
    [| discriminate].
  intros [= <-]. eauto.
Qed.

End GeneratorEdges.

(** X1.  The [while] loop of the generator ends for every pair of
    integers it is started from and every clock reading, valid months
    or not: the generator yields a finite list, of at most thirteen
    identifiers per year up to [now] plus the rest of the first year. *)
Theorem generate_months_terminates (now : month) (start_date_str : string) :
  (exists r, generate_months now start_date_str = Some r)
  /\ forall start, exists ids,
       generate_months_loop (iterations_bound now start) now start = Some ids
       /\ (length ids <= iterations_bound now start)%nat.
Proof.
  split.
  - unfold generate_months.
    destruct (parse_start_date start_date_str) as [start | e]; [| eauto].
    destruct (generate_months_loop_total (iterations_bound now start) now start)
      as [ids ->]; [lia | eauto].
  - intros start.
    destruct (generate_months_loop_total (iterations_bound now start) now start)
      as [ids Hids]; [lia |].
    exists ids. split; [exact Hids |].
    apply generate_months_loop_length in Hids. exact Hids.
Qed.

(** X2.  The start month is not validated.  A month above 12 in a year
    before the current one is yielded once as it stands, after which
    the enumeration resumes at January of the next year; a month 0 of a
    year up to the current one is yielded as [YYYY00] before January of
    that same year. *)
Theorem generate_months_out_of_range_start
    (now : month) (start_date_str : string) (y m : Z) :
  parse_start_date start_date_str = Return (y, m) ->
  valid_month now ->
  (12 < m -> y < fst now ->
   generate_months now start_date_str
   = Some (Return (month_id (y, m)
                   :: map month_id (months_from_to (y + 1, 1) now))))
  /\ (m = 0 -> y <= fst now ->
      generate_months now start_date_str
      = Some (Return (month_id (y, 0)
                      :: map month_id (months_from_to (y, 1) now)))).
Proof.
  intros Hparse Hnow. unfold generate_months. rewrite Hparse.
  destruct (generate_months_loop_total (iterations_bound now (y, m)) now (y, m))
    as [ids Hids]; [lia |].
  rewrite Hids. unfold valid_month in Hnow. destruct now as [ny nm]. simpl in *.
  split.
  - intros Hm Hy.
    assert (loop_cond (ny, nm) (y, m) = true) as Hcond.
    { unfold loop_cond. simpl. apply orb_true_iff. left. apply Z.ltb_lt. lia. }
    destruct (generate_months_loop_step _ _ _ _ Hcond Hids) as (fuel' & rest & -> & Hrest).
    assert (advance (y, m) = (y + 1, 1)) as Hadv.
    { unfold advance. simpl. destruct (Z.gtb_spec (m + 1) 12); [reflexivity | lia]. }
    rewrite Hadv in Hrest.
    apply generate_months_loop_spec in Hrest;
      [| unfold valid_month; simpl; lia | unfold valid_month; simpl; lia].
    rewrite Hrest. reflexivity.
  - intros -> Hy.
    assert (loop_cond (ny, nm) (y, 0) = true) as Hcond.
    { unfold loop_cond. simpl. rewrite orb_true_iff, andb_true_iff, Z.ltb_lt,
        Z.eqb_eq, Z.leb_le. lia. }
    destruct (generate_months_loop_step _ _ _ _ Hcond Hids) as (fuel' & rest & -> & Hrest).
    change (advance (y, 0)) with (y, 1) in Hrest.
    apply generate_months_loop_spec in Hrest;
      [| unfold valid_month; simpl; lia | unfold valid_month; simpl; lia].
    rewrite Hrest. reflexivity.
Qed.

(** Month 13 of 2019 and month 0 of 2020, read in February 2020. *)
Lemma generate_months_out_of_range_start_witness :
  generate_months (2020, 2) "2019-13" = Some (Return ["201913"; "202001"; "202002"])
  /\ generate_months (2020, 2) "2020-00" = Some (Return ["202000"; "202001"; "202002"]).
Proof.
  split.
  - apply (proj1 (generate_months_out_of_range_start (2020, 2) "2019-13" 2019 13
                    eq_refl ltac:(unfold valid_month; simpl; lia)));
      simpl; lia.
  - apply (proj2 (generate_months_out_of_range_start (2020, 2) "2020-00" 2020 0
                    eq_refl ltac:(unfold valid_month; simpl; lia)));
      [reflexivity | simpl; lia].
Defined.

(** ** The start date *)

Section StartDateFacts.

Lemma split_on_nonempty (sep : ascii) (s : string) : split_on sep s <> [].
Proof.
  destruct s as [| c rest]; simpl; [discriminate |].
  destruct (Ascii.eqb c sep); [discriminate |].
  destruct (split_on sep rest); discriminate.
Qed.

Lemma split_on_single (sep : ascii) (s b : string) :
  split_on sep s = [b] -> s = b.
Proof.
  revert b. induction s as [| c rest IH]; intros b; simpl.
  - intros [= <-]. reflexivity.
  - destruct (Ascii.eqb c sep).
    + intros [= _ Hrest]. exfalso. exact (split_on_nonempty sep rest Hrest).
    + destruct (split_on sep rest) as [| piece pieces] eqn:Hsplit.
      * intros [= <-]. exfalso. exact (split_on_nonempty sep rest Hsplit).
      * intros [= <- ->]. rewrite (IH piece eq_refl). reflexivity.
Qed.

Lemma split_on_pair (sep : ascii) (s a b : string) :
  split_on sep s = [a; b] -> s = a +:+ String sep b.
Proof.
  revert a b. induction s as [| c rest IH]; intros a b; simpl.
  - discriminate.
  - destruct (Ascii.eqb_spec c sep) as [-> | Hne].
    + intros [= <- Hrest]. apply split_on_single in Hrest. subst rest. reflexivity.
    + destruct (split_on sep rest) as [| piece pieces] eqn:Hsplit.
      * discriminate.
      * intros [= <- ->]. rewrite (IH piece b eq_refl). reflexivity.
Qed.

Lemma split_on_whole (sep : ascii) (s : string) :
  ~ In sep (list_ascii_of_string s) -> split_on sep s = [s].
Proof.
  induction s as [| c rest IH]; cbn [split_on list_ascii_of_string]; [reflexivity |].
  intros Hno. destruct (Ascii.eqb_spec c sep) as [-> | _].
  - exfalso. apply Hno. left. reflexivity.
  - rewrite IH; [reflexivity |]. intros H. apply Hno. right. exact H.
Qed.

Lemma split_on_join (sep : ascii) (a b : string) :
  ~ In sep (list_ascii_of_string a) ->
  split_on sep (a +:+ String sep b) = a :: split_on sep b.
Proof.
  induction a as [| c rest IH]; intros Hno.
  - change (EmptyString +:+ String sep b) with (String sep b).
    cbn [split_on]. rewrite Ascii.eqb_refl. reflexivity.
  - change (String c rest +:+ String sep b) with (String c (rest +:+ String sep b)).
    cbn [split_on]. cbn [list_ascii_of_string] in Hno.
    destruct (Ascii.eqb_spec c sep) as [-> | _].
    + exfalso. apply Hno. left. reflexivity.
    + rewrite IH; [reflexivity |]. intros H. apply Hno. right. exact H.
Qed.

(** The character of a digit is a digit, is read back as it, and is
    neither a blank nor a sign. *)
Lemma digit_char_facts (d : Z) :
  0 <= d <= 9 ->
  is_digit (digit_char d) = true /\ digit_of (digit_char d) = d
  /\ is_space (digit_char d) = false
  /\ Ascii.eqb (digit_char d) "+" = false /\ Ascii.eqb (digit_char d) "-" = false.
Proof.
  intros Hd.
  assert (d = 0 \/ d = 1 \/ d = 2 \/ d = 3 \/ d = 4 \/ d = 5 \/ d = 6 \/ d = 7
          \/ d = 8 \/ d = 9) as H by lia.
  repeat destruct H as [H | H]; subst d; repeat split; reflexivity.
Qed.

Lemma digits_value_digit (d acc : Z) (rest : string) :
  0 <= d <= 9 ->
  digits_value acc (String (digit_char d) rest) = digits_value (10 * acc + d) rest.
Proof.
  intros Hd. destruct (digit_char_facts d Hd) as (Hdigit & Hof & _).
  cbn [digits_value]. rewrite Hdigit, Hof. reflexivity.
Qed.

Lemma count_digits_digit (d : Z) (rest : string) :
  0 <= d <= 9 -> count_digits (String (digit_char d) rest) = 1 + count_digits rest.
Proof.
  intros Hd. destruct (digit_char_facts d Hd) as (Hdigit & _).
  cbn [count_digits]. rewrite Hdigit. reflexivity.
Qed.

(** A string that starts with a digit has neither blanks to skip nor a sign. *)
Lemma int_digit_first (d : Z) (rest : string) :
  0 <= d <= 9 ->
  int (String (digit_char d) rest)
  = match digits_value d rest with
    | Some v => if 1 + count_digits rest <=? int_max_str_digits then Some v else None
    | None => None
    end.
Proof.
  intros Hd. destruct (digit_char_facts d Hd) as (Hdigit & Hof & Hspace & Hplus & Hminus).
  unfold int. cbn [lstrip]. rewrite Hspace, Hplus, Hminus. cbn [fst snd unsigned_value].
  rewrite Hdigit, Hof, count_digits_digit by exact Hd.
  destruct (digits_value d rest) as [v |]; [| reflexivity].
  destruct (1 + count_digits rest <=? int_max_str_digits); [| reflexivity].
  f_equal. lia.
Qed.

Lemma digit_of_quotient (n k : Z) : 0 <= n < 10 * k -> 0 < k -> 0 <= n / k <= 9.
Proof.
  intros Hn Hk. split; [apply Z.div_pos; lia |].
  apply Z.lt_succ_r, Z.div_lt_upper_bound; lia.
Qed.

Lemma int_of_four_digits (y : Z) :
  0 <= y <= 9999 -> int (four_digits y) = Some y.
Proof.
  intros Hy. unfold four_digits.
  pose proof (Z.mod_pos_bound (y / 100) 10 ltac:(lia)).
  pose proof (Z.mod_pos_bound (y / 10) 10 ltac:(lia)).
  pose proof (Z.mod_pos_bound y 10 ltac:(lia)).
  rewrite int_digit_first by (apply digit_of_quotient; lia).
  rewrite !digits_value_digit, !count_digits_digit by lia.
  cbn [digits_value count_digits]. change (1 + (1 + (1 + (1 + 0))) <=? int_max_str_digits)
    with true. cbv iota. f_equal. Z.div_mod_to_equations. lia.
Qed.

Lemma int_of_two_digits (m : Z) :
  0 <= m <= 99 -> int (two_digits m) = Some m.
Proof.
  intros Hm. unfold two_digits.
  pose proof (Z.mod_pos_bound m 10 ltac:(lia)).
  rewrite int_digit_first by (apply digit_of_quotient; lia).
  rewrite !digits_value_digit, !count_digits_digit by lia.
  cbn [digits_value count_digits]. change (1 + (1 + 0) <=? int_max_str_digits) with true.
  cbv iota. f_equal. Z.div_mod_to_equations. lia.
Qed.

Lemma digit_char_not_hyphen (d : Z) : 0 <= d <= 9 -> digit_char d <> "-"%char.
Proof.
  intros Hd H. destruct (digit_char_facts d Hd) as (_ & _ & _ & _ & Hne).
  rewrite H in Hne. discriminate Hne.
Qed.

Lemma lacks_four_digits (y : Z) :
  0 <= y <= 9999 -> ~ In "-"%char (list_ascii_of_string (four_digits y)).
Proof.
  intros Hy. unfold four_digits.
  pose proof (Z.mod_pos_bound (y / 100) 10 ltac:(lia)) as H2.
  pose proof (Z.mod_pos_bound (y / 10) 10 ltac:(lia)) as H1.
  pose proof (Z.mod_pos_bound y 10 ltac:(lia)) as H0.
  pose proof (digit_of_quotient y 1000 ltac:(lia) ltac:(lia)) as H3.
  cbn [list_ascii_of_string In].
  intros [H | [H | [H | [H | []]]]]; revert H; apply digit_char_not_hyphen; lia.
Qed.

Lemma lacks_two_digits (m : Z) :
  0 <= m <= 99 -> ~ In "-"%char (list_ascii_of_string (two_digits m)).
Proof.
  intros Hm. unfold two_digits.
  pose proof (Z.mod_pos_bound m 10 ltac:(lia)) as H0.
  pose proof (digit_of_quotient m 10 ltac:(lia) ltac:(lia)) as H1.
  cbn [list_ascii_of_string In].
  intros [H | [H | []]]; revert H; apply digit_char_not_hyphen; lia.
Qed.

(** A blank is no hyphen. *)
Lemma is_space_not_hyphen (c : ascii) : is_space c = true -> Ascii.eqb c "-" = false.
Proof.
  intros Hc. destruct (Ascii.eqb_spec c "-") as [-> | _]; [discriminate Hc | reflexivity].
Qed.

Lemma int_skips_blank (c : ascii) (s : string) :
  is_space c = true -> int (String c s) = int s.
Proof. intros Hc. unfold int. cbn [lstrip]. rewrite Hc. reflexivity. Qed.

End StartDateFacts.

(** X3.  What [generate_months] takes for a start date.  The string is
    accepted exactly when it holds one hyphen and [int] accepts the text
    on either side of it, and it then denotes those two numbers;
    everything else raises [ValueError], the only exception of the
    parse.  Neither number can be negative, a hyphen being always taken
    for the separator.  The format [YYYY-MM] is not enforced: a blank in
    front changes nothing.  The four digits of a year, a hyphen and the
    two digits of a month parse back to that year and month. *)
Theorem parse_start_date_accepts (start_date_str : string) :
  (forall y m,
      parse_start_date start_date_str = Return (y, m) <->
      exists a b,
        start_date_str = a +:+ "-" +:+ b
        /\ ~ In "-"%char (list_ascii_of_string a)
        /\ ~ In "-"%char (list_ascii_of_string b)
        /\ int a = Some y /\ int b = Some m)
  /\ (forall e, parse_start_date start_date_str = Raise e -> e = ValueError)
  /\ (forall y m, parse_start_date start_date_str = Return (y, m) -> 0 <= y /\ 0 <= m)
  /\ (forall c, is_space c = true ->
      parse_start_date (String c start_date_str) = parse_start_date start_date_str)
  /\ (forall y m, 0 <= y <= 9999 -> 0 <= m <= 99 ->
      parse_start_date (four_digits y +:+ "-" +:+ two_digits m) = Return (y, m)).
Proof.
  assert (Hback : forall a b y m,
             ~ In "-"%char (list_ascii_of_string a) ->
             ~ In "-"%char (list_ascii_of_string b) ->
             int a = Some y -> int b = Some m ->
             parse_start_date (a +:+ "-" +:+ b) = Return (y, m)).
  { intros a b y m Hna Hnb Ha Hb. unfold parse_start_date.
    change (a +:+ "-" +:+ b) with (a +:+ String "-" b).
    rewrite (split_on_join "-" a b Hna), (split_on_whole "-" b Hnb).
    cbn [map]. rewrite Ha, Hb. reflexivity. }
  split; [| split; [| split; [| split]]].
  - intros y m. split.
    + unfold parse_start_date.
      pose proof (split_on_lacks "-" start_date_str) as Hlacks.
      destruct (split_on "-" start_date_str) as [| a [| b [| c rest]]] eqn:Hsplit;
        cbn [map].
      * discriminate.
      * destruct (int a); discriminate.
      * destruct (int a) as [y' |] eqn:Ha; [| discriminate].
        destruct (int b) as [m' |] eqn:Hb; [| discriminate].
        intros [= <- <-]. exists a, b. apply split_on_pair in Hsplit.
        inversion Hlacks as [| ? ? Hna Hrest]; subst.
        inversion Hrest as [| ? ? Hnb _]; subst. auto.
      * destruct (int a); [| discriminate].
        destruct (int b); [| discriminate].
        destruct (int c); discriminate.
    + intros (a & b & -> & Hna & Hnb & Ha & Hb). apply Hback; assumption.
  - intros e. unfold parse_start_date.
    destruct (map int (split_on "-" start_date_str))
      as [| [y |] [| [m |] [| c rest]]]; congruence.
  - intros y m Hparse. exact (parse_start_date_nonneg _ _ Hparse).
  - intros c Hc. unfold parse_start_date. cbn [split_on].
    rewrite (is_space_not_hyphen c Hc).
    destruct (split_on "-" start_date_str) as [| piece pieces] eqn:Hsplit.
    + exfalso. exact (split_on_nonempty _ _ Hsplit).
    + cbn [map]. rewrite (int_skips_blank c piece Hc). reflexivity.
  - intros y m Hy Hm. apply Hback.
    + apply lacks_four_digits, Hy.
    + apply lacks_two_digits, Hm.
    + apply int_of_four_digits, Hy.
    + apply int_of_two_digits, Hm.
Qed.

(** The default start date, bare and with a space in front. *)
Lemma parse_start_date_accepts_witness :
  parse_start_date "2020-01" = Return (2020, 1)
  /\ parse_start_date " 2020-01" = parse_start_date "2020-01".
Proof.
  split.
  - apply (proj2 (proj2 (proj2 (proj2 (parse_start_date_accepts "2020-01")))) 2020 1);
      lia.
  - apply (proj1 (proj2 (proj2 (proj2 (parse_start_date_accepts "2020-01")))) " "%char).
    reflexivity.
Defined.

(** ** What [main] does around the loop *)

(** X4.  The two failures ahead of the loop.  When the output directory
    cannot be created the run ends at once with [OSError], before
    anything is printed or requested.  When the start date does not
    parse, the directory has been created and the three header lines
    printed by the time [ValueError] ends the run: no request is sent
    and no summary is printed. *)
Theorem main_fails_before_loop
    (decode : string -> list byte -> result text) (w : World)
    (now : month) (args_path args_start_date : string) :
  (mkdir w args_path = false ->
   main decode w now args_path args_start_date = Some (Raise OSError, []))
  /\ (forall e, mkdir w args_path = true ->
      parse_start_date args_start_date = Raise e ->
      main decode w now args_path args_start_date
      = Some (Raise ValueError, header args_path args_start_date)).
Proof.
  split.
  - intros Hmkdir. unfold main, generate_months.
    destruct (parse_start_date args_start_date) as [start | e].
    + destruct (generate_months_loop_total (iterations_bound now start) now start)
        as [ids ->]; [lia |].
      rewrite Hmkdir. reflexivity.
    + rewrite Hmkdir. reflexivity.
  - intros e Hmkdir Hparse. unfold main, generate_months. rewrite Hparse, Hmkdir.
    assert (e = ValueError) as ->.
    { revert Hparse. unfold parse_start_date.
      destruct (map int (split_on "-" args_start_date))
        as [| [y |] [| [m |] [| c rest]]]; congruence. }
    reflexivity.
Qed.

(** A start date with a day in it, over a directory that can be made. *)
Lemma main_fails_before_loop_witness :
  main py_decode (world_with [] [] [] []) (2020, 3) "/data" "2020-01-15"
  = Some (Raise ValueError, header "/data" "2020-01-15").
Proof.
  apply (proj2 (main_fails_before_loop py_decode (world_with [] [] [] []) (2020, 3)
                  "/data" "2020-01-15") ValueError); reflexivity.
Defined.

(** X5.  A start date later than the clock (a later year, or the same
    year and a later month) makes the run a no-op: the header and a
    summary of zero downloads and zero skips are printed, no request is
    sent, and the run returns normally. *)
Theorem main_start_after_now
    (decode : string -> list byte -> result text) (w : World)
    (now start : month) (args_path args_start_date : string) :
  parse_start_date args_start_date = Return start ->
  fst now < fst start \/ (fst now = fst start /\ snd now < snd start) ->
  mkdir w args_path = true ->
  main decode w now args_path args_start_date
  = Some (Return (initial_state, Next),
          header args_path args_start_date
          ++ [EvPrint EmptyString; EvPrint "Summary: 0 downloaded, 0 skipped"]).
Proof.
  intros Hparse Hafter Hmkdir.
  assert (generate_months now args_start_date = Some (Return [])) as Hgen.
  { unfold generate_months. rewrite Hparse.
    assert (loop_cond now start = false) as Hcond.
    { unfold loop_cond. apply orb_false_iff. split.
      - apply Z.ltb_ge. lia.
      - apply andb_false_iff.
        destruct (Z.eqb_spec (fst start) (fst now)); [right | left; reflexivity].
        apply Z.leb_gt. lia. }
    destruct (iterations_bound now start); simpl; rewrite Hcond; reflexivity. }
  rewrite (main_runs decode w now args_path args_start_date [] initial_state Next []
             Hgen Hmkdir eq_refl).
  reflexivity.
Qed.

(** Started in 2031 while the clock reads March 2020. *)
Lemma main_start_after_now_witness :
  main py_decode (world_with [] [] [] []) (2020, 3) "/data" "2031-01"
  = Some (Return (initial_state, Next),
          header "/data" "2031-01"
          ++ [EvPrint EmptyString; EvPrint "Summary: 0 downloaded, 0 skipped"]).
Proof.
  apply (main_start_after_now py_decode (world_with [] [] [] []) (2020, 3) (2031, 1)
           "/data" "2031-01"); [reflexivity | simpl; lia | reflexivity].
Defined.

(** ** Counters and reported lines *)

Section CounterFacts.

Variable decode : string -> list byte -> result text.
Variable w : World.
Variable existing_files : gset string.
Variable args_path : string.

Lemma count_lines_app (select : event -> bool) (l1 l2 : list event) :
  count_lines select (l1 ++ l2) = count_lines select l1 + count_lines select l2.
Proof.
  unfold count_lines. rewrite List.filter_app, length_app. lia.
Qed.

Lemma prefix_append (p x : string) : String.prefix p (p +:+ x) = true.
Proof.
  induction p as [| c p IH]; simpl; [destruct x; reflexivity |].
  destruct (ascii_dec c c); [exact IH | congruence].
Qed.

(** The encoding loop prints one saved line when it returns true, and
    none otherwise. *)
Lemma encoding_loop_saved_lines (saved_name csv_path : string)
    (csv_content : list byte) (encodings : list string) :
  count_lines is_saved_line
    (trace (encoding_loop decode w saved_name csv_path csv_content encodings))
  = match outcome (encoding_loop decode w saved_name csv_path csv_content encodings) with
    | Return (ReturnedTrue _) => 1
    | _ => 0
    end.
Proof.
  induction encodings as [| encoding rest IH]; [reflexivity |].
  rewrite encoding_loop_cons.
  destruct (decode encoding csv_content) as [t | e].
  - destruct (encode_utf8 t) as [data |].
    + unfold saved_as. destruct (disk_write w csv_path data); [| reflexivity].
      cbn [trace outcome fst snd]. unfold count_lines.
      cbn [List.filter is_saved_line]. rewrite prefix_append. reflexivity.
    + destruct (String.eqb encoding "latin-1"); [reflexivity |].
      destruct (encoding_loop decode w saved_name csv_path csv_content rest)
        as [r evs]. exact IH.
  - destruct (is_UnicodeError e && negb (String.eqb encoding "latin-1"));
      [exact IH | reflexivity].
Qed.

Lemma handled_direct_saved_lines (filename : string) (e : exn) (evs : list event) :
  count_lines is_saved_line (trace (handled_direct filename e evs))
  = count_lines is_saved_line evs.
Proof.
  unfold handled_direct.
  destruct (is_RequestException e); [| destruct (is_Exception e)];
    cbn [trace snd]; rewrite ?count_lines_app; unfold count_lines; simpl; lia.
Qed.

Lemma handled_zip_saved_lines (filename : string) (e : exn) (evs : list event) :
  count_lines is_saved_line (trace (handled_zip filename e evs))
  = count_lines is_saved_line evs.
Proof.
  unfold handled_zip.
  destruct (is_RequestException e);
    [| destruct (is_BadZipFile e); [| destruct (is_Exception e)]];
    cbn [trace snd]; rewrite ?count_lines_app; unfold count_lines; simpl; lia.
Qed.

Lemma fetch_start_saved_lines (url filename : string) :
  count_lines is_saved_line (fetch_start url filename) = 0.
Proof. reflexivity. Qed.

Lemma download_csv_direct_saved_lines (url target_path filename : string) :
  count_lines is_saved_line
    (trace (download_csv_direct decode w url target_path filename))
  = match outcome (download_csv_direct decode w url target_path filename) with
    | Return true => 1
    | _ => 0
    end.
Proof.
  rewrite download_csv_direct_paths.
  assert (Hh : forall e evs,
             count_lines is_saved_line evs = 0 ->
             count_lines is_saved_line (trace (handled_direct filename e evs))
             = match outcome (handled_direct filename e evs) with
               | Return true => 1
               | _ => 0
               end).
  { intros e evs Hevs. rewrite handled_direct_saved_lines, Hevs.
    pose proof (proj2 (writes_of_handled_direct filename e evs)) as Hnt.
    destruct (outcome (handled_direct filename e evs)) as [[|] |]; congruence. }
  destruct (requests_get w url) as [[status_code body] | e];
    [| apply Hh, fetch_start_saved_lines].
  destruct (error_status status_code); [apply Hh, fetch_start_saved_lines |].
  pose proof (encoding_loop_saved_lines filename (path_join target_path filename)
                body candidate_encodings) as Hloop.
  destruct (encoding_loop decode w filename (path_join target_path filename)
              body candidate_encodings) as [[[enc |] | e] evs];
    cbn [finished trace outcome fst snd] in *.
  - rewrite count_lines_app, Hloop, fetch_start_saved_lines. reflexivity.
  - rewrite count_lines_app, Hloop, fetch_start_saved_lines. reflexivity.
  - apply Hh. rewrite count_lines_app, Hloop, fetch_start_saved_lines. reflexivity.
Qed.

Lemma download_and_extract_saved_lines (url target_path filename : string) :
  count_lines is_saved_line
    (trace (download_and_extract decode w url target_path filename))
  = match outcome (download_and_extract decode w url target_path filename) with
    | Return true => 1
    | _ => 0
    end.
Proof.
  rewrite download_and_extract_paths.
  assert (Hh : forall e evs,
             count_lines is_saved_line evs = 0 ->
             count_lines is_saved_line (trace (handled_zip filename e evs))
             = match outcome (handled_zip filename e evs) with
               | Return true => 1
               | _ => 0
               end).
  { intros e evs Hevs. rewrite handled_zip_saved_lines, Hevs.
    pose proof (proj2 (writes_of_handled_zip filename e evs)) as Hnt.
    destruct (outcome (handled_zip filename e evs)) as [[|] |]; congruence. }
  destruct (requests_get w url) as [[status_code body] | e];
    [| apply Hh, fetch_start_saved_lines].
  destruct (error_status status_code); [apply Hh, fetch_start_saved_lines |].
  destruct (zip_read w body (replace ".zip" ".csv" filename)) as [content | e];
    [| apply Hh, fetch_start_saved_lines].
  pose proof (encoding_loop_saved_lines (replace ".zip" ".csv" filename)
                (path_join target_path (replace ".zip" ".csv" filename))
                content candidate_encodings) as Hloop.
  destruct (encoding_loop decode w (replace ".zip" ".csv" filename)
              (path_join target_path (replace ".zip" ".csv" filename))
              content candidate_encodings) as [[[enc |] | e] evs];
    cbn [finished trace outcome fst snd] in *.
  - rewrite count_lines_app, Hloop, fetch_start_saved_lines. reflexivity.
  - rewrite count_lines_app, Hloop, fetch_start_saved_lines. reflexivity.
  - apply Hh. rewrite count_lines_app, Hloop, fetch_start_saved_lines. reflexivity.
Qed.

(** One pass of the body: the counters only grow, by at most one in
    total, and [downloaded] grows exactly with a saved line. *)
Lemma loop_body_counters (st st' : run_state) (fl : flow) (evs : list event)
    (month : string) :
  loop_body decode w existing_files args_path st month = (Return (st', fl), evs) ->
  downloaded st' = downloaded st + count_lines is_saved_line evs
  /\ 0 <= count_lines is_saved_line evs
  /\ skipped st <= skipped st'
  /\ (downloaded st' - downloaded st) + (skipped st' - skipped st) <= 1.
Proof.
  rewrite loop_body_paths.
  destruct (bool_decide (filename_of month ∈ existing_files)).
  { intros [= <- <- <-]. cbn [skip_month downloaded skipped].
    unfold count_lines. simpl. lia. }
  assert (Hfetch : forall probes fetched,
             count_lines is_saved_line probes = 0 ->
             count_lines is_saved_line (trace fetched)
             = match outcome fetched with Return true => 1 | _ => 0 end ->
             after_fetch st probes fetched = (Return (st', fl), evs) ->
             downloaded st' = downloaded st + count_lines is_saved_line evs
             /\ 0 <= count_lines is_saved_line evs
             /\ skipped st <= skipped st'
             /\ (downloaded st' - downloaded st) + (skipped st' - skipped st) <= 1).
  { intros probes [[ok | e] tr] Hprobes Htr; cbn [after_fetch trace outcome fst snd] in *;
      [| discriminate].
    intros [= <- <- <-]. rewrite count_lines_app, Hprobes, Htr.
    destruct ok; cbn [count_download reset_404s downloaded skipped]; lia. }
  destruct (outcome (file_exists w (zip_url_of month))) as [[|] | e]; [| | discriminate].
  - apply Hfetch; [reflexivity | apply download_and_extract_saved_lines].
  - destruct (outcome (file_exists w (csv_url_of month))) as [[|] | e];
      [| | discriminate].
    + apply Hfetch; [reflexivity | apply download_csv_direct_saved_lines].
    + intros [= <- <- <-]. cbn [miss_month downloaded skipped].
      unfold miss_events, count_lines.
      destruct (consecutive_404s (miss_month st) >=? max_consecutive_404s);
        simpl; lia.
Qed.

Lemma main_loop_counters (months : list string) :
  forall st0 st fl tr,
    main_loop decode w existing_files args_path months st0 = (Return (st, fl), tr) ->
    downloaded st = downloaded st0 + count_lines is_saved_line tr
    /\ 0 <= count_lines is_saved_line tr
    /\ skipped st0 <= skipped st
    /\ (downloaded st - downloaded st0) + (skipped st - skipped st0)
       <= Z.of_nat (length months).
Proof.
  induction months as [| month months IH]; intros st0 st fl tr.
  - cbn [main_loop]. intros [= <- <- <-]. unfold count_lines. simpl. lia.
  - cbn [main_loop].
    destruct (loop_body decode w existing_files args_path st0 month)
      as [[[st1 fl1] | e] evs] eqn:Hbody; run_monad; [| discriminate].
    apply loop_body_counters in Hbody as (Hd & Hpos & Hs & Hsum).
    destruct fl1.
    + destruct (main_loop decode w existing_files args_path months st1)
        as [r tr1] eqn:Hrest.
      intros [= -> <-]. apply IH in Hrest as (Hd' & Hpos' & Hs' & Hsum').
      rewrite count_lines_app. cbn [length]. lia.
    + intros [= <- <- <-]. rewrite app_nil_r. cbn [length]. lia.
Qed.

(** The miss counter of a run that was started below the threshold
    ends at the threshold exactly when the loop broke out. *)
Lemma main_loop_final_404s (months : list string) :
  forall st0 st fl tr,
    0 <= consecutive_404s st0 < 3 ->
    main_loop decode w existing_files args_path months st0 = (Return (st, fl), tr) ->
    0 <= consecutive_404s st <= 3
    /\ (fl = Break <-> consecutive_404s st = 3).
Proof.
  induction months as [| month months IH]; intros st0 st fl tr Hc0.
  - cbn [main_loop]. intros [= <- <- <-]. split; [lia |].
    split; [discriminate | lia].
  - change (month :: months) with ([month] ++ months).
    rewrite main_loop_app, main_loop_single.
    pose proof (loop_body_by_status decode w existing_files args_path st0 month)
      as Hbody.
    destruct (status_of w existing_files month).
    + rewrite Hbody.
      destruct (main_loop decode w existing_files args_path months (skip_month st0))
        as [r tr1] eqn:Hrest.
      intros [= -> <-]. apply IH in Hrest; [exact Hrest | exact Hc0].
    + destruct Hbody as (probes & [[ok | e] evs] & ->); cbn [after_fetch];
        [| discriminate].
      destruct (main_loop decode w existing_files args_path months
                  (count_download ok (reset_404s st0))) as [r tr1] eqn:Hrest.
      intros [= -> <-]. apply IH in Hrest; [exact Hrest |].
      destruct ok; cbn [count_download reset_404s consecutive_404s]; lia.
    + rewrite Hbody. destruct (miss_flow st0) eqn:Hflow.
      * destruct (main_loop decode w existing_files args_path months (miss_month st0))
          as [r tr1] eqn:Hrest.
        intros [= -> <-]. apply IH in Hrest; [exact Hrest |].
        assert (miss_flow st0 <> Break) as Hnb by congruence.
        rewrite miss_flow_Break in Hnb. unfold max_consecutive_404s in Hnb.
        cbn [miss_month consecutive_404s]. lia.
      * intros [= <- <- <-]. apply miss_flow_Break in Hflow.
        unfold max_consecutive_404s in Hflow. cbn [miss_month consecutive_404s].
        split; [lia |]. split; [lia | reflexivity].
    + destruct Hbody as (e & evs & ->). discriminate.
Qed.

End CounterFacts.

(** X6.  Whenever [main] returns, after an early stop as well, the last
    two lines printed are a blank line and the summary of the counters
    it returns.  Those counters are never negative, downloads and skips
    together never exceed the number of months enumerated, and the miss
    counter ends between 0 and 3, at 3 exactly when the loop was left
    by the early stop. *)
Theorem main_summary_and_counters
    (decode : string -> list byte -> result text) (w : World)
    (now : month) (args_path args_start_date : string)
    (ids : list string) (st : run_state) (fl : flow) (tr : list event) :
  generate_months now args_start_date = Some (Return ids) ->
  main decode w now args_path args_start_date = Some (Return (st, fl), tr) ->
  (exists tr0,
      tr = header args_path args_start_date ++ tr0
           ++ [EvPrint EmptyString; EvPrint (summary_line st)])
  /\ 0 <= downloaded st
  /\ 0 <= skipped st
  /\ downloaded st + skipped st <= Z.of_nat (length ids)
  /\ 0 <= consecutive_404s st <= 3
  /\ (fl = Break <-> consecutive_404s st = 3).
Proof.
  intros Hgen Hmain.
  destruct (main_returns decode w now args_path args_start_date ids st fl tr
              Hgen Hmain) as (_ & tr' & Hloop & ->).
  pose proof (main_loop_counters decode w _ args_path ids _ _ _ _ Hloop)
    as (Hd & Hpos & Hs & Hsum).
  pose proof (main_loop_final_404s decode w _ args_path ids initial_state st fl tr'
                ltac:(simpl; lia) Hloop) as [Hc Hbreak].
  cbn [initial_state downloaded skipped] in *.
  split; [exists tr'; reflexivity |].
  repeat split; try lia; apply Hbreak.
Qed.

(** The run of the scenario with a remote that stops after 202002 and a
    clock in September: three misses, then the early stop. *)
Lemma main_summary_and_counters_witness :
  let w := world_with ["202001"; "202002"] [] [] [x50; x4b] in
  exists tr0,
    trace (match main py_decode w (2020, 9) "/data" "2020-01" with
           | Some run => run
           | None => (Raise OSError, [])
           end)
    = header "/data" "2020-01" ++ tr0
      ++ [EvPrint EmptyString; EvPrint "Summary: 2 downloaded, 0 skipped"].
Proof.
  intros w.
  pose (st := {| downloaded := 2; skipped := 0; consecutive_404s := 3 |}).
  pose (tr := trace (match main py_decode w (2020, 9) "/data" "2020-01" with
                     | Some run => run
                     | None => (Raise OSError, [])
                     end)).
  assert (Hmain : main py_decode w (2020, 9) "/data" "2020-01"
                  = Some (Return (st, Break), tr)) by (vm_compute; reflexivity).
  destruct (main_summary_and_counters py_decode w (2020, 9) "/data" "2020-01"
              ["202001"; "202002"; "202003"; "202004"; "202005"; "202006";
               "202007"; "202008"; "202009"] st Break tr
              ltac:(vm_compute; reflexivity) Hmain) as [[tr0 Htr] _].
  exists tr0. exact Htr.
Defined.

(** X7.  The [downloaded] counter that [main] returns is the number of
    saved lines it printed: every counted download has its line, and
    every saved line is counted. *)
Theorem downloaded_counts_saved_lines
    (decode : string -> list byte -> result text) (w : World)
    (now : month) (args_path args_start_date : string)
    (ids : list string) (st : run_state) (fl : flow) (tr : list event) :
  generate_months now args_start_date = Some (Return ids) ->
  main decode w now args_path args_start_date = Some (Return (st, fl), tr) ->
  downloaded st = count_lines is_saved_line tr.
Proof.
  intros Hgen Hmain.
  destruct (main_returns decode w now args_path args_start_date ids st fl tr
              Hgen Hmain) as (_ & tr' & Hloop & ->).
  pose proof (main_loop_counters decode w _ args_path ids _ _ _ _ Hloop)
    as (Hd & _).
  rewrite !count_lines_app, Hd. cbn [initial_state downloaded].
  assert (count_lines is_saved_line
            [EvPrint ("Target directory: " +:+ args_path);
             EvPrint ("Starting from: " +:+ args_start_date);
             EvPrint EmptyString] = 0) as -> by reflexivity.
  assert (count_lines is_saved_line
            [EvPrint EmptyString; EvPrint (summary_line st)] = 0) as ->
    by reflexivity.
  lia.
Qed.

(** The same run: two downloads, two saved lines. *)
Lemma downloaded_counts_saved_lines_witness :
  let w := world_with ["202001"; "202002"] [] [] [x50; x4b] in
  2 = count_lines is_saved_line
        (trace (match main py_decode w (2020, 9) "/data" "2020-01" with
                | Some run => run
                | None => (Raise OSError, [])
                end)).
Proof.
  intros w.
  apply (downloaded_counts_saved_lines py_decode w (2020, 9) "/data" "2020-01"
           ["202001"; "202002"; "202003"; "202004"; "202005"; "202006";
            "202007"; "202008"; "202009"]
           {| downloaded := 2; skipped := 0; consecutive_404s := 3 |} Break);
    vm_compute; reflexivity.
Defined.

(** ** The requests of a run *)

Section RunRequests.

Variable decode : string -> list byte -> result text.
Variable w : World.
Variable existing_files : gset string.
Variable args_path : string.

(** The requests of one pass do not depend on the counters or on the
    decoders. *)
Lemma loop_body_requests (st : run_state) (month : string) :
  requests_of (trace (loop_body decode w existing_files args_path st month))
  = month_requests w existing_files month.
Proof.
  rewrite loop_body_paths. unfold month_requests.
  destruct (bool_decide (filename_of month ∈ existing_files)); [reflexivity |].
  destruct (outcome (file_exists w (zip_url_of month))) as [[|] | e].
  - rewrite after_fetch_trace, requests_of_app, requests_of_download_and_extract.
    reflexivity.
  - destruct (outcome (file_exists w (csv_url_of month))) as [[|] | e].
    + rewrite after_fetch_trace, requests_of_app, requests_of_download_csv_direct.
      reflexivity.
    + unfold miss_events. cbn [trace snd]. rewrite requests_of_app.
      destruct (consecutive_404s (miss_month st) >=? max_consecutive_404s);
        reflexivity.
    + reflexivity.
  - reflexivity.
Qed.

Lemma main_loop_requests (months : list string) :
  forall st0 r tr,
    main_loop decode w existing_files args_path months st0 = (r, tr) ->
    exists n,
      (n <= length months)%nat
      /\ requests_of tr
         = concat (map (month_requests w existing_files) (take n months))
      /\ (forall st, r = Return (st, Next) -> n = length months).
Proof.
  induction months as [| month months IH]; intros st0 r tr.
  - cbn [main_loop]. intros [= <- <-]. exists 0%nat. repeat split. simpl. lia.
  - cbn [main_loop].
    pose proof (loop_body_requests st0 month) as Hreq.
    destruct (loop_body decode w existing_files args_path st0 month)
      as [[[st1 fl1] | e] evs]; run_monad; cbn [trace snd] in Hreq.
    + destruct fl1.
      * destruct (main_loop decode w existing_files args_path months st1)
          as [r1 tr1] eqn:Hrest.
        intros [= <- <-]. destruct (IH _ _ _ Hrest) as (n & Hn & Htr & Hall).
        exists (S n). split; [simpl; lia |]. split.
        -- rewrite requests_of_app, Hreq, Htr. reflexivity.
        -- intros st Hr. rewrite (Hall st Hr). reflexivity.
      * intros [= <- <-]. exists 1%nat. split; [simpl; lia |]. split.
        -- rewrite app_nil_r, Hreq. cbn [take map concat]. rewrite take_0.
           cbn [map concat]. rewrite app_nil_r. reflexivity.
        -- discriminate.
    + intros [= <- <-]. exists 1%nat. split; [simpl; lia |]. split.
      * rewrite Hreq. cbn [take map concat]. rewrite take_0.
        cbn [map concat]. rewrite app_nil_r. reflexivity.
      * discriminate.
Qed.

End RunRequests.

(** X8.  The network traffic of a run is fixed by the remote and the
    pre-scan alone: the requests [main] sends are, month after month in
    the order of the enumeration, those of the months it reaches (none
    for a present month; otherwise HEAD of the archive, HEAD of the bare
    file if that answered false, and one GET of the variant found),
    and it reaches every enumerated month unless it stops early or
    raises.  No request concerns anything but an enumerated month, and
    the decoders have no say in what is requested. *)
Theorem run_requests_in_month_order
    (decode : string -> list byte -> result text) (w : World)
    (now : month) (args_path args_start_date : string)
    (ids : list string) (r : result (run_state * flow)) (tr : list event) :
  generate_months now args_start_date = Some (Return ids) ->
  main decode w now args_path args_start_date = Some (r, tr) ->
  exists n,
    (n <= length ids)%nat
    /\ requests_of tr
       = concat (map (month_requests w (csv_stems (listdir w args_path)))
                   (take n ids))
    /\ (forall st, r = Return (st, Next) -> n = length ids).
Proof.
  intros Hgen. unfold main. rewrite Hgen. intros [= Hmain]. revert Hmain.
  destruct (mkdir w args_path); run_monad.
  - destruct (main_loop decode w (csv_stems (listdir w args_path)) args_path ids
                initial_state) as [[[st1 fl1] | e] tr1] eqn:Hloop;
      intros [= <- <-];
      destruct (main_loop_requests decode w _ args_path ids _ _ _ Hloop)
        as (n & Hn & Htr & Hall);
      exists n; (split; [exact Hn |]); split.
    + cbn [app]. rewrite ?app_nil_r.
      change (requests_of (?a :: ?b :: ?c :: ?l)) with (requests_of l).
      rewrite requests_of_app, Htr. cbn [requests_of List.filter is_request].
      rewrite app_nil_r. reflexivity.
    + exact Hall.
    + cbn [app]. change (requests_of (?a :: ?b :: ?c :: ?l)) with (requests_of l).
      exact Htr.
    + discriminate.
  - intros [= <- <-]. exists 0%nat. split; [lia |]. split; [reflexivity |].
    discriminate.
Qed.

(** The requests of the scenario run read in September 2020. *)
Lemma run_requests_in_month_order_witness :
  let w := world_with ["202001"] [] ["202002CSV.csv"] [x50; x4b] in
  exists n,
    requests_of (trace (match main py_decode w (2020, 9) "/data" "2020-01" with
                        | Some run => run
                        | None => (Raise OSError, [])
                        end))
    = concat (map (month_requests w (csv_stems (listdir w "/data")))
                (take n ["202001"; "202002"; "202003"; "202004"; "202005";
                         "202006"; "202007"; "202008"; "202009"])).
Proof.
  intros w.
  pose (run := match main py_decode w (2020, 9) "/data" "2020-01" with
               | Some run => run
               | None => (Raise OSError, [])
               end).
  destruct (run_requests_in_month_order py_decode w (2020, 9) "/data" "2020-01"
              ["202001"; "202002"; "202003"; "202004"; "202005"; "202006";
               "202007"; "202008"; "202009"] (outcome run) (trace run)
              ltac:(vm_compute; reflexivity) ltac:(vm_compute; reflexivity))
    as (n & _ & Htr & _).
  exists n. exact Htr.
Defined.

(** ** The pre-scan *)

Section PreScanFacts.

Lemma substring_split (s : string) :
  forall i, (i <= String.length s)%nat ->
            s = substring 0 i s +:+ substring i (String.length s - i) s.
Proof.
  induction s as [| c s IH]; intros i Hi.
  - destruct i; reflexivity.
  - destruct i as [| i].
    + cbn [substring String.length]. rewrite Nat.sub_0_r.
      change (String c s = String c (substring 0 (String.length s) s)).
      rewrite substring_all. reflexivity.
    + cbn [substring String.length Nat.sub]. simpl in Hi.
      change (String c s
              = String c (substring 0 i s +:+ substring i (String.length s - i) s)).
      rewrite <- IH by lia. reflexivity.
Qed.

Lemma ends_with_split (suffix s : string) :
  ends_with suffix s = true ->
  s = substring 0 (String.length s - String.length suffix) s +:+ suffix.
Proof.
  unfold ends_with. intros H. apply andb_true_iff in H as [Hlen Heq].
  apply Nat.leb_le in Hlen. apply String.eqb_eq in Heq.
  rewrite (substring_split s (String.length s - String.length suffix)) at 1 by lia.
  replace (String.length s - (String.length s - String.length suffix))%nat
    with (String.length suffix) by lia.
  rewrite Heq. reflexivity.
Qed.

(** The stem of a listed [.csv] name is [<month>CSV] only for the name
    [<month>CSV.csv]. *)
Lemma stem_is_filename (name month : string) :
  ends_with ".csv" name = true ->
  stem name = filename_of month -> name = csv_name_of month.
Proof.
  intros Hends. unfold stem. rewrite Hends. cbn [andb].
  destruct (String.eqb_spec name ".csv") as [-> | Hne]; cbn [negb].
  - unfold filename_of. intros Heq. exfalso.
    pose proof (f_equal String.length Heq) as Hlen.
    rewrite length_append in Hlen. simpl in Hlen.
    destruct month as [| c [| c' rest]]; simpl in Hlen; try lia.
    simpl in Heq. injection Heq as _ Heq. discriminate Heq.
  - intros Hstem. rewrite (ends_with_split ".csv" name Hends).
    cbn [String.length]. rewrite Hstem. reflexivity.
Qed.

End PreScanFacts.

(** X9.  The pre-scan marks a month as present exactly when the
    directory lists a file named [<YYYYMM>CSV.csv]: no other name (another
    extension, another letter case, a longer name) makes the controller
    skip the month, and that name always does. *)
Theorem present_iff_csv_listed (names : list string) (month : string) :
  filename_of month ∈ csv_stems names <-> csv_name_of month ∈ names.
Proof.
  unfold csv_stems. rewrite elem_of_list_to_set.
  change (map ?f ?l) with (f <$> l). rewrite list_elem_of_fmap.
  split.
  - intros (name & Hstem & Hin). apply list_elem_of_filter in Hin as [Hends Hin].
    apply Is_true_true in Hends.
    rewrite <- (stem_is_filename name month Hends (eq_sym Hstem)). exact Hin.
  - intros Hin. exists (csv_name_of month). split.
    + symmetry. apply stem_csv_name.
    + apply list_elem_of_filter. split; [| exact Hin].
      unfold csv_name_of. rewrite ends_with_csv. exact I.
Qed.

(** ** Where a month is saved *)

Section SavedPath.

Lemma append_assoc (a b c : string) : (a +:+ b) +:+ c = a +:+ (b +:+ c).
Proof.
  induction a as [| x a IH]; [reflexivity |].
  change (String x ((a +:+ b) +:+ c) = String x (a +:+ (b +:+ c))).
  rewrite IH. reflexivity.
Qed.

Lemma no_dot_append (a b : string) : no_dot (a +:+ b) = no_dot a && no_dot b.
Proof.
  induction a as [| c a IH]; simpl; [reflexivity |].
  rewrite IH, andb_assoc. reflexivity.
Qed.

(** Nothing is replaced in a stretch without a dot. *)
Lemma replace_zip_no_dot (s t : string) :
  no_dot s = true ->
  replace_from ".zip" ".csv" 0 (s +:+ t) = s +:+ replace_from ".zip" ".csv" 0 t.
Proof.
  induction s as [| c s IH]; intros Hs; [reflexivity |].
  simpl in Hs. apply andb_true_iff in Hs as [Hc Hs].
  change (String c s +:+ t) with (String c (s +:+ t)).
  cbn [replace_from String.prefix].
  destruct (ascii_dec "." c) as [<- | _]; [discriminate Hc |].
  rewrite (IH Hs). reflexivity.
Qed.

Lemma replace_zip_name (month : string) :
  no_dot month = true ->
  replace ".zip" ".csv" (filename_of month +:+ ".zip") = csv_name_of month.
Proof.
  intros Hm. unfold replace, csv_name_of, filename_of.
  rewrite !append_assoc, (replace_zip_no_dot month _ Hm). reflexivity.
Qed.

Lemma no_dot_digit (d : Z) (rest : string) :
  0 <= d <= 9 -> no_dot (String (digit_char d) rest) = no_dot rest.
Proof.
  intros Hd. cbn [no_dot].
  assert (Ascii.eqb (digit_char d) "." = false) as ->; [| reflexivity].
  apply Ascii.eqb_neq. intros Heq. apply (f_equal nat_of_ascii) in Heq.
  unfold digit_char in Heq. rewrite nat_ascii_embedding in Heq by lia.
  change (nat_of_ascii ".") with 46%nat in Heq. lia.
Qed.

Lemma month_id_no_dot (ym : month) :
  0 <= fst ym <= 9999 -> valid_month ym -> no_dot (month_id ym) = true.
Proof.
  intros Hy Hm. rewrite (month_id_digits ym Hy Hm), no_dot_append.
  unfold valid_month in Hm. unfold four_digits, two_digits.
  pose proof (Z.mod_pos_bound (fst ym / 100) 10 ltac:(lia)).
  pose proof (Z.mod_pos_bound (fst ym / 10) 10 ltac:(lia)).
  pose proof (Z.mod_pos_bound (fst ym) 10 ltac:(lia)).
  pose proof (Z.mod_pos_bound (snd ym) 10 ltac:(lia)).
  rewrite !no_dot_digit by (lia || (apply digit_of_quotient; lia)).
  reflexivity.
Qed.

Variable decode : string -> list byte -> result text.
Variable w : World.
Variable existing_files : gset string.
Variable args_path : string.

Lemma after_fetch_writes (st : run_state) (probes : list event) (fetched : M bool) :
  writes_of probes = [] ->
  writes_of (trace (after_fetch st probes fetched)) = writes_of (trace fetched).
Proof.
  intros Hp. rewrite after_fetch_trace, writes_of_app, Hp. reflexivity.
Qed.

(** The writes of one pass are those of the encoding loop of the fetch
    it made, if it made one. *)
Lemma loop_body_writes (st : run_state) (month : string) :
  writes_of (trace (loop_body decode w existing_files args_path st month)) = []
  \/ exists saved_name csv_content,
       (saved_name = replace ".zip" ".csv" (filename_of month +:+ ".zip")
        \/ saved_name = csv_name_of month)
       /\ writes_of (trace (loop_body decode w existing_files args_path st month))
          = writes_of (trace (encoding_loop decode w saved_name
                                (path_join args_path saved_name) csv_content
                                candidate_encodings)).
Proof.
  rewrite loop_body_paths.
  destruct (bool_decide (filename_of month ∈ existing_files)); [left; reflexivity |].
  destruct (outcome (file_exists w (zip_url_of month))) as [[|] | e];
    [| | left; reflexivity].
  - rewrite after_fetch_writes by reflexivity.
    rewrite writes_of_download_and_extract.
    destruct (zip_content w (zip_url_of month)
                (replace ".zip" ".csv" (filename_of month +:+ ".zip")))
      as [content |]; [| left; reflexivity].
    right. exists (replace ".zip" ".csv" (filename_of month +:+ ".zip")), content.
    split; [left; reflexivity | reflexivity].
  - destruct (outcome (file_exists w (csv_url_of month))) as [[|] | e];
      [| | left; reflexivity].
    + rewrite after_fetch_writes by reflexivity.
      rewrite writes_of_download_csv_direct.
      destruct (direct_content w (csv_url_of month)) as [body |];
        [| left; reflexivity].
      right. exists (csv_name_of month), body.
      split; [right; reflexivity | reflexivity].
    + left. unfold miss_events. cbn [trace snd]. rewrite writes_of_app.
      destruct (consecutive_404s (miss_month st) >=? max_consecutive_404s);
        reflexivity.
Qed.

End SavedPath.

(** X10.  For an enumerated month (a calendar month of a year from 0 to
    9999), whichever variant is fetched and whatever the decoders do,
    every write of the controller goes to the one path
    [<dir>/<YYYYMM>CSV.csv]: the archive's name with [.zip] replaced is
    the bare file's name.  Under CPython's codecs there is at most one
    write for the month. *)
Theorem month_saved_under_csv_name
    (decode : string -> list byte -> result text) (w : World)
    (existing_files : gset string) (args_path : string)
    (st : run_state) (ym : month) :
  0 <= fst ym <= 9999 -> valid_month ym ->
  let month := month_id ym in
  replace ".zip" ".csv" (filename_of month +:+ ".zip") = csv_name_of month
  /\ (forall ev,
        In ev (writes_of (trace (loop_body decode w existing_files args_path st month))) ->
        exists data, ev = EvWrite (path_join args_path (csv_name_of month)) data)
  /\ (length (writes_of (trace (loop_body py_decode w existing_files args_path st
                                  month))) <= 1)%nat.
Proof.
  intros Hy Hm month.
  pose proof (replace_zip_name month (month_id_no_dot ym Hy Hm)) as Hname.
  split; [exact Hname |]. split.
  - intros ev Hin.
    destruct (loop_body_writes decode w existing_files args_path st month)
      as [Hnone | (name & content & Hn & Hw)].
    + rewrite Hnone in Hin. destruct Hin.
    + assert (name = csv_name_of month) as -> by (destruct Hn; congruence).
      rewrite Hw in Hin.
      apply encoding_loop_writes_decoded in Hin as (enc & t & _ & _ & ->). eauto.
  - destruct (loop_body_writes py_decode w existing_files args_path st month)
      as [-> | (name & content & _ & ->)]; [simpl; lia |].
    destruct (encoding_loop_py w name (path_join args_path name) content)
      as (enc & data & _ & ->).
    unfold saved_as. destruct (disk_write w (path_join args_path name) data);
      simpl; lia.
Qed.

(** January 2020 on a remote that has its archive. *)
Lemma month_saved_under_csv_name_witness :
  let w := world_with ["202001"] [] [] [x41] in
  replace ".zip" ".csv" "202001CSV.zip" = "202001CSV.csv"
  /\ (length (writes_of (trace (loop_body py_decode w ∅ "/data" initial_state
                                  "202001"))) <= 1)%nat.
Proof.
  intros w.
  destruct (month_saved_under_csv_name py_decode w ∅ "/data" initial_state (2020, 1)
              ltac:(simpl; lia) ltac:(unfold valid_month; simpl; lia))
    as (Hname & _ & Hone).
  split; [exact Hname | exact Hone].
Defined.

(** ** From text back to bytes and back again *)

Section EncodeDecode.

Lemma byte_val_of_val (v : Z) : 0 <= v < 256 -> byte_val (byte_of_val v) = v.
Proof.
  intros Hv. unfold byte_val, byte_of_val.
  destruct (Byte.of_N (Z.to_N v)) as [b |] eqn:Hb.
  - apply Byte.to_of_N in Hb. rewrite Hb. lia.
  - apply Byte.of_N_None_iff in Hb. lia.
Qed.

Ltac decide_bounds :=
  repeat match goal with
         | |- context [?a <? ?b] => destruct (Z.ltb_spec a b); try lia
         | |- context [?a <=? ?b] => destruct (Z.leb_spec a b); try lia
         | |- context [?a =? ?b] => destruct (Z.eqb_spec a b); try lia
         end.

Lemma decode_one_byte (v0 : Z) (rest : list byte) :
  0 <= v0 < 128 ->
  decode_utf8 (byte_of_val v0 :: rest)
  = match decode_utf8 rest with Some t => Some (v0 :: t) | None => None end.
Proof.
  intros H0. cbn [decode_utf8]. rewrite byte_val_of_val by lia.
  decide_bounds. reflexivity.
Qed.

Lemma decode_two_bytes (v0 v1 : Z) (rest : list byte) :
  194 <= v0 <= 223 -> 128 <= v1 <= 191 ->
  decode_utf8 (byte_of_val v0 :: byte_of_val v1 :: rest)
  = match decode_utf8 rest with
    | Some t => Some ((v0 - 192) * 64 + (v1 - 128) :: t)
    | None => None
    end.
Proof.
  intros H0 H1. cbn [decode_utf8]. rewrite !byte_val_of_val by lia.
  unfold is_cont. decide_bounds. reflexivity.
Qed.

Lemma decode_three_bytes (v0 v1 v2 : Z) (rest : list byte) :
  224 <= v0 <= 239 -> 128 <= v1 <= 191 -> 128 <= v2 <= 191 ->
  (v0 = 224 -> 160 <= v1) -> (v0 = 237 -> v1 <= 159) ->
  decode_utf8 (byte_of_val v0 :: byte_of_val v1 :: byte_of_val v2 :: rest)
  = match decode_utf8 rest with
    | Some t => Some ((v0 - 224) * 4096 + (v1 - 128) * 64 + (v2 - 128) :: t)
    | None => None
    end.
Proof.
  intros H0 H1 H2 Hlo Hhi. cbn [decode_utf8]. rewrite !byte_val_of_val by lia.
  unfold second_ok3, is_cont. decide_bounds; reflexivity.
Qed.

Lemma decode_four_bytes (v0 v1 v2 v3 : Z) (rest : list byte) :
  240 <= v0 <= 244 -> 128 <= v1 <= 191 -> 128 <= v2 <= 191 -> 128 <= v3 <= 191 ->
  (v0 = 240 -> 144 <= v1) -> (v0 = 244 -> v1 <= 143) ->
  decode_utf8 (byte_of_val v0 :: byte_of_val v1 :: byte_of_val v2
               :: byte_of_val v3 :: rest)
  = match decode_utf8 rest with
    | Some t =>
        Some ((v0 - 240) * 262144 + (v1 - 128) * 4096 + (v2 - 128) * 64
              + (v3 - 128) :: t)
    | None => None
    end.
Proof.
  intros H0 H1 H2 H3 Hlo Hhi. cbn [decode_utf8]. rewrite !byte_val_of_val by lia.
  unfold second_ok4, is_cont. decide_bounds; reflexivity.
Qed.

(** Decoding the UTF-8 form of one code point gives the code point. *)
Lemma decode_encoded_char (c : Z) (bs rest : list byte) :
  encode_utf8_char c = Some bs ->
  decode_utf8 (bs ++ rest)
  = match decode_utf8 rest with Some t => Some (c :: t) | None => None end.
Proof.
  unfold encode_utf8_char.
  destruct (Z.ltb_spec c 0); [discriminate |].
  destruct (Z.ltb_spec c 128).
  { intros [= <-]. cbn [app]. apply decode_one_byte. lia. }
  pose proof (Z.div_mod c 64 ltac:(lia)) as Hd1.
  pose proof (Z.mod_pos_bound c 64 ltac:(lia)) as Hm1.
  destruct (Z.ltb_spec c 2048).
  { intros [= <-]. cbn [app].
    assert (2 <= c / 64 <= 31) by (split; [apply Z.div_le_lower_bound
                                          | apply Z.lt_succ_r, Z.div_lt_upper_bound];
                                   lia).
    rewrite decode_two_bytes by lia.
    replace ((192 + c / 64 - 192) * 64 + (128 + c mod 64 - 128)) with c by lia.
    reflexivity. }
  pose proof (Z.div_mod (c / 64) 64 ltac:(lia)) as Hd2.
  pose proof (Z.mod_pos_bound (c / 64) 64 ltac:(lia)) as Hm2.
  assert (c / 64 / 64 = c / 4096) as Hdd by (rewrite Z.div_div by lia; reflexivity).
  rewrite Hdd in Hd2.
  destruct (Z.ltb_spec c 65536).
  { destruct ((55296 <=? c) && (c <=? 57343)) eqn:Hs; [discriminate |].
    apply andb_false_iff in Hs.
    assert (c < 55296 \/ 57343 < c) as Hns
      by (destruct Hs as [Hs | Hs]; [apply Z.leb_gt in Hs | apply Z.leb_gt in Hs]; lia).
    intros [= <-]. cbn [app].
    rewrite decode_three_bytes by lia.
    replace ((224 + c / 4096 - 224) * 4096 + (128 + c / 64 mod 64 - 128) * 64
             + (128 + c mod 64 - 128)) with c by lia.
    reflexivity. }
  destruct (Z.ltb_spec c 1114112); [| discriminate].
  pose proof (Z.div_mod (c / 4096) 64 ltac:(lia)) as Hd3.
  pose proof (Z.mod_pos_bound (c / 4096) 64 ltac:(lia)) as Hm3.
  assert (c / 4096 / 64 = c / 262144) as Hdd3 by (rewrite Z.div_div by lia; reflexivity).
  rewrite Hdd3 in Hd3.
  intros [= <-]. cbn [app].
  rewrite decode_four_bytes by lia.
  replace ((240 + c / 262144 - 240) * 262144 + (128 + c / 4096 mod 64 - 128) * 4096
           + (128 + c / 64 mod 64 - 128) * 64 + (128 + c mod 64 - 128)) with c by lia.
  reflexivity.
Qed.

(** What [encode_utf8] produces, [decode_utf8] reads back. *)
Lemma encode_decode_utf8 (t : text) (bs : list byte) :
  encode_utf8 t = Some bs -> decode_utf8 bs = Some t.
Proof.
  revert bs. induction t as [| c t IH]; intros bs; cbn [encode_utf8].
  - intros [= <-]. reflexivity.
  - destruct (encode_utf8_char c) as [cs |] eqn:Hc; [| discriminate].
    destruct (encode_utf8 t) as [bs' |]; [| discriminate].
    intros [= <-]. rewrite (decode_encoded_char c cs bs' Hc), (IH bs' eq_refl).
    reflexivity.
Qed.

End EncodeDecode.

(** ** The conversion under CPython's codecs *)

Section Conversion.

Lemma encoding_loop_py_convert (w : World) (saved_name csv_path : string)
    (csv_content : list byte) :
  encoding_loop py_decode w saved_name csv_path csv_content candidate_encodings
  = saved_as w saved_name csv_path (fst (py_convert csv_content))
      (snd (py_convert csv_content)).
Proof.
  unfold py_convert.
  destruct (decode_utf8 csv_content) as [t |] eqn:Hutf.
  { apply (encoding_loop_utf8 w saved_name csv_path csv_content t Hutf). }
  destruct (decode_cp1252 csv_content) as [t |] eqn:Hcp.
  { destruct (encoding_loop_cp1252 w saved_name csv_path csv_content t Hutf Hcp)
      as (data & Henc & ->).
    unfold written_for. rewrite Henc. reflexivity. }
  destruct (encoding_loop_latin1 w saved_name csv_path csv_content Hutf Hcp)
    as (data & Henc & ->).
  unfold written_for. rewrite Henc. reflexivity.
Qed.

(** The text that the chosen encoding reads in the content. *)
Lemma py_convert_decodes (csv_content : list byte) :
  exists t,
    py_decode (fst (py_convert csv_content)) csv_content = Return t
    /\ encode_utf8 t = Some (snd (py_convert csv_content)).
Proof.
  unfold py_convert.
  destruct (decode_utf8 csv_content) as [t |] eqn:Hutf.
  { exists t. split; [rewrite py_decode_utf8, Hutf; reflexivity |].
    apply decode_encode_utf8, Hutf. }
  destruct (decode_cp1252 csv_content) as [t |] eqn:Hcp.
  { exists t. split; [rewrite py_decode_cp1252, Hcp; reflexivity |].
    destruct (encode_utf8_low t (decode_cp1252_low _ _ Hcp)) as [data Henc].
    unfold written_for. cbn [fst snd]. rewrite Henc. reflexivity. }
  exists (map byte_val csv_content). split; [reflexivity |].
  destruct (encode_utf8_low _ (decode_latin1_low csv_content)) as [data Henc].
  unfold written_for. cbn [fst snd]. rewrite Henc. reflexivity.
Qed.

Lemma cp1252_undefined_None (b : byte) :
  match cp1252_char (byte_val b) with None => true | Some _ => false end
  = cp1252_undefined (byte_val b).
Proof. destruct b; reflexivity. Qed.

Lemma decode_cp1252_None (bs : list byte) :
  decode_cp1252 bs = None
  <-> existsb (fun b => cp1252_undefined (byte_val b)) bs = true.
Proof.
  induction bs as [| b bs IH]; cbn [decode_cp1252 existsb].
  - split; discriminate.
  - rewrite <- cp1252_undefined_None, orb_true_iff, <- IH.
    destruct (cp1252_char (byte_val b)) as [c |]; [| tauto].
    destruct (decode_cp1252 bs); split; (discriminate || tauto || intros [|]; congruence).
Qed.

Lemma decode_utf8_ascii (bs : list byte) :
  forallb (fun b => byte_val b <? 128) bs = true ->
  decode_utf8 bs = Some (map byte_val bs).
Proof.
  induction bs as [| b bs IH]; cbn [forallb decode_utf8 map]; [reflexivity |].
  intros H. apply andb_true_iff in H as [Hb Hbs].
  rewrite Hb, (IH Hbs). reflexivity.
Qed.

End Conversion.

(** X11.  Under CPython's codecs a fetch succeeds exactly when the
    content arrives and the disk takes the write: the decoding stage is
    never the reason for a failure.  On success the fetch has printed
    its start line, sent its GET, written the converted content to the
    target path and reported the encoding used; when the disk refuses
    the write, the fetch reports a failure to process and returns
    false. *)
Theorem fetch_succeeds_iff_written (w : World) (url target_path filename : string) :
  let csv_filename := replace ".zip" ".csv" filename in
  (forall body,
      direct_content w url = Some body ->
      let csv_path := path_join target_path filename in
      let data := snd (py_convert body) in
      download_csv_direct py_decode w url target_path filename
      = if disk_write w csv_path data
        then (Return true,
              fetch_start url filename
              ++ [EvWrite csv_path data;
                  EvPrint ("✓ Saved " +:+ filename +:+ " (converted from "
                           +:+ fst (py_convert body) +:+ " to UTF-8)")])
        else (Return false,
              fetch_start url filename
              ++ [EvWrite csv_path data;
                  EvPrintError ("✗ Failed to process " +:+ filename +:+ ": ")
                    OSError]))
  /\ (forall csv_content,
      zip_content w url csv_filename = Some csv_content ->
      let csv_path := path_join target_path csv_filename in
      let data := snd (py_convert csv_content) in
      download_and_extract py_decode w url target_path filename
      = if disk_write w csv_path data
        then (Return true,
              fetch_start url filename
              ++ [EvWrite csv_path data;
                  EvPrint ("✓ Saved " +:+ csv_filename +:+ " (converted from "
                           +:+ fst (py_convert csv_content) +:+ " to UTF-8)")])
        else (Return false,
              fetch_start url filename
              ++ [EvWrite csv_path data;
                  EvPrintError ("✗ Failed to process " +:+ filename +:+ ": ")
                    OSError]))
  /\ (outcome (download_csv_direct py_decode w url target_path filename) = Return true
      <-> exists body,
            direct_content w url = Some body
            /\ disk_write w (path_join target_path filename)
                 (snd (py_convert body)) = true)
  /\ (outcome (download_and_extract py_decode w url target_path filename) = Return true
      <-> exists csv_content,
            zip_content w url csv_filename = Some csv_content
            /\ disk_write w (path_join target_path csv_filename)
                 (snd (py_convert csv_content)) = true).
Proof.
  intros csv_filename.
  assert (Hdirect : forall body,
             direct_content w url = Some body ->
             download_csv_direct py_decode w url target_path filename
             = if disk_write w (path_join target_path filename) (snd (py_convert body))
               then (Return true,
                     fetch_start url filename
                     ++ [EvWrite (path_join target_path filename)
                           (snd (py_convert body));
                         EvPrint ("✓ Saved " +:+ filename +:+ " (converted from "
                                  +:+ fst (py_convert body) +:+ " to UTF-8)")])
               else (Return false,
                     fetch_start url filename
                     ++ [EvWrite (path_join target_path filename)
                           (snd (py_convert body));
                         EvPrintError ("✗ Failed to process " +:+ filename +:+ ": ")
                           OSError])).
  { intros body. rewrite download_csv_direct_paths. unfold direct_content.
    destruct (requests_get w url) as [[status_code body'] | e]; [| discriminate].
    destruct (error_status status_code); [discriminate |].
    intros [= ->]. rewrite encoding_loop_py_convert. unfold saved_as.
    destruct (disk_write w (path_join target_path filename) (snd (py_convert body)));
      cbn [finished handled_direct is_RequestException is_Exception];
      rewrite <- ?app_assoc; reflexivity. }
  assert (Hzip : forall csv_content,
             zip_content w url csv_filename = Some csv_content ->
             download_and_extract py_decode w url target_path filename
             = if disk_write w (path_join target_path csv_filename)
                    (snd (py_convert csv_content))
               then (Return true,
                     fetch_start url filename
                     ++ [EvWrite (path_join target_path csv_filename)
                           (snd (py_convert csv_content));
                         EvPrint ("✓ Saved " +:+ csv_filename +:+ " (converted from "
                                  +:+ fst (py_convert csv_content) +:+ " to UTF-8)")])
               else (Return false,
                     fetch_start url filename
                     ++ [EvWrite (path_join target_path csv_filename)
                           (snd (py_convert csv_content));
                         EvPrintError ("✗ Failed to process " +:+ filename +:+ ": ")
                           OSError])).
  { intros content. rewrite download_and_extract_paths. fold csv_filename.
    unfold zip_content, direct_content.
    destruct (requests_get w url) as [[status_code body] | e]; [| discriminate].
    destruct (error_status status_code); [discriminate |].
    destruct (zip_read w body csv_filename) as [content' | e]; [| discriminate].
    intros [= ->]. rewrite encoding_loop_py_convert. unfold saved_as.
    destruct (disk_write w (path_join target_path csv_filename)
                (snd (py_convert content)));
      cbn [finished handled_zip is_RequestException is_BadZipFile is_Exception];
      rewrite <- ?app_assoc; reflexivity. }
  split; [exact Hdirect |]. split; [exact Hzip |]. split.
  - split.
    + intros Hok. destruct (direct_content w url) as [body |] eqn:Hcontent.
      * exists body. split; [reflexivity |].
        rewrite (Hdirect body eq_refl) in Hok.
        destruct (disk_write w (path_join target_path filename)
                    (snd (py_convert body))); [reflexivity | discriminate].
      * exfalso. revert Hok. apply download_csv_direct_fails.
        rewrite Hcontent. exact I.
    + intros (body & Hcontent & Hdisk). rewrite (Hdirect body Hcontent), Hdisk.
      reflexivity.
  - split.
    + intros Hok. destruct (zip_content w url csv_filename) as [content |] eqn:Hcontent.
      * exists content. split; [reflexivity |].
        rewrite (Hzip content eq_refl) in Hok.
        destruct (disk_write w (path_join target_path csv_filename)
                    (snd (py_convert content))); [reflexivity | discriminate].
      * exfalso. revert Hok. apply download_and_extract_fails.
        fold csv_filename. rewrite Hcontent. exact I.
    + intros (content & Hcontent & Hdisk). rewrite (Hzip content Hcontent), Hdisk.
      reflexivity.
Qed.

(** A bare file of three ASCII bytes, saved as it came. *)
Lemma fetch_succeeds_iff_written_witness :
  let w := world_with [] [] [] [x61; x2c; x62] in
  download_csv_direct py_decode w "u" "/data" "f.csv"
  = (Return true,
     fetch_start "u" "f.csv"
     ++ [EvWrite "/data/f.csv" [x61; x2c; x62];
         EvPrint "✓ Saved f.csv (converted from utf-8 to UTF-8)"]).
Proof.
  intros w.
  apply (proj1 (fetch_succeeds_iff_written w "u" "/data" "f.csv") [x61; x2c; x62]).
  reflexivity.
Defined.

(** X12.  Whatever the controller writes under CPython's codecs is
    valid UTF-8: the bytes handed to the disk decode, as UTF-8, to the
    very text that the chosen encoding read in the download. *)
Theorem written_data_is_utf8 (w : World) (existing_files : gset string)
    (args_path : string) (st : run_state) (month : string) :
  (forall csv_content, exists t,
      py_decode (fst (py_convert csv_content)) csv_content = Return t
      /\ decode_utf8 (snd (py_convert csv_content)) = Some t)
  /\ (forall ev,
      In ev (writes_of (trace (loop_body py_decode w existing_files args_path st
                                 month))) ->
      exists csv_path data t,
        ev = EvWrite csv_path data /\ decode_utf8 data = Some t).
Proof.
  assert (Hconv : forall csv_content, exists t,
             py_decode (fst (py_convert csv_content)) csv_content = Return t
             /\ decode_utf8 (snd (py_convert csv_content)) = Some t).
  { intros content. destruct (py_convert_decodes content) as (t & Hdec & Henc).
    exists t. split; [exact Hdec | apply encode_decode_utf8, Henc]. }
  split; [exact Hconv |].
  intros ev Hin.
  destruct (loop_body_writes py_decode w existing_files args_path st month)
    as [Hnone | (name & content & _ & Hw)].
  - rewrite Hnone in Hin. destruct Hin.
  - rewrite Hw, encoding_loop_py_convert in Hin.
    destruct (Hconv content) as (t & _ & Hutf).
    exists (path_join args_path name), (snd (py_convert content)), t.
    split; [| exact Hutf].
    unfold saved_as in Hin.
    destruct (disk_write w (path_join args_path name) (snd (py_convert content)));
      simpl in Hin; destruct Hin as [<- | []]; reflexivity.
Qed.

Section Lossless.

Lemma cp1252_distinct_table :
  forallb (fun n1 =>
             forallb (fun n2 => cp1252_distinct (Z.of_nat n1) (Z.of_nat n2))
               (seq 128 32))
          (seq 128 32) = true.
Proof. vm_compute. reflexivity. Qed.

Lemma cp1252_high_distinct (v1 v2 c1 c2 : Z) :
  128 <= v1 <= 159 -> 128 <= v2 <= 159 ->
  cp1252_high v1 = Some c1 -> cp1252_high v2 = Some c2 ->
  256 <= c1 /\ (c1 = c2 -> v1 = v2).
Proof.
  intros Hr1 Hr2 H1 H2. pose proof cp1252_distinct_table as Ht.
  rewrite forallb_forall in Ht.
  specialize (Ht (Z.to_nat v1) ltac:(apply in_seq; lia)).
  rewrite forallb_forall in Ht.
  specialize (Ht (Z.to_nat v2) ltac:(apply in_seq; lia)).
  rewrite !Z2Nat.id in Ht by lia. unfold cp1252_distinct in Ht.
  rewrite H1, H2 in Ht. apply andb_true_iff in Ht as [Hbig Himp].
  split; [apply Z.leb_le, Hbig |].
  intros ->. rewrite Z.eqb_refl in Himp. apply Z.eqb_eq, Himp.
Qed.

Lemma byte_val_inj (b1 b2 : byte) : byte_val b1 = byte_val b2 -> b1 = b2.
Proof.
  intros H. rewrite <- (byte_of_val_val b1), <- (byte_of_val_val b2), H. reflexivity.
Qed.

Lemma cp1252_char_inj (b1 b2 : byte) (c : Z) :
  cp1252_char (byte_val b1) = Some c -> cp1252_char (byte_val b2) = Some c -> b1 = b2.
Proof.
  unfold cp1252_char. intros H1 H2. apply byte_val_inj.
  pose proof (byte_val_range b1) as Hr1. pose proof (byte_val_range b2) as Hr2.
  destruct ((128 <=? byte_val b1) && (byte_val b1 <=? 159)) eqn:E1;
    destruct ((128 <=? byte_val b2) && (byte_val b2 <=? 159)) eqn:E2;
    try (apply andb_true_iff in E1 as [E1a E1b];
         apply Z.leb_le in E1a; apply Z.leb_le in E1b);
    try (apply andb_true_iff in E2 as [E2a E2b];
         apply Z.leb_le in E2a; apply Z.leb_le in E2b).
  - apply (cp1252_high_distinct _ _ c c); [lia | lia | assumption | assumption |
                                            reflexivity].
  - injection H2 as <-.
    destruct (cp1252_high_distinct (byte_val b1) (byte_val b1) _ _ ltac:(lia) ltac:(lia) H1 H1)
      as [Hbig _].
    lia.
  - injection H1 as <-.
    destruct (cp1252_high_distinct (byte_val b2) (byte_val b2) _ _ ltac:(lia) ltac:(lia) H2 H2)
      as [Hbig _].
    lia.
  - congruence.
Qed.

Lemma decode_cp1252_inj (bs1 bs2 : list byte) (t : text) :
  decode_cp1252 bs1 = Some t -> decode_cp1252 bs2 = Some t -> bs1 = bs2.
Proof.
  revert bs2 t. induction bs1 as [| b1 bs1 IH]; intros [| b2 bs2] t;
    cbn [decode_cp1252].
  - reflexivity.
  - intros [= <-]. destruct (cp1252_char (byte_val b2)); [| discriminate].
    destruct (decode_cp1252 bs2); discriminate.
  - destruct (cp1252_char (byte_val b1)); [| discriminate].
    destruct (decode_cp1252 bs1); [| discriminate]. intros [= <-]. discriminate.
  - destruct (cp1252_char (byte_val b1)) as [c1 |] eqn:H1; [| discriminate].
    destruct (decode_cp1252 bs1) as [t1 |] eqn:Hd1; [| discriminate].
    destruct (cp1252_char (byte_val b2)) as [c2 |] eqn:H2; [| discriminate].
    destruct (decode_cp1252 bs2) as [t2 |] eqn:Hd2; [| discriminate].
    intros [= <-] [= -> ->]. f_equal.
    + eapply cp1252_char_inj; eauto.
    + eapply IH; eauto.
Qed.

Lemma map_byte_val_inj (bs1 bs2 : list byte) :
  map byte_val bs1 = map byte_val bs2 -> bs1 = bs2.
Proof.
  revert bs2. induction bs1 as [| b1 bs1 IH]; intros [| b2 bs2]; simpl;
    try discriminate; [reflexivity |].
  intros [= Hb Hbs]. f_equal; [apply byte_val_inj, Hb | apply IH, Hbs].
Qed.

Lemma encode_utf8_inj (t1 t2 : text) (data : list byte) :
  encode_utf8 t1 = Some data -> encode_utf8 t2 = Some data -> t1 = t2.
Proof.
  intros H1 H2. apply encode_decode_utf8 in H1, H2. congruence.
Qed.

End Lossless.

(** Equal encoding and equal data come from equal content. *)
Lemma py_convert_inj (content1 content2 : list byte) :
  py_convert content1 = py_convert content2 -> content1 = content2.
Proof.
  destruct (py_convert_decodes content1) as (t1 & Hd1 & He1).
  destruct (py_convert_decodes content2) as (t2 & Hd2 & He2).
  intros Heq. rewrite <- Heq in Hd2, He2.
  assert (t1 = t2) as <- by (eapply encode_utf8_inj; eauto).
  revert Hd1 Hd2. clear. unfold py_convert.
  destruct (decode_utf8 content1) as [u1 |] eqn:Hu1; cbn [fst].
  { rewrite !py_decode_utf8, Hu1. intros [= ->].
    destruct (decode_utf8 content2) as [u2 |] eqn:Hu2; [| discriminate].
    intros [= ->]. apply decode_encode_utf8 in Hu1, Hu2. congruence. }
  destruct (decode_cp1252 content1) as [c1 |] eqn:Hc1; cbn [fst].
  { rewrite !py_decode_cp1252, Hc1. intros [= ->].
    destruct (decode_cp1252 content2) as [c2 |] eqn:Hc2; [| discriminate].
    intros [= ->]. eapply decode_cp1252_inj; eauto. }
  rewrite !py_decode_latin1. intros [= <-] [= H]. symmetry.
  apply map_byte_val_inj, H.
Qed.

(** X13.  The conversion loses nothing.  Over a disk that takes the
    write, two downloads on which the decoding stage does the same
    thing (the same bytes written, the same encoding reported in the
    saved line) were the same bytes: what is on disk, together with the
    encoding named when it was saved, determines what was downloaded. *)
Theorem conversion_is_lossless (w : World) (saved_name csv_path : string)
    (content1 content2 : list byte) :
  (forall data, disk_write w csv_path data = true) ->
  encoding_loop py_decode w saved_name csv_path content1 candidate_encodings
  = encoding_loop py_decode w saved_name csv_path content2 candidate_encodings ->
  content1 = content2.
Proof.
  intros Hdisk. rewrite !encoding_loop_py_convert. unfold saved_as.
  rewrite !Hdisk. intros [= Henc Hdata _]. apply py_convert_inj.
  destruct (py_convert content1), (py_convert content2). cbn [fst snd] in *.
  congruence.
Qed.

(** The byte 0xE9 read as cp1252 is written as the UTF-8 bytes
    0xC3 0xA9, which a download of those two bytes would also give:
    only the reported encoding tells the two apart. *)
Lemma conversion_is_lossless_witness :
  snd (py_convert [xe9]) = snd (py_convert [xc3; xa9])
  /\ [xe9] = [xe9].
Proof.
  split; [reflexivity |].
  apply (conversion_is_lossless (world_with [] [] [] []) "f" "p" [xe9] [xe9]);
    reflexivity.
Defined.

(** X14.  Which encoding the loop settles on, under CPython's codecs:
    utf-8 whenever the content is valid UTF-8, in particular for pure
    ASCII, which is written unchanged; otherwise cp1252 unless the
    content holds one of the five bytes that code page leaves undefined
    (0x81, 0x8D, 0x8F, 0x90, 0x9D); and latin-1 only in that last
    case. *)
Theorem encoding_choice (w : World) (saved_name csv_path : string)
    (csv_content : list byte) :
  let has_undefined :=
    existsb (fun b => cp1252_undefined (byte_val b)) csv_content in
  encoding_loop py_decode w saved_name csv_path csv_content candidate_encodings
  = saved_as w saved_name csv_path (fst (py_convert csv_content))
      (snd (py_convert csv_content))
  /\ (fst (py_convert csv_content) = "utf-8" <-> decode_utf8 csv_content <> None)
  /\ (fst (py_convert csv_content) = "cp1252"
      <-> decode_utf8 csv_content = None /\ has_undefined = false)
  /\ (fst (py_convert csv_content) = "latin-1"
      <-> decode_utf8 csv_content = None /\ has_undefined = true)
  /\ (forallb (fun b => byte_val b <? 128) csv_content = true ->
      py_convert csv_content = ("utf-8", csv_content)).
Proof.
  intros has_undefined. subst has_undefined.
  split; [apply encoding_loop_py_convert |].
  pose proof (decode_cp1252_None csv_content) as Hundef.
  unfold py_convert.
  destruct (decode_utf8 csv_content) as [t |] eqn:Hutf.
  { cbn [fst]. repeat split; try discriminate; try congruence;
      try (intros [? _]; discriminate). }
  destruct (decode_cp1252 csv_content) as [t |] eqn:Hcp; cbn [fst].
  - assert (existsb (fun b => cp1252_undefined (byte_val b)) csv_content = false)
      as Hfalse.
    { destruct (existsb _ csv_content); [| reflexivity].
      destruct Hundef as [_ H]. discriminate (H eq_refl). }
    rewrite Hfalse. repeat split; try discriminate; try congruence;
      try (intros [_ ?]; discriminate).
    intros Hascii. apply decode_utf8_ascii in Hascii. congruence.
  - rewrite (proj1 Hundef eq_refl).
    repeat split; try discriminate; try congruence;
      try (intros [_ ?]; discriminate).
    intros Hascii. apply decode_utf8_ascii in Hascii. congruence.
Qed.

(** The lone byte 0x81 is neither UTF-8 nor cp1252: latin-1 takes it. *)
Lemma encoding_choice_witness :
  fst (py_convert [x81]) = "latin-1"
  /\ py_convert [x61; x62] = ("utf-8", [x61; x62]).
Proof.
  split.
  - apply (proj1 (proj2 (proj2 (proj2 (encoding_choice (world_with [] [] [] [])
                                         "f" "p" [x81]))))).
    split; reflexivity.
  - apply (proj2 (proj2 (proj2 (proj2 (encoding_choice (world_with [] [] [] [])
                                         "f" "p" [x61; x62]))))).
    reflexivity.
Defined.

(** ** What the handlers let through *)

Section Escapes.

Variable decode : string -> list byte -> result text.
Variable w : World.

Lemma handled_direct_escape (filename : string) (e e' : exn) (evs : list event) :
  outcome (handled_direct filename e evs) = Raise e' -> is_Exception e' = false.
Proof.
  unfold handled_direct.
  destruct (is_RequestException e); [discriminate |].
  destruct (is_Exception e) eqn:He; [discriminate |].
  intros [= <-]. exact He.
Qed.

Lemma handled_zip_escape (filename : string) (e e' : exn) (evs : list event) :
  outcome (handled_zip filename e evs) = Raise e' -> is_Exception e' = false.
Proof.
  unfold handled_zip.
  destruct (is_RequestException e); [discriminate |].
  destruct (is_BadZipFile e); [discriminate |].
  destruct (is_Exception e) eqn:He; [discriminate |].
  intros [= <-]. exact He.
Qed.

Lemma download_csv_direct_escape (url target_path filename : string) (e : exn) :
  outcome (download_csv_direct decode w url target_path filename) = Raise e ->
  is_Exception e = false.
Proof.
  rewrite download_csv_direct_paths.
  destruct (requests_get w url) as [[status_code body] | e0];
    [| apply handled_direct_escape].
  destruct (error_status status_code); [apply handled_direct_escape |].
  destruct (encoding_loop decode w filename (path_join target_path filename)
              body candidate_encodings) as [[[enc |] | e0] evs];
    cbn [finished]; [discriminate | discriminate | apply handled_direct_escape].
Qed.

Lemma download_and_extract_escape (url target_path filename : string) (e : exn) :
  outcome (download_and_extract decode w url target_path filename) = Raise e ->
  is_Exception e = false.
Proof.
  rewrite download_and_extract_paths.
  destruct (requests_get w url) as [[status_code body] | e0];
    [| apply handled_zip_escape].
  destruct (error_status status_code); [apply handled_zip_escape |].
  destruct (zip_read w body (replace ".zip" ".csv" filename)) as [content | e0];
    [| apply handled_zip_escape].
  destruct (encoding_loop decode w (replace ".zip" ".csv" filename)
              (path_join target_path (replace ".zip" ".csv" filename))
              content candidate_encodings) as [[[enc |] | e0] evs];
    cbn [finished]; [discriminate | discriminate | apply handled_zip_escape].
Qed.

Lemma file_exists_escape (url : string) (e : exn) :
  outcome (file_exists w url) = Raise e -> is_RequestException e = false.
Proof.
  unfold file_exists, call. run_monad.
  destruct (requests_head w url) as [status_code | e0]; [discriminate |].
  destruct (is_RequestException e0) eqn:He; [discriminate |].
  intros [= <-]. exact He.
Qed.

Lemma not_Exception_not_Request (e : exn) :
  is_Exception e = false -> is_RequestException e = false.
Proof. destruct e; (reflexivity || discriminate). Qed.

Lemma loop_body_escape (existing_files : gset string) (args_path : string)
    (st : run_state) (month : string) (e : exn) :
  outcome (loop_body decode w existing_files args_path st month) = Raise e ->
  is_RequestException e = false.
Proof.
  rewrite loop_body_paths.
  destruct (bool_decide (filename_of month ∈ existing_files)); [discriminate |].
  pose proof (file_exists_escape (zip_url_of month)) as Hzip.
  pose proof (file_exists_escape (csv_url_of month)) as Hcsv.
  destruct (outcome (file_exists w (zip_url_of month))) as [[|] | e0].
  - pose proof (download_and_extract_escape (zip_url_of month) args_path
                  (filename_of month +:+ ".zip")) as Hf.
    destruct (download_and_extract decode w (zip_url_of month) args_path
                (filename_of month +:+ ".zip")) as [[ok | e0] evs];
      cbn [after_fetch outcome fst] in *; [discriminate |].
    intros [= <-]. apply not_Exception_not_Request, Hf. reflexivity.
  - destruct (outcome (file_exists w (csv_url_of month))) as [[|] | e0].
    + pose proof (download_csv_direct_escape (csv_url_of month) args_path
                    (csv_name_of month)) as Hf.
      destruct (download_csv_direct decode w (csv_url_of month) args_path
                  (csv_name_of month)) as [[ok | e0] evs];
        cbn [after_fetch outcome fst] in *; [discriminate |].
      intros [= <-]. apply not_Exception_not_Request, Hf. reflexivity.
    + discriminate.
    + intros [= <-]. apply Hcsv. reflexivity.
  - intros [= <-]. apply Hzip. reflexivity.
Qed.

Lemma main_loop_escape (existing_files : gset string) (args_path : string)
    (months : list string) :
  forall st0 e tr,
    main_loop decode w existing_files args_path months st0 = (Raise e, tr) ->
    is_RequestException e = false.
Proof.
  induction months as [| month months IH]; intros st0 e tr; cbn [main_loop].
  - discriminate.
  - pose proof (loop_body_escape existing_files args_path st0 month) as Hbody.
    destruct (loop_body decode w existing_files args_path st0 month)
      as [[[st1 fl1] | e0] evs]; run_monad.
    + destruct fl1; [| discriminate].
      destruct (main_loop decode w existing_files args_path months st1)
        as [r tr1] eqn:Hrest.
      intros [= -> <-]. eapply IH. exact Hrest.
    + intros [= <- <-]. apply Hbody. reflexivity.
Qed.

End Escapes.

(** X15.  How the fetchers report their failures, whatever the
    decoders: a request that raises a [RequestException] and a response
    with an error status are each reported as a failed download, an
    archive that raises [BadZipFile] as an invalid ZIP file, and the
    fetcher returns false without having written anything.  Nothing
    derived from [Exception] ever leaves a fetcher. *)
Theorem fetch_failures_are_reported
    (decode : string -> list byte -> result text) (w : World)
    (url target_path filename : string) :
  let download_failed e :=
    (Return false,
     fetch_start url filename
     ++ [EvPrintError ("✗ Failed to download " +:+ filename +:+ ": ") e]) in
  (forall k, requests_get w url = Raise (RequestException k) ->
      download_csv_direct decode w url target_path filename
      = download_failed (RequestException k)
      /\ download_and_extract decode w url target_path filename
         = download_failed (RequestException k))
  /\ (forall status_code body,
      requests_get w url = Return (status_code, body) ->
      400 <= status_code < 600 ->
      download_csv_direct decode w url target_path filename
      = download_failed (RequestException HTTPError)
      /\ download_and_extract decode w url target_path filename
         = download_failed (RequestException HTTPError))
  /\ (forall body,
      direct_content w url = Some body ->
      zip_read w body (replace ".zip" ".csv" filename) = Raise BadZipFile ->
      download_and_extract decode w url target_path filename
      = (Return false,
         fetch_start url filename ++ [EvPrint ("✗ Invalid ZIP file: " +:+ filename)]))
  /\ (forall e,
      outcome (download_csv_direct decode w url target_path filename) = Raise e
      \/ outcome (download_and_extract decode w url target_path filename) = Raise e ->
      is_Exception e = false).
Proof.
  intros download_failed. subst download_failed.
  split; [| split; [| split]].
  - intros k Hget.
    rewrite download_csv_direct_paths, download_and_extract_paths, Hget.
    split; reflexivity.
  - intros status_code body Hget Hstatus.
    rewrite download_csv_direct_paths, download_and_extract_paths, Hget.
    assert (error_status status_code = true) as ->.
    { unfold error_status. apply andb_true_iff.
      split; [apply Z.leb_le | apply Z.ltb_lt]; lia. }
    split; reflexivity.
  - intros body Hcontent Hzip. rewrite download_and_extract_paths.
    revert Hcontent. unfold direct_content.
    destruct (requests_get w url) as [[status_code body'] | e]; [| discriminate].
    destruct (error_status status_code); [discriminate |].
    intros [= ->]. rewrite Hzip. reflexivity.
  - intros e [He | He].
    + eapply download_csv_direct_escape, He.
    + eapply download_and_extract_escape, He.
Qed.

(** A remote that answers 503 to the GET. *)
Lemma fetch_failures_are_reported_witness :
  let w := {| requests_head := fun _ => Return 200;
              requests_get := fun _ => Return (503, []);
              zip_read := fun archive _ => Return archive;
              disk_write := fun _ _ => true;
              mkdir := fun _ => true;
              listdir := fun _ => [] |} in
  download_csv_direct py_decode w "u" "/data" "f.csv"
  = (Return false,
     fetch_start "u" "f.csv"
     ++ [EvPrintError "✗ Failed to download f.csv: " (RequestException HTTPError)]).
Proof.
  intros w.
  apply (proj1 (proj1 (proj2 (fetch_failures_are_reported py_decode w "u" "/data"
                                "f.csv")) 503 [] eq_refl ltac:(lia))).
Defined.

(** X16.  No network error ends a run: whatever the remote, the disk
    and the decoders do, [main] never terminates with a
    [RequestException]; those raised by a probe count as absence and
    those raised by a fetch as a failed download. *)
Theorem main_never_ends_with_request_error
    (decode : string -> list byte -> result text) (w : World)
    (now : month) (args_path args_start_date : string)
    (e : exn) (tr : list event) :
  main decode w now args_path args_start_date = Some (Raise e, tr) ->
  is_RequestException e = false.
Proof.
  unfold main.
  destruct (generate_months now args_start_date) as [generated |] eqn:Hgen;
    [| discriminate].
  intros [= Hmain]. revert Hmain.
  destruct (mkdir w args_path); run_monad; [| intros [= <- _]; reflexivity].
  destruct generated as [ids | e0].
  - destruct (main_loop decode w (csv_stems (listdir w args_path)) args_path ids
                initial_state) as [[[st fl] | e1] tr1] eqn:Hloop; [discriminate |].
    intros [= <- _]. eapply main_loop_escape, Hloop.
  - intros [= <- _]. revert Hgen. unfold generate_months, parse_start_date.
    destruct (map int (split_on "-" args_start_date))
      as [| [y |] [| [m |] [| c rest]]];
      try (intros [= <-]; reflexivity);
      destruct (generate_months_loop _ now _); discriminate.
Qed.

(** A remote on which every request times out: the run ends in an
    error only through the start date. *)
Lemma main_never_ends_with_request_error_witness :
  is_RequestException ValueError = false.
Proof.
  apply (main_never_ends_with_request_error py_decode
           {| requests_head := fun _ => Raise (RequestException Timeout);
              requests_get := fun _ => Raise (RequestException Timeout);
              zip_read := fun _ _ => Raise BadZipFile;
              disk_write := fun _ _ => true;
              mkdir := fun _ => true;
              listdir := fun _ => [] |}
           (2020, 3) "/data" "2020" ValueError (header "/data" "2020")).
  reflexivity.
Defined.

(** ** A remote that cannot be reached *)

Section NetworkDown.

Variable decode : string -> list byte -> result text.
Variable w : World.
Variable existing_files : gset string.
Variable args_path : string.

Hypothesis network_down :
  forall url, exists k, requests_head w url = Raise (RequestException k).

Lemma file_exists_network_down (url : string) :
  outcome (file_exists w url) = Return false.
Proof.
  destruct (network_down url) as [k Hk].
  unfold file_exists, call. rewrite Hk. reflexivity.
Qed.

Lemma loop_body_network_down (st : run_state) (month : string) :
  filename_of month ∉ existing_files ->
  loop_body decode w existing_files args_path st month
  = (Return (miss_month st, miss_flow st), miss_events month st).
Proof.
  intros Hnew. rewrite loop_body_paths, bool_decide_eq_false_2 by exact Hnew.
  rewrite !file_exists_network_down. reflexivity.
Qed.

End NetworkDown.

(** X17.  When the remote cannot be reached (every HEAD raises a
    [RequestException]) and the first three enumerated months are not
    present locally, the run takes the three failures for three missing
    months and stops there: six HEAD requests, no GET, nothing
    downloaded, and no later month is looked at. *)
Theorem network_down_stops_after_three
    (decode : string -> list byte -> result text) (w : World)
    (existing_files : gset string) (args_path : string)
    (m1 m2 m3 : string) (rest : list string) :
  (forall url, exists k, requests_head w url = Raise (RequestException k)) ->
  filename_of m1 ∉ existing_files ->
  filename_of m2 ∉ existing_files ->
  filename_of m3 ∉ existing_files ->
  let run :=
    main_loop decode w existing_files args_path (m1 :: m2 :: m3 :: rest)
      initial_state in
  outcome run
  = Return ({| downloaded := 0; skipped := 0; consecutive_404s := 3 |}, Break)
  /\ requests_of (trace run)
     = [EvHead (zip_url_of m1); EvHead (csv_url_of m1);
        EvHead (zip_url_of m2); EvHead (csv_url_of m2);
        EvHead (zip_url_of m3); EvHead (csv_url_of m3)].
Proof.
  intros Hdown H1 H2 H3 run. subst run. cbn [main_loop].
  rewrite (loop_body_network_down decode w existing_files args_path Hdown _ m1 H1).
  run_monad. cbn [miss_flow miss_month initial_state consecutive_404s downloaded
                  skipped max_consecutive_404s Z.add Z.geb Z.compare Pos.compare
                  Pos.compare_cont Pos.add Pos.succ].
  unfold miss_flow, max_consecutive_404s; cbn.
  rewrite (loop_body_network_down decode w existing_files args_path Hdown _ m2 H2).
  unfold miss_flow, max_consecutive_404s; cbn.
  rewrite (loop_body_network_down decode w existing_files args_path Hdown _ m3 H3).
  unfold miss_flow, max_consecutive_404s; cbn.
  split; reflexivity.
Qed.

(** A remote that refuses every connection, from January 2020 on. *)
Lemma network_down_stops_after_three_witness :
  let w := {| requests_head := fun _ => Raise (RequestException ConnectionError);
              requests_get := fun _ => Raise (RequestException ConnectionError);
              zip_read := fun archive _ => Return archive;
              disk_write := fun _ _ => true;
              mkdir := fun _ => true;
              listdir := fun _ => [] |} in
  outcome (main_loop py_decode w ∅ "/data"
             ["202001"; "202002"; "202003"; "202004"] initial_state)
  = Return ({| downloaded := 0; skipped := 0; consecutive_404s := 3 |}, Break).
Proof.
  intros w.
  apply (proj1 (network_down_stops_after_three py_decode w ∅ "/data"
                  "202001" "202002" "202003" ["202004"]
                  (fun _ => ex_intro _ ConnectionError eq_refl)
                  (not_elem_of_empty _) (not_elem_of_empty _)
                  (not_elem_of_empty _))).
Defined.

(** ** The size of the enumeration *)

(** X18.  From a valid start month that is not after the clock, the
    generator yields 12 identifiers per year of distance plus the
    difference of the months plus one; the first is the start month and
    the last is the current month. *)
Theorem enumeration_size (now s : month) (start_date_str : string) :
  parse_start_date start_date_str = Return s ->
  valid_month s -> valid_month now ->
  month_index s <= month_index now ->
  exists ids,
    generate_months now start_date_str = Some (Return ids)
    /\ Z.of_nat (length ids) = 12 * (fst now - fst s) + (snd now - snd s) + 1
    /\ head ids = Some (month_id s)
    /\ last ids = Some (month_id now).
Proof.
  intros Hparse Hs Hnow Hle.
  exists (map month_id (months_from_to s now)).
  assert (Hlen : length (months_from_to s now)
                 = Z.to_nat (month_index now - month_index s + 1)).
  { unfold months_from_to. rewrite length_map, length_seq. reflexivity. }
  split; [| split; [| split]].
  - unfold generate_months. rewrite Hparse.
    destruct (generate_months_loop_total (iterations_bound now s) now s)
      as [ids Hids]; [lia |].
    rewrite Hids. do 2 f_equal. eapply generate_months_loop_spec; eauto.
  - rewrite length_map, Hlen. unfold month_index in *. lia.
  - rewrite head_lookup. change (map ?f ?l) with (f <$> l).
    rewrite list_lookup_fmap.
    rewrite (proj2 (months_from_to_lookup s now 0 s)); [reflexivity |].
    split; [lia |]. rewrite Z.add_0_r. symmetry. apply month_of_index_index, Hs.
  - rewrite last_lookup. change (map ?f ?l) with (f <$> l).
    rewrite list_lookup_fmap, length_fmap, Hlen.
    rewrite (proj2 (months_from_to_lookup s now
                      (Init.Nat.pred (Z.to_nat (month_index now - month_index s + 1)))
                      now)); [reflexivity |].
    split; [lia |].
    replace (month_index s
             + Z.of_nat (Init.Nat.pred
                           (Z.to_nat (month_index now - month_index s + 1))))
      with (month_index now) by lia.
    symmetry. apply month_of_index_index, Hnow.
Qed.

(** From November 2019 to February 2021: sixteen months. *)
Lemma enumeration_size_witness :
  exists ids,
    generate_months (2021, 2) "2019-11" = Some (Return ids)
    /\ Z.of_nat (length ids) = 12 * (2021 - 2019) + (2 - 11) + 1
    /\ head ids = Some "201911"
    /\ last ids = Some "202102".
Proof.
  apply (enumeration_size (2021, 2) (2019, 11) "2019-11");
    [reflexivity | unfold valid_month; simpl; lia
     | unfold valid_month; simpl; lia | unfold month_index; simpl; lia].
Defined.

(** ** Worked examples for the pre-scan and the written data *)

(** A directory with the file of January 2020 and an archive beside it. *)
Lemma present_iff_csv_listed_witness :
  filename_of "202001" ∈ csv_stems ["202001CSV.csv"; "202002CSV.zip"].
Proof.
  apply (proj2 (present_iff_csv_listed ["202001CSV.csv"; "202002CSV.zip"] "202001")).
  apply list_elem_of_In. simpl. tauto.
Defined.

(** The cp1252 byte 0xE9 is written as the two UTF-8 bytes of U+00E9. *)
Lemma written_data_is_utf8_witness :
  exists t,
    py_decode (fst (py_convert [xe9])) [xe9] = Return t
    /\ decode_utf8 (snd (py_convert [xe9])) = Some t.
Proof.
  apply (proj1 (written_data_is_utf8 (world_with [] [] [] []) ∅ "/data"
                  initial_state "202001") [xe9]).
Defined.
